(** * ChemEnv geometry matching: continuous symmetry measures and permutation search

    A shallow embedding of the geometry-matching core of
    [pymatgen.analysis.chemenv.coordination_environments]:

    - [coordination_geometry_finder.py]: [AbstractGeometry], [symmetry_measure],
      [find_rotation], [find_scaling_factor] and the search and orchestration
      methods of [LocalGeometryFinder];
    - [coordination_geometries.py]: [ExplicitPermutationsAlgorithm],
      [SeparationPlane] with its serialization, [CoordinationGeometry] and
      the list and lookup functions of [AllCoordinationGeometries].

    Numbers.  numpy's [float64] values are idealised as real numbers extended
    with [+inf], [-inf] and [nan] (type [npfloat]): rounding is not modelled,
    the special values and the way numpy propagates them are.  Coordinates that
    enter the functions are finite, hence plain reals.

    Exceptions.  A Python call either returns or raises: [pyresult].

    External code.  [numpy.linalg.svd], the random generator and the plane
    utilities of [chemenv.utils.coordination_geometry_utils] are parameters of
    the sections that use them. *)

From Stdlib Require Import Reals Lra Psatz List Permutation Sorted.
From stdpp Require Import gmap strings list.
Import ListNotations.

Set Default Proof Using "Type".

(* ================================================================== *)
(** * Part I.  The embedding                                           *)
(* ================================================================== *)

(** ** Python outcomes *)

Inductive pyexn : Set :=
| ValueError | TypeError | IndexError | KeyError | AttributeError
| RuntimeError | LinAlgError.

Inductive pyresult (A : Type) : Type :=
| Ok (a : A)
| Raise (e : pyexn).
Arguments Ok {A} a.
Arguments Raise {A} e.

#[global] Instance pyresult_ret : MRet pyresult := @Ok.
#[global] Instance pyresult_bind : MBind pyresult :=
  fun A B (f : A -> pyresult B) (m : pyresult A) =>
    match m with
    | Ok a => f a
    | Raise e => Raise e
    end.

(** [xs[i]] on a Python list or a numpy array, for an index that is not
    negative. *)
Definition getitem {A : Type} (xs : list A) (i : nat) : pyresult A :=
  match xs !! i with
  | Some x => Ok x
  | None => Raise IndexError
  end.

(** [[f(x) for x in xs]] where [f] may raise: the first exception wins. *)
Fixpoint for_each {A B : Type} (f : A -> pyresult B) (xs : list A)
  : pyresult (list B) :=
  match xs with
  | [] => Ok []
  | x :: xs' => y ← f x; ys ← for_each f xs'; Ok (y :: ys)
  end.

(** [xs.take(idx, axis=0)] and [[xs[i] for i in idx]]. *)
Definition take {A : Type} (xs : list A) (idx : list nat) : pyresult (list A) :=
  for_each (getitem xs) idx.

(** ** Floating-point values *)

Inductive npfloat : Type :=
| Fin (r : R)
| PInf
| NInf
| NaN.

Definition is_finite (a : npfloat) : Prop :=
  match a with Fin _ => True | _ => False end.

Definition fneg (a : npfloat) : npfloat :=
  match a with
  | Fin x => Fin (- x)
  | PInf => NInf
  | NInf => PInf
  | NaN => NaN
  end.

Definition fadd (a b : npfloat) : npfloat :=
  match a, b with
  | NaN, _ | _, NaN => NaN
  | Fin x, Fin y => Fin (x + y)
  | PInf, NInf | NInf, PInf => NaN
  | PInf, _ | _, PInf => PInf
  | NInf, _ | _, NInf => NInf
  end.

Definition fsub (a b : npfloat) : npfloat := fadd a (fneg b).

(** The infinity with the sign of [x]; [nan] for [x = 0] ([inf * 0]). *)
Definition inf_signed (x : R) : npfloat :=
  if Rlt_dec 0 x then PInf else if Rlt_dec x 0 then NInf else NaN.

Definition fmul (a b : npfloat) : npfloat :=
  match a, b with
  | NaN, _ | _, NaN => NaN
  | Fin x, Fin y => Fin (x * y)
  | Fin x, PInf | PInf, Fin x => inf_signed x
  | Fin x, NInf | NInf, Fin x => inf_signed (- x)
  | PInf, PInf | NInf, NInf => PInf
  | PInf, NInf | NInf, PInf => NInf
  end.

(** numpy scalar division never raises: a zero divisor gives [nan] ([0/0]) or
    an infinity (with a RuntimeWarning).  Zero carries no sign here; the
    divisors of [symmetry_measure] are sums of squares, which are never
    [-0.0]. *)
Definition fdiv (a b : npfloat) : npfloat :=
  match a, b with
  | NaN, _ | _, NaN => NaN
  | Fin x, Fin y =>
      if Req_dec_T y 0 then inf_signed x else Fin (x / y)
  | Fin _, (PInf | NInf) => Fin 0
  | (PInf | NInf), (PInf | NInf) => NaN
  | PInf, Fin y => if Rlt_dec y 0 then NInf else PInf
  | NInf, Fin y => if Rlt_dec y 0 then PInf else NInf
  end.

(** ** Points and 3x3 matrices *)

(** One row of an [n x 3] coordinate array. *)
Definition V3 : Type := R * R * R.

Definition vzero : V3 := (0, 0, 0)%R.

Definition vadd (a b : V3) : V3 :=
  let '(a1, a2, a3) := a in let '(b1, b2, b3) := b in
  (a1 + b1, a2 + b2, a3 + b3)%R.

Definition vsub (a b : V3) : V3 :=
  let '(a1, a2, a3) := a in let '(b1, b2, b3) := b in
  (a1 - b1, a2 - b2, a3 - b3)%R.

Definition vscale (c : R) (a : V3) : V3 :=
  let '(a1, a2, a3) := a in (c * a1, c * a2, c * a3)%R.

Definition dot (a b : V3) : R :=
  let '(a1, a2, a3) := a in let '(b1, b2, b3) := b in
  (a1 * b1 + a2 * b2 + a3 * b3)%R.

Record M33 : Type := mk33 {
  m11 : R; m12 : R; m13 : R;
  m21 : R; m22 : R; m23 : R;
  m31 : R; m32 : R; m33 : R
}.

Definition mzero : M33 := mk33 0 0 0 0 0 0 0 0 0.
Definition mid : M33 := mk33 1 0 0 0 1 0 0 0 1.

(** [np.diag(S)] for the vector of singular values. *)
Definition mdiag (s : V3) : M33 :=
  let '(s1, s2, s3) := s in mk33 s1 0 0 0 s2 0 0 0 s3.

(** [A.T] *)
Definition mtrans (a : M33) : M33 :=
  mk33 (m11 a) (m21 a) (m31 a)
       (m12 a) (m22 a) (m32 a)
       (m13 a) (m23 a) (m33 a).

Definition madd (a b : M33) : M33 :=
  mk33 (m11 a + m11 b) (m12 a + m12 b) (m13 a + m13 b)
       (m21 a + m21 b) (m22 a + m22 b) (m23 a + m23 b)
       (m31 a + m31 b) (m32 a + m32 b) (m33 a + m33 b).

(** [np.matmul(A, B)] on 3x3 arrays. *)
Definition mmul (a b : M33) : M33 :=
  mk33 (m11 a * m11 b + m12 a * m21 b + m13 a * m31 b)
       (m11 a * m12 b + m12 a * m22 b + m13 a * m32 b)
       (m11 a * m13 b + m12 a * m23 b + m13 a * m33 b)
       (m21 a * m11 b + m22 a * m21 b + m23 a * m31 b)
       (m21 a * m12 b + m22 a * m22 b + m23 a * m32 b)
       (m21 a * m13 b + m22 a * m23 b + m23 a * m33 b)
       (m31 a * m11 b + m32 a * m21 b + m33 a * m31 b)
       (m31 a * m12 b + m32 a * m22 b + m33 a * m32 b)
       (m31 a * m13 b + m32 a * m23 b + m33 a * m33 b).

(** The matrix applied to one point (a column of [points.T]). *)
Definition mvec (a : M33) (v : V3) : V3 :=
  let '(v1, v2, v3) := v in
  (m11 a * v1 + m12 a * v2 + m13 a * v3,
   m21 a * v1 + m22 a * v2 + m23 a * v3,
   m31 a * v1 + m32 a * v2 + m33 a * v3)%R.

Definition mscale (c : R) (a : M33) : M33 :=
  mk33 (c * m11 a) (c * m12 a) (c * m13 a)
       (c * m21 a) (c * m22 a) (c * m23 a)
       (c * m31 a) (c * m32 a) (c * m33 a).

Definition trace (a : M33) : R := (m11 a + m22 a + m33 a)%R.

Definition det (a : M33) : R :=
  (m11 a * (m22 a * m33 a - m23 a * m32 a)
   - m12 a * (m21 a * m33 a - m23 a * m31 a)
   + m13 a * (m21 a * m32 a - m22 a * m31 a))%R.

(** The contribution of one pair of rows to [D.T @ P]: entry [(a, b)] is
    [d_a * p_b]. *)
Definition outer (d p : V3) : M33 :=
  let '(d1, d2, d3) := d in let '(p1, p2, p3) := p in
  mk33 (d1 * p1) (d1 * p2) (d1 * p3)
       (d2 * p1) (d2 * p2) (d2 * p3)
       (d3 * p1) (d3 * p2) (d3 * p3).

(** [np.matmul(D.T, P)] for two [n x 3] arrays: the sum over the rows of the
    outer products.  The shapes are checked by the callers below. *)
Fixpoint matmul_T (D P : list V3) : M33 :=
  match D, P with
  | d :: D', p :: P' => madd (outer d p) (matmul_T D' P')
  | _, _ => mzero
  end.

(** [np.matmul(rot, D.T).T]: the matrix applied to every row. *)
Definition rotate_rows (rot : M33) (D : list V3) : list V3 := map (mvec rot) D.

(** [np.tensordot(A, B)] (axes=2) for two real [n x 3] arrays of the same
    shape: the sum of all elementwise products. *)
Fixpoint tensordot (A B : list V3) : R :=
  match A, B with
  | a :: A', b :: B' => (dot a b + tensordot A' B')%R
  | _, _ => 0%R
  end.

(** Rows whose entries may be non-finite. *)
Definition FV3 : Type := npfloat * npfloat * npfloat.

Definition lift3 (v : V3) : FV3 :=
  let '(v1, v2, v3) := v in (Fin v1, Fin v2, Fin v3).

Definition fvscale (s : npfloat) (v : V3) : FV3 :=
  let '(v1, v2, v3) := v in
  (fmul s (Fin v1), fmul s (Fin v2), fmul s (Fin v3)).

Definition fvsub (p : V3) (a : FV3) : FV3 :=
  let '(p1, p2, p3) := p in let '(a1, a2, a3) := a in
  (fsub (Fin p1) a1, fsub (Fin p2) a2, fsub (Fin p3) a3).

(** [s * rows] for a numpy scalar [s]. *)
Definition fscale_rows (s : npfloat) (A : list V3) : list FV3 :=
  map (fvscale s) A.

(** [P - A], elementwise, for arrays of the same shape. *)
Fixpoint fsub_rows (P : list V3) (A : list FV3) : list FV3 :=
  match P, A with
  | p :: P', a :: A' => fvsub p a :: fsub_rows P' A'
  | _, _ => []
  end.

Definition fdot (a b : FV3) : npfloat :=
  let '(a1, a2, a3) := a in let '(b1, b2, b3) := b in
  fadd (fadd (fmul a1 b1) (fmul a2 b2)) (fmul a3 b3).

(** [np.tensordot(A, B)] on arrays that may hold non-finite entries. *)
Fixpoint ftensordot (A B : list FV3) : npfloat :=
  match A, B with
  | a :: A', b :: B' => fadd (fdot a b) (ftensordot A' B')
  | _, _ => Fin 0
  end.

(** ** The aligner: [symmetry_measure], [find_rotation], [find_scaling_factor] *)

(** The dictionary returned by [symmetry_measure]; the searches add the key
    ["translation_vector"] afterwards ([None] here: key absent). *)
Record sm_info : Type := mk_sm_info {
  sm_symmetry_measure : npfloat;
  sm_scaling_factor : option npfloat;      (* [None]: Python's [None] *)
  sm_rotation_matrix : option M33;         (* [None]: Python's [None] *)
  sm_translation_vector : option V3
}.

Definition set_translation_vector (info : sm_info) (t : V3) : sm_info :=
  {| sm_symmetry_measure := sm_symmetry_measure info;
     sm_scaling_factor := sm_scaling_factor info;
     sm_rotation_matrix := sm_rotation_matrix info;
     sm_translation_vector := Some t |}.

(** What [numpy.linalg.svd] promises for [U, S, Vt = svd(H)]. *)
Definition orthogonal (a : M33) : Prop :=
  mmul (mtrans a) a = mid /\ mmul a (mtrans a) = mid.

Definition is_svd (H : M33) (usv : M33 * V3 * M33) : Prop :=
  let '(U, sv, Vt) := usv in
  orthogonal U /\ orthogonal Vt /\
  (let '(s1, s2, s3) := sv in 0 <= s1 /\ 0 <= s2 /\ 0 <= s3)%R /\
  mmul U (mmul (mdiag sv) Vt) = H.

Section Aligner.

(** [numpy.linalg.svd] on a 3x3 array. *)
Variable svd : M33 -> M33 * V3 * M33.

(** [np.matmul(points_distorted.T, points_perfect)] raises [ValueError]
    when the two arrays have different numbers of rows. *)
Definition find_rotation (points_distorted points_perfect : list V3)
  : pyresult M33 :=
  if decide (length points_distorted = length points_perfect) then
    let H := matmul_T points_distorted points_perfect in
    let '(U, _S, Vt) := svd H in
    Ok (mmul (mtrans Vt) (mtrans U))
  else Raise ValueError.

(** [np.tensordot(rotated_coords, points_perfect)] raises [ValueError] on a
    shape mismatch. *)
Definition find_scaling_factor
    (points_distorted points_perfect : list V3) (rot : M33)
  : pyresult (npfloat * list V3 * list V3) :=
  let rotated_coords := rotate_rows rot points_distorted in
  if decide (length rotated_coords = length points_perfect) then
    let num := tensordot rotated_coords points_perfect in
    let denom := tensordot rotated_coords rotated_coords in
    Ok (fdiv (Fin num) (Fin denom), rotated_coords, points_perfect)
  else Raise ValueError.

Definition symmetry_measure (points_distorted points_perfect : list V3)
  : pyresult sm_info :=
  if decide (length points_distorted = 1%nat) then
    Ok {| sm_symmetry_measure := Fin 0;
          sm_scaling_factor := None;
          sm_rotation_matrix := None;
          sm_translation_vector := None |}
  else
    rot ← find_rotation points_distorted points_perfect;
    '(scaling_factor, rotated_coords, points_perfect) ←
      find_scaling_factor points_distorted points_perfect rot;
    let rotated_coords := fscale_rows scaling_factor rotated_coords in
    let diff := fsub_rows points_perfect rotated_coords in
    let num := ftensordot diff diff in
    let denom := tensordot points_perfect points_perfect in
    Ok {| sm_symmetry_measure := fmul (fdiv num (Fin denom)) (Fin 100);
          sm_scaling_factor := Some scaling_factor;
          sm_rotation_matrix := Some rot;
          sm_translation_vector := None |}.

End Aligner.

(** ** What the aligner is specified to compute *)

Fixpoint fsum (xs : list npfloat) : npfloat :=
  match xs with
  | [] => Fin 0
  | x :: xs' => fadd x (fsum xs')
  end.

Fixpoint rsum (xs : list R) : R :=
  match xs with
  | [] => 0%R
  | x :: xs' => (x + rsum xs')%R
  end.

(** The scale of the specification,
    [s = (Σ (R·d_i)·p_i) / (Σ (R·d_i)·(R·d_i))], the sums running over the
    paired points. *)
Definition scale_formula (rot : M33) (D P : list V3) : npfloat :=
  fdiv (Fin (rsum (map (fun dp => dot (mvec rot (fst dp)) (snd dp)) (combine D P))))
       (Fin (rsum (map (fun d => dot (mvec rot d) (mvec rot d)) D))).

(** The measure of the specification,
    [CSM = 100 · Σ‖p_i − s·R·d_i‖² / Σ‖p_i‖²]. *)
Definition csm_formula (rot : M33) (D P : list V3) : npfloat :=
  let s := scale_formula rot D P in
  fmul (Fin 100)
       (fdiv (fsum (map (fun dp =>
                           let r := fvsub (snd dp) (fvscale s (mvec rot (fst dp))) in
                           fdot r r)
                        (combine D P)))
             (Fin (rsum (map (fun p => dot p p) P)))).

(** [Σ_i ‖p_i − s·(rot·d_i)‖²] over the reals. *)
Definition residual (s : R) (rot : M33) (D P : list V3) : R :=
  rsum (map (fun dp =>
               let r := vsub (snd dp) (vscale s (mvec rot (fst dp))) in
               dot r r)
            (combine D P)).

(** Sum of the rows of an array. *)
Fixpoint vsum (A : list V3) : V3 :=
  match A with
  | [] => vzero
  | a :: A' => vadd a (vsum A')
  end.



(** ** Reference geometries and their algorithms ([coordination_geometries.py]) *)

Definition EXPLICIT_PERMUTATIONS : string := "EXPLICIT_PERMUTATIONS".
Definition SEPARATION_PLANE : string := "SEPARATION_PLANE".

(** [ExplicitPermutationsAlgorithm]: [algorithm_type] is
    [EXPLICIT_PERMUTATIONS]. *)
Record ExplicitPermutationsAlgorithm : Type := mk_ExplicitPermutationsAlgorithm {
  epa_permutations : list (list nat)
}.

(** [np.argsort] of a list of integers: the positions in increasing order of
    their values.  Equal values, which numpy's default sort may order either
    way, keep their order here; the lists sorted by the code are
    duplicate-free. *)
Fixpoint insert_by_value (x : nat * nat) (l : list (nat * nat)) : list (nat * nat) :=
  match l with
  | [] => [x]
  | y :: l' =>
      if (fst x <=? fst y)%nat then x :: y :: l' else y :: insert_by_value x l'
  end.

Definition argsort (xs : list nat) : list nat :=
  map snd (fold_right insert_by_value [] (combine xs (seq 0 (length xs)))).

(** The attributes of a [SeparationPlane] that [__init__] sets;
    [sp_permutations] is [None] when neither explicit list was given (the
    attribute [_permutations] is then missing). *)
Record SeparationPlane : Type := mk_SeparationPlane {
  mirror_plane : bool;
  plane_points : list nat;
  point_groups : list (list nat);
  sp_hash : nat;
  ordered_plane : bool;
  ordered_point_groups : list bool;
  explicit_permutations : option (list (list nat));
  explicit_optimized_permutations : option (list (list nat));
  sp_permutations : option (list (list nat));
  multiplicity : option nat;
  other_plane_points : option (list (list nat));
  minimum_number_of_points : option nat;
  maximum_number_of_points : nat;
  ref_separation_perm : list nat;
  argsorted_ref_separation_perm : list nat;
  separation : nat * nat * nat
}.

(** [SeparationPlane.__init__]; the keyword defaults are [False] for the
    flags and [None] for the optional arguments. *)
Definition SeparationPlane_init
    (plane_points : list nat)
    (mirror_plane ordered_plane : bool)
    (point_groups : option (list (list nat)))
    (ordered_point_groups : option (list bool))
    (explicit_permutations : option (list (list nat)))
    (minimum_number_of_points : option nat)
    (explicit_optimized_permutations : option (list (list nat)))
    (multiplicity : option nat)
    (other_plane_points : option (list (list nat)))
  : pyresult SeparationPlane :=
  match point_groups with
  | None => Raise TypeError                 (* [point_groups[0]] on [None] *)
  | Some groups =>
      group0 ← getitem groups 0;
      group1 ← getitem groups 1;
      if decide (length group1 < length group0)%nat then Raise RuntimeError
      else
        let ref_perm := group0 ++ plane_points ++ group1 in
        Ok {| mirror_plane := mirror_plane;
              plane_points := plane_points;
              point_groups := groups;
              sp_hash := (100 * 100 * length plane_points + 100 * length group0
                          + length group1)%nat;
              ordered_plane := ordered_plane;
              ordered_point_groups :=
                match ordered_point_groups with
                | None => [false; false]
                | Some flags => flags
                end;
              explicit_permutations := explicit_permutations;
              explicit_optimized_permutations := explicit_optimized_permutations;
              sp_permutations :=
                match explicit_optimized_permutations with
                | Some perms => Some perms
                | None => explicit_permutations
                end;
              multiplicity := multiplicity;
              other_plane_points := other_plane_points;
              minimum_number_of_points := minimum_number_of_points;
              maximum_number_of_points := length plane_points;
              ref_separation_perm := ref_perm;
              argsorted_ref_separation_perm := argsort ref_perm;
              separation := (length group0, length plane_points, length group1) |}
  end.

(** The [permutations] property. *)
Definition SeparationPlane_permutations (sp : SeparationPlane)
  : pyresult (list (list nat)) :=
  match sp_permutations sp with
  | Some perms => Ok perms
  | None => Raise AttributeError
  end.

(** [s[-n:] + s[:-n]] for [0 <= n < len(s)] ([n = 0] leaves [s] as it is). *)
Definition rotate {A : Type} (s : list A) (n : nat) : list A :=
  match n with
  | O => s
  | _ => drop (length s - n) s ++ firstn (length s - n) s
  end.

(** [itertools.permutations(s)], in the order itertools yields them. *)
Fixpoint itertools_permutations_aux {A : Type} (fuel : nat) (s : list A)
  : list (list A) :=
  match fuel with
  | O => [[]]
  | S fuel' =>
      flat_map (fun i =>
                  match s !! i with
                  | Some x =>
                      map (cons x)
                          (itertools_permutations_aux fuel' (firstn i s ++ drop (S i) s))
                  | None => []
                  end)
               (seq 0 (length s))
  end.

Definition itertools_permutations {A : Type} (s : list A) : list (list A) :=
  itertools_permutations_aux (length s) s.

(** [itertools.combinations(s, r)]. *)
Fixpoint itertools_combinations {A : Type} (s : list A) (r : nat) : list (list A) :=
  match r with
  | O => [[]]
  | S r' =>
      match s with
      | [] => []
      | x :: s' =>
          map (cons x) (itertools_combinations s' r') ++ itertools_combinations s' r
      end
  end.

(** The rotations of [s] followed by the rotations of its reverse. *)
Definition rotations_and_reflections (s : list nat) : list (list nat) :=
  map (rotate s) (seq 0 (length s))
  ++ map (rotate (rev s)) (seq 0 (length (rev s))).

(** [safe_separation_permutations] (with [add_opposite=False]).  The method
    caches its first result in [_safe_permutations]; the finder calls it with
    the plane's own flags every time, so the cached list is the computed
    one. *)
Definition safe_separation_permutations
    (sp : SeparationPlane) (ordered_plane_flag : bool)
    (ordered_point_groups_flags : option (list bool))
  : pyresult (list (list nat)) :=
  group0 ← getitem (point_groups sp) 0;
  group1 ← getitem (point_groups sp) 1;
  let s0 := seq 0 (length group0) in
  let plane := seq (length group0) (length (plane_points sp)) in
  let s1 := seq (length group0 + length (plane_points sp)) (length group1) in
  let flags := match ordered_point_groups_flags with
               | None => [false; false]
               | Some flags => flags
               end in
  let plane_perms :=
    if ordered_plane_flag && ordered_plane sp
    then rotations_and_reflections plane
    else itertools_permutations plane in
  flag0 ← getitem flags 0;
  own0 ← (if flag0 then getitem (ordered_point_groups sp) 0 else Ok false);
  let s0_perms :=
    if flag0 && own0 then rotations_and_reflections s0
    else itertools_permutations s0 in
  flag1 ← getitem flags 1;
  own1 ← (if flag1 then getitem (ordered_point_groups sp) 1 else Ok false);
  let s1_perms :=
    if flag1 && own1 then rotations_and_reflections s1
    else itertools_permutations s1 in
  Ok (flat_map (fun perm_side1 =>
        flat_map (fun perm_sep_plane =>
          map (fun perm_side2 => perm_side1 ++ perm_sep_plane ++ perm_side2)
              s1_perms)
          plane_perms)
        s0_perms).

(** The two kinds of algorithm attached to a geometry. *)
Inductive ChemenvAlgorithm : Type :=
| ExplicitPermutations (algo : ExplicitPermutationsAlgorithm)
| SeparationPlaneAlgo (algo : SeparationPlane).

Definition algorithm_type (algo : ChemenvAlgorithm) : string :=
  match algo with
  | ExplicitPermutations _ => EXPLICIT_PERMUTATIONS
  | SeparationPlaneAlgo _ => SEPARATION_PLANE
  end.

(** The attributes of a [CoordinationGeometry] that the matching engine
    reads. *)
Record CoordinationGeometry : Type := mk_CoordinationGeometry {
  mp_symbol : string;
  coordination : option nat;
  cg_central_site : V3;
  points : option (list V3);
  deactivate : bool;
  algorithms : option (list ChemenvAlgorithm);
  equivalent_indices : option (list (list nat))
}.

Definition coordination_number (cg : CoordinationGeometry) : option nat :=
  coordination cg.

Definition get_central_site (cg : CoordinationGeometry) : V3 := cg_central_site cg.

(** Lexicographic order on tuples of indices, as Python compares tuples. *)
Fixpoint tuple_leb (a b : list nat) : bool :=
  match a, b with
  | [], _ => true
  | _ :: _, [] => false
  | x :: a', y :: b' =>
      if (x <? y)%nat then true
      else if (y <? x)%nat then false
      else tuple_leb a' b'
  end.

Fixpoint tuple_min (t : list nat) (ts : list (list nat)) : list nat :=
  match ts with
  | [] => t
  | u :: ts' => tuple_min (if tuple_leb t u then t else u) ts'
  end.

(** [ref_permutation]: the least, among the images of the permutation under
    the equivalent sets of indices ([perms.sort(); perms[0]]). *)
Definition ref_permutation (cg : CoordinationGeometry) (permutation : list nat)
  : pyresult (list nat) :=
  match equivalent_indices cg with
  | None => Raise TypeError
  | Some eqv =>
      perms ← for_each (fun eqv_indices => take permutation eqv_indices) eqv;
      match perms with
      | [] => Raise IndexError
      | t :: ts => Ok (tuple_min t ts)
      end
  end.

(** [AllCoordinationGeometries.get_implemented_geometries] with
    [returned="cg"], on the catalogue's [cg_list]. *)
Definition get_implemented_geometries
    (cg_list : list CoordinationGeometry) (coordination_arg : option nat)
    (include_deactivated : bool)
  : list CoordinationGeometry :=
  match coordination_arg with
  | None =>
      filter (fun cg => bool_decide (points cg <> None)
                        && (negb (deactivate cg) || include_deactivated))
             cg_list
  | Some cn =>
      filter (fun cg => bool_decide (coordination cg = Some cn)
                        && bool_decide (points cg <> None)
                        && (negb (deactivate cg) || include_deactivated))
             cg_list
  end.


(** ** [AbstractGeometry] ([coordination_geometry_finder.py]) *)

(** [np.mean(A, axis=0)] on a non-empty array. *)
Definition vmean (A : list V3) : V3 := vscale (1 / INR (length A))%R (vsum A).

(** [A - c], the point [c] subtracted from every row. *)
Definition shift_rows (A : list V3) (c : V3) : list V3 :=
  map (fun a => vsub a c) A.

Record AbstractGeometry : Type := mk_AbstractGeometry {
  bare_centre : V3;
  bare_points_without_centre : list V3;
  bare_points_with_centre : list V3;
  centroid_without_centre : V3;
  centroid_with_centre : V3;
  _points_wcs_csc : list V3;
  _points_wocs_csc : list V3;
  _points_wcs_ctwcc : list V3;
  _points_wocs_ctwcc : list V3;
  _points_wcs_ctwocc : list V3;
  _points_wocs_ctwocc : list V3;
  ag_centering_type : string;
  ag_include_central_site_in_centroid : bool;
  centre : V3;
  coords : list V3;             (* also [_coords] *)
  central_site : V3
}.

(** The centroid branch of [__init__]. *)
Definition centroid_centre (central_site : V3) (bare_coords : list V3)
    (include_central_site_in_centroid : bool) : V3 :=
  let total := vsum bare_coords in
  if include_central_site_in_centroid
  then vscale (1 / (INR (length bare_coords) + 1))%R (vadd total central_site)
  else vscale (1 / INR (length bare_coords))%R total.

(** The attributes that [__init__] sets, once the centre has been chosen. *)
Definition AbstractGeometry_attributes
    (central_site : V3) (bare_coords : list V3)
    (centering_type : string) (include_central_site_in_centroid : bool)
    (centre : V3)
  : AbstractGeometry :=
  let with_centre := central_site :: bare_coords in
  let c_without := vmean bare_coords in
  let c_with := vmean with_centre in
  {| bare_centre := central_site;
     bare_points_without_centre := bare_coords;
     bare_points_with_centre := with_centre;
     centroid_without_centre := c_without;
     centroid_with_centre := c_with;
     _points_wcs_csc := shift_rows with_centre central_site;
     _points_wocs_csc := shift_rows bare_coords central_site;
     _points_wcs_ctwcc := shift_rows with_centre c_with;
     _points_wocs_ctwcc := shift_rows bare_coords c_with;
     _points_wcs_ctwocc := shift_rows with_centre c_without;
     _points_wocs_ctwocc := shift_rows bare_coords c_without;
     ag_centering_type := centering_type;
     ag_include_central_site_in_centroid := include_central_site_in_centroid;
     centre := centre;
     coords := shift_rows bare_coords centre;
     central_site := vsub central_site centre |}.

(** [AbstractGeometry.__init__] for a given central site and a list of
    neighbour coordinates.  With an empty list [np.concatenate] raises
    (arrays of different dimensions); with an unknown centering type the
    attribute [centre] is never set. *)
Definition AbstractGeometry_init
    (central_site : V3) (bare_coords : list V3)
    (centering_type : string) (include_central_site_in_centroid : bool)
  : pyresult AbstractGeometry :=
  match bare_coords with
  | [] => Raise ValueError
  | _ =>
      centre ←
        (if decide (centering_type = "standard") then
           if decide (length bare_coords < 5)%nat then
             if include_central_site_in_centroid then Raise ValueError
             else Ok central_site
           else Ok (centroid_centre central_site bare_coords
                                    include_central_site_in_centroid)
         else if decide (centering_type = "central_site") then
           if include_central_site_in_centroid then Raise ValueError
           else Ok central_site
         else if decide (centering_type = "centroid") then
           Ok (centroid_centre central_site bare_coords
                               include_central_site_in_centroid)
         else Raise AttributeError);
      Ok (AbstractGeometry_attributes central_site bare_coords centering_type
                                      include_central_site_in_centroid centre)
  end.

(** [AbstractGeometry.from_cg]. *)
Definition from_cg (cg : CoordinationGeometry)
    (centering_type : string) (include_central_site_in_centroid : bool)
  : pyresult AbstractGeometry :=
  match points cg with
  | None => Raise TypeError
  | Some pts =>
      AbstractGeometry_init (get_central_site cg) pts centering_type
                            include_central_site_in_centroid
  end.

(** The six views; with a permutation, the neighbours are taken in that
    order and, in the views with the central site, put after it. *)
Definition view_with_centre (wcs wocs : list V3) (permutation : option (list nat))
  : pyresult (list V3) :=
  match permutation with
  | None => Ok wcs
  | Some perm => taken ← take wocs perm; Ok (firstn 1 wcs ++ taken)
  end.

Definition view_without_centre (wocs : list V3) (permutation : option (list nat))
  : pyresult (list V3) :=
  match permutation with
  | None => Ok wocs
  | Some perm => take wocs perm
  end.

Definition points_wcs_csc (g : AbstractGeometry) permutation :=
  view_with_centre (_points_wcs_csc g) (_points_wocs_csc g) permutation.
Definition points_wocs_csc (g : AbstractGeometry) permutation :=
  view_without_centre (_points_wocs_csc g) permutation.
Definition points_wcs_ctwcc (g : AbstractGeometry) permutation :=
  view_with_centre (_points_wcs_ctwcc g) (_points_wocs_ctwcc g) permutation.
Definition points_wocs_ctwcc (g : AbstractGeometry) permutation :=
  view_without_centre (_points_wocs_ctwcc g) permutation.
Definition points_wcs_ctwocc (g : AbstractGeometry) permutation :=
  view_with_centre (_points_wcs_ctwocc g) (_points_wocs_ctwocc g) permutation.
Definition points_wocs_ctwocc (g : AbstractGeometry) permutation :=
  view_without_centre (_points_wocs_ctwocc g) permutation.

(** The [cn] property. *)
Definition cn (g : AbstractGeometry) : nat := length (coords g).

(** ** [LocalGeometryFinder]: the permutation searches *)

Definition DIST_TOLERANCES : list R := [0.02; 0.05; 0.1; 0.2; 0.3]%R.

(** The attributes of the finder that the searches read. *)
Record LocalGeometryFinder : Type := mk_LocalGeometryFinder {
  allcg : list CoordinationGeometry;            (* [allcg.cg_list] *)
  permutations_safe_override : bool;
  plane_safe_permutations : bool;
  centering_type : string;
  include_central_site_in_centroid : bool;
  local_geometry : AbstractGeometry
}.

(** The two dictionaries built for one permutation,
    [(perfect2local_map, local2perfect_map)]:
    [[
      for iperfect, ii in enumerate(perm):
          perfect2local_map[iperfect] = ii
          local2perfect_map[ii] = iperfect
    ]] *)
Definition permutation_maps (perm : list nat) : gmap nat nat * gmap nat nat :=
  fold_left
    (fun maps entry =>
       let '(perfect2local_map, local2perfect_map) := maps in
       let '(iperfect, ii) := entry in
       (<[iperfect := ii]> perfect2local_map, <[ii := iperfect]> local2perfect_map))
    (combine (seq 0 (length perm)) perm)
    (∅, ∅).

Definition perfect2local_map_of (perm : list nat) : gmap nat nat :=
  fst (permutation_maps perm).
Definition local2perfect_map_of (perm : list nat) : gmap nat nat :=
  snd (permutation_maps perm).

(** What a search returns: the measures, the permutations, the algorithm
    names and the two lists of dictionaries. *)
Record search_result : Type := mk_search_result {
  sr_symmetry_measures : list sm_info;
  sr_permutations : list (list nat);
  sr_algos : list string;
  sr_local2perfect_maps : list (gmap nat nat);
  sr_perfect2local_maps : list (gmap nat nat)
}.

Definition empty_search_result : search_result :=
  mk_search_result [] [] [] [] [].

(** [lists.extend(...)] on the five lists at once. *)
Definition extend_search_result (a b : search_result) : search_result :=
  {| sr_symmetry_measures := sr_symmetry_measures a ++ sr_symmetry_measures b;
     sr_permutations := sr_permutations a ++ sr_permutations b;
     sr_algos := sr_algos a ++ sr_algos b;
     sr_local2perfect_maps := sr_local2perfect_maps a ++ sr_local2perfect_maps b;
     sr_perfect2local_maps := sr_perfect2local_maps a ++ sr_perfect2local_maps b |}.


(** A separation of the point indices by a plane: one side, the plane, the
    other side. *)
Definition separation_t : Type := list nat * list nat * list nat.

(** [for x in xs: state = body(state, x)] where the body may raise. *)
Fixpoint for_fold {A St : Type} (body : St -> A -> pyresult St) (xs : list A)
    (st : St) : pyresult St :=
  match xs with
  | [] => Ok st
  | x :: xs' => st' ← body st x; for_fold body xs' st'
  end.

(** [[pp for ip, pp in enumerate(coords) if ip in indices]] *)
Definition points_with_index_in (coords : list V3) (indices : list nat) : list V3 :=
  map snd (filter (fun entry => bool_decide (fst entry ∈ indices))
                  (combine (seq 0 (length coords)) coords)).

(** The state of one call of [_cg_csm_separation_plane]: its two result
    lists, and the two containers of the caller that it updates in place.
    The last field is not a variable of the Python function: it records the
    tolerances at which [indices_separate] has been called, for the
    statements about which tolerances are evaluated. *)
Record plane_search_state : Type := mk_plane_search_state {
  ps_permutations : list (list nat);
  ps_symmetry_measures : list sm_info;
  ps_plane_separations : list separation_t;
  ps_tested_permutations : option (gset (list nat));
  ps_tolerances_evaluated : list R
}.

(** The state after one more call of [indices_separate]. *)
Definition with_tolerance_evaluated (st : plane_search_state) (dist_tolerance : R)
  : plane_search_state :=
  {| ps_permutations := ps_permutations st;
     ps_symmetry_measures := ps_symmetry_measures st;
     ps_plane_separations := ps_plane_separations st;
     ps_tested_permutations := ps_tested_permutations st;
     ps_tolerances_evaluated := ps_tolerances_evaluated st ++ [dist_tolerance] |}.

(** The state on entry of [_cg_csm_separation_plane]. *)
Definition plane_search_entry (plane_separations : list separation_t)
    (tested_permutations : option (gset (list nat))) : plane_search_state :=
  {| ps_permutations := [];
     ps_symmetry_measures := [];
     ps_plane_separations := plane_separations;
     ps_tested_permutations := tested_permutations;
     ps_tolerances_evaluated := [] |}.

(** The state of [coordination_geometry_symmetry_measures_separation_plane]. *)
Record separation_search_state : Type := mk_separation_search_state {
  ss_result : search_result;
  ss_plane_separations : list separation_t;
  ss_nplanes : nat;
  ss_tested_permutations : option (gset (list nat))
}.

(** ** [LocalGeometryFinder]: the orchestrator *)

(** [x >= y] on floating-point values: false as soon as one is [nan]. *)
Definition fge (x y : npfloat) : bool :=
  match x, y with
  | NaN, _ | _, NaN => false
  | _, NInf => true
  | PInf, _ => true
  | NInf, _ => false
  | Fin _, PInf => false
  | Fin a, Fin b => if Rle_dec b a then true else false
  end.

(** [np.argmin] on a list of floats, as numpy scans it: the first [nan] if
    there is one, else the first occurrence of the least value.
    [[
      mp = ip[0]; min_ind = 0
      if isnan(mp): return 0
      for i in 1..n-1:
          if not (ip[i] >= mp):
              mp = ip[i]; min_ind = i
              if isnan(mp): break
    ]] *)
Fixpoint argmin_scan (mp : npfloat) (min_ind i : nat) (rest : list npfloat) : nat :=
  match rest with
  | [] => min_ind
  | x :: rest' =>
      if fge x mp then argmin_scan mp min_ind (S i) rest'
      else match x with
           | NaN => i
           | _ => argmin_scan x i (S i) rest'
           end
  end.

Definition argmin (xs : list npfloat) : pyresult nat :=
  match xs with
  | [] => Raise ValueError
  | NaN :: _ => Ok 0%nat
  | x :: rest => Ok (argmin_scan x 0 1 rest)
  end.

Definition adjugate (a : M33) : M33 :=
  mk33 (m22 a * m33 a - m23 a * m32 a)
       (m13 a * m32 a - m12 a * m33 a)
       (m12 a * m23 a - m13 a * m22 a)
       (m23 a * m31 a - m21 a * m33 a)
       (m11 a * m33 a - m13 a * m31 a)
       (m13 a * m21 a - m11 a * m23 a)
       (m21 a * m32 a - m22 a * m31 a)
       (m12 a * m31 a - m11 a * m32 a)
       (m11 a * m22 a - m12 a * m21 a).

(** [np.linalg.inv] on a 3x3 array: [LinAlgError] for a singular matrix. *)
Definition linalg_inv (a : M33) : pyresult M33 :=
  if Req_dec_T (det a) 0 then Raise LinAlgError
  else Ok (mscale (/ det a) (adjugate a)).

(** [np.linalg.inv(sm_info["rotation_matrix"])] and
    [1.0 / sm_info["scaling_factor"]], on values that may be [None]. *)
Definition inverse_rotation (rot : option M33) : pyresult M33 :=
  match rot with
  | None => Raise LinAlgError
  | Some r => linalg_inv r
  end.

Definition inverse_scaling (s : option npfloat) : pyresult npfloat :=
  match s with
  | None => Raise TypeError
  | Some s => Ok (fdiv (Fin 1) s)
  end.

(** The value of the key ["algo"]: one name, or the whole list. *)
Inductive algo_value : Type :=
| AlgoName (name : string)
| AlgoNames (names : list string).

(** The four keys [csm_<type>], [rotation_matrix_<type>],
    [scaling_factor_<type>] and [translation_vector_<type>] of one centring
    type. *)
Record typed_csm : Type := mk_typed_csm {
  tc_csm : npfloat;
  tc_rotation_matrix : option M33;
  tc_scaling_factor : option npfloat;
  tc_translation_vector : option V3
}.

(** The dictionary stored for a geometry when [only_minimum] is set; the
    last field holds the keys added when [all_csms] is set, by centring
    type. *)
Record minimum_entry : Type := mk_minimum_entry {
  entry_csm : npfloat;
  entry_indices : list nat;
  entry_algo : algo_value;
  entry_local2perfect_map : gmap nat nat;
  entry_perfect2local_map : gmap nat nat;
  entry_scaling_factor : option npfloat;
  entry_rotation_matrix : option M33;
  entry_translation_vector : option V3;
  entry_all_csms : list (string * typed_csm)
}.

(** The value stored for a geometry: the minimum entry, or the five lists. *)
Inductive geometry_result : Type :=
| MinimumResult (entry : minimum_entry)
| AllResults (found : search_result).

Definition csm_types : list string :=
  ["wocs_ctwocc"; "wocs_ctwcc"; "wocs_csc"; "wcs_ctwocc"; "wcs_ctwcc"; "wcs_csc"].

(** The fixed result for a single neighbour. *)
Definition single_neighbor_entry (all_csms : bool) : minimum_entry :=
  {| entry_csm := Fin 0;
     entry_indices := [0%nat];
     entry_algo := AlgoName "EXPLICIT";
     entry_local2perfect_map := {[ 0%nat := 0%nat ]};
     entry_perfect2local_map := {[ 0%nat := 0%nat ]};
     entry_scaling_factor := None;
     entry_rotation_matrix := None;
     entry_translation_vector := None;
     entry_all_csms :=
       if all_csms
       then map (fun csmtype => (csmtype, mk_typed_csm (Fin 0) None None None)) csm_types
       else [] |}.

(** [all(f(x) for x in xs)] where [f] may raise; stops at the first false. *)
Fixpoint all_py {A : Type} (f : A -> pyresult bool) (xs : list A) : pyresult bool :=
  match xs with
  | [] => Ok true
  | x :: xs' => b ← f x; if b : bool then all_py f xs' else Ok false
  end.

(** The dictionary both orchestrators build for the result of index [imin]
    when [only_minimum] is set. *)
Definition minimum_result (geometry : CoordinationGeometry) (found : search_result)
    (imin : nat)
  : pyresult minimum_entry :=
  algo ← match algorithms geometry with
         | Some _ => name ← getitem (sr_algos found) imin; Ok (AlgoName name)
         | None => Ok (AlgoNames (sr_algos found))
         end;
  best ← getitem (sr_symmetry_measures found) imin;
  indices ← getitem (sr_permutations found) imin;
  local2perfect_map ← getitem (sr_local2perfect_maps found) imin;
  perfect2local_map ← getitem (sr_perfect2local_maps found) imin;
  scaling_factor ← inverse_scaling (sm_scaling_factor best);
  rotation_matrix ← inverse_rotation (sm_rotation_matrix best);
  translation_vector ← match sm_translation_vector best with
                       | Some t => Ok t
                       | None => Raise KeyError
                       end;
  Ok {| entry_csm := sm_symmetry_measure best;
        entry_indices := indices;
        entry_algo := algo;
        entry_local2perfect_map := local2perfect_map;
        entry_perfect2local_map := perfect2local_map;
        entry_scaling_factor := Some scaling_factor;
        entry_rotation_matrix := Some rotation_matrix;
        entry_translation_vector := Some translation_vector;
        entry_all_csms := [] |}.

Section Finder.

(** [numpy.linalg.svd]. *)
Variable svd : M33 -> M33 * V3 * M33.

(** The plane utilities of [chemenv.utils.coordination_geometry_utils], whose
    source is not among the files modelled here: the class [Plane] with
    [from_3points], [from_npoints] (least-square distance), [indices_separate]
    and [project_and_to2dim_ordered_indices], and the functions [collinear]
    (with its tolerance), [sort_separation] and [separation_in_list]. *)
Variable Plane : Type.
Variable collinear : V3 -> V3 -> V3 -> R -> bool.
Variable Plane_from_3points : V3 -> V3 -> V3 -> Plane.
Variable Plane_from_npoints : list V3 -> Plane.
Variable indices_separate : Plane -> list V3 -> R -> separation_t.
Variable sort_separation : separation_t -> separation_t.
Variable separation_in_list : separation_t -> list separation_t -> bool.
Variable project_and_to2dim_ordered_indices : Plane -> list V3 -> list nat.

(** [np.random.default_rng()] starts from fresh entropy; the state of the
    generator is an input here, and [rng.permutation(n)] advances it. *)
Variable rng_state : Type.
Variable rng_permutation : rng_state -> nat -> list nat * rng_state.

(** The three statements every search runs on a candidate permutation:
    [[
      points_distorted = self.local_geometry.points_wcs_ctwcc(permutation=perm)
      sm_info = symmetry_measure(points_distorted=..., points_perfect=...)
      sm_info["translation_vector"] = self.local_geometry.centroid_with_centre
    ]] *)
Definition permutation_symmetry_measure
    (self : LocalGeometryFinder) (points_perfect : list V3) (perm : list nat)
  : pyresult sm_info :=
  points_distorted ← points_wcs_ctwcc (local_geometry self) (Some perm);
  sm_info ← symmetry_measure svd points_distorted points_perfect;
  Ok (set_translation_vector sm_info (centroid_with_centre (local_geometry self))).

(** Explicit-permutation mode.  The two branches on [optimization == 2] run
    the same statements; the loop over [algo.permutations] appends to the five
    lists in step. *)
Definition coordination_geometry_symmetry_measures_standard
    (self : LocalGeometryFinder) (coordination_geometry : CoordinationGeometry)
    (algo : ExplicitPermutationsAlgorithm) (points_perfect : list V3)
    (optimization : option nat)
  : pyresult search_result :=
  let permutations := epa_permutations algo in
  permutations_symmetry_measures ←
    for_each (permutation_symmetry_measure self points_perfect) permutations;
  Ok {| sr_symmetry_measures := permutations_symmetry_measures;
        sr_permutations := permutations;
        sr_algos := map (fun _ => EXPLICIT_PERMUTATIONS) permutations;
        sr_local2perfect_maps := map local2perfect_map_of permutations;
        sr_perfect2local_maps := map perfect2local_map_of permutations |}.

(** The loop of the random fallback: one draw and one measure per round. *)
Fixpoint fallback_random_loop
    (self : LocalGeometryFinder) (coordination_geometry : CoordinationGeometry)
    (points_perfect : list V3) (rounds : nat) (rng : rng_state)
  : pyresult (list (list nat * sm_info) * rng_state) :=
  match rounds with
  | O => Ok ([], rng)
  | S rounds' =>
      match coordination_number coordination_geometry with
      | None => Raise TypeError
      | Some n =>
          let '(perm, rng1) := rng_permutation rng n in
          sm_info ← permutation_symmetry_measure self points_perfect perm;
          '(rest, rng2) ←
            fallback_random_loop self coordination_geometry points_perfect rounds' rng1;
          Ok ((perm, sm_info) :: rest, rng2)
      end
  end.

(** Random fallback; [n_random] defaults to 10 and the deprecated keyword
    [NRANDOM] overrides it. *)
Definition coordination_geometry_symmetry_measures_fallback_random
    (self : LocalGeometryFinder) (coordination_geometry : CoordinationGeometry)
    (n_random : nat) (NRANDOM : option nat) (points_perfect : list V3)
    (rng : rng_state)
  : pyresult (search_result * rng_state) :=
  let n_random := match NRANDOM with Some n => n | None => n_random end in
  '(drawn, rng') ←
    fallback_random_loop self coordination_geometry points_perfect n_random rng;
  let permutations := map fst drawn in
  Ok ({| sr_symmetry_measures := map snd drawn;
         sr_permutations := permutations;
         sr_algos := map (fun _ => "APPROXIMATE_FALLBACK") permutations;
         sr_local2perfect_maps := map local2perfect_map_of permutations;
         sr_perfect2local_maps := map perfect2local_map_of permutations |},
      rng').

(** The body of the loop over [sep_perms] in [_cg_csm_separation_plane]. *)
Definition try_separation_permutation
    (self : LocalGeometryFinder) (coordination_geometry : CoordinationGeometry)
    (argref_separation separation_perm : list nat) (points_perfect : list V3)
    (st : plane_search_state) (sep_perm : list nat)
  : pyresult plane_search_state :=
  perm1 ← take separation_perm sep_perm;
  pp ← take perm1 argref_separation;
  '(already_tested, tested) ←
    match ps_tested_permutations st, equivalent_indices coordination_geometry with
    | Some tested, Some _ =>
        tuple_ref_perm ← ref_permutation coordination_geometry pp;
        if decide (tuple_ref_perm ∈ tested) then Ok (true, Some tested)
        else Ok (false, Some ({[tuple_ref_perm]} ∪ tested))
    | tested, _ => Ok (false, tested)
    end;
  if already_tested : bool then Ok st
  else
    sm_info ← permutation_symmetry_measure self points_perfect pp;
    Ok {| ps_permutations := ps_permutations st ++ [pp];
          ps_symmetry_measures := ps_symmetry_measures st ++ [sm_info];
          ps_plane_separations := ps_plane_separations st;
          ps_tested_permutations := tested;
          ps_tolerances_evaluated := ps_tolerances_evaluated st |}.

(** The order in which the points of a matching separation are listed. *)
Definition separation_permutation
    (self : LocalGeometryFinder) (sep_plane : SeparationPlane) (local_plane : Plane)
    (this_separation : separation_t)
  : pyresult (list nat) :=
  let '(side0, inplane, side2) := this_separation in
  let _coords := coords (local_geometry self) in
  if ordered_plane sep_plane then
    let inp := points_with_index_in _coords inplane in
    ordered0 ← getitem (ordered_point_groups sep_plane) 0;
    sep0 ← (if ordered0 : bool then
              take side0 (project_and_to2dim_ordered_indices
                            local_plane (points_with_index_in _coords side0))
            else Ok side0);
    ordered1 ← getitem (ordered_point_groups sep_plane) 1;
    sep2 ← (if ordered1 : bool then
              take side2 (project_and_to2dim_ordered_indices
                            local_plane (points_with_index_in _coords side2))
            else Ok side2);
    inplane_ordered ← take inplane (project_and_to2dim_ordered_indices local_plane inp);
    Ok (sep0 ++ inplane_ordered ++ sep2)
  else Ok (side0 ++ inplane ++ side2).

(** One round of the loop over the distance tolerances.  The boolean tells
    whether the round ran to the end of the body ([true]) or left it by a
    [continue] ([false]). *)
Definition separation_for_tolerance
    (self : LocalGeometryFinder) (coordination_geometry : CoordinationGeometry)
    (sep_plane : SeparationPlane) (local_plane : Plane) (points_perfect : list V3)
    (st : plane_search_state) (dist_tolerance : R)
  : pyresult (plane_search_state * bool) :=
  let separation :=
    sort_separation
      (indices_separate local_plane (coords (local_geometry self)) dist_tolerance) in
  let st := with_tolerance_evaluated st dist_tolerance in
  if separation_in_list separation (ps_plane_separations st) then Ok (st, false)
  else
    let '(side0, inplane, side2) := separation in
    if decide (length inplane <> length (plane_points sep_plane)) then Ok (st, false)
    else
      group0 ← getitem (point_groups sep_plane) 0;
      matching ←
        (if decide (length side0 = length group0) then Ok (Some separation)
         else
           group1 ← getitem (point_groups sep_plane) 1;
           if decide (length side0 = length group1)
           then Ok (Some (side2, inplane, side0))
           else Ok None);
      match matching with
      | None => Ok (st, false)
      | Some this_separation =>
          let st1 :=
            {| ps_permutations := ps_permutations st;
               ps_symmetry_measures := ps_symmetry_measures st;
               ps_plane_separations := ps_plane_separations st ++ [this_separation];
               ps_tested_permutations := ps_tested_permutations st;
               ps_tolerances_evaluated := ps_tolerances_evaluated st |} in
          separation_perm ←
            separation_permutation self sep_plane local_plane this_separation;
          sep_perms ←
            (if plane_safe_permutations self then
               safe_separation_permutations
                 sep_plane (ordered_plane sep_plane)
                 (Some (ordered_point_groups sep_plane))
             else SeparationPlane_permutations sep_plane);
          st2 ←
            for_fold (try_separation_permutation
                        self coordination_geometry
                        (argsorted_ref_separation_perm sep_plane)
                        separation_perm points_perfect)
                     sep_perms st1;
          Ok (st2, true)
      end.

(** One round of that loop, whichever way it ended. *)
Definition tolerance_round
    (self : LocalGeometryFinder) (coordination_geometry : CoordinationGeometry)
    (sep_plane : SeparationPlane) (local_plane : Plane) (points_perfect : list V3)
    (st : plane_search_state) (dist_tolerance : R)
  : pyresult plane_search_state :=
  '(st', _) ← separation_for_tolerance self coordination_geometry sep_plane
                 local_plane points_perfect st dist_tolerance;
  Ok st'.

(** [for dist_tolerance in dist_tolerances: ...; if plane_found: break] *)
Fixpoint tolerance_loop
    (self : LocalGeometryFinder) (coordination_geometry : CoordinationGeometry)
    (sep_plane : SeparationPlane) (local_plane : Plane) (points_perfect : list V3)
    (plane_found : bool) (dist_tolerances : list R) (st : plane_search_state)
  : pyresult plane_search_state :=
  match dist_tolerances with
  | [] => Ok st
  | dist_tolerance :: rest =>
      '(st', ran_to_end) ←
        separation_for_tolerance self coordination_geometry sep_plane local_plane
                                 points_perfect st dist_tolerance;
      if ran_to_end && plane_found then Ok st'
      else tolerance_loop self coordination_geometry sep_plane local_plane
                          points_perfect plane_found rest st'
  end.

(** The loop of [_cg_csm_separation_plane], from the state on entry.  The
    variable [plane_found] is set to [False] on entry and assigned nowhere
    else (the statement [plane_found = True] is commented out in the
    source). *)
Definition separation_plane_tolerances
    (self : LocalGeometryFinder) (coordination_geometry : CoordinationGeometry)
    (sep_plane : SeparationPlane) (local_plane : Plane)
    (plane_separations : list separation_t)
    (dist_tolerances : option (list R))
    (tested_permutations : option (gset (list nat)))
    (points_perfect : list V3)
  : pyresult plane_search_state :=
  let plane_found := false in
  let dist_tolerances :=                  (* [dist_tolerances or DIST_TOLERANCES] *)
    match dist_tolerances with
    | None | Some [] => DIST_TOLERANCES
    | Some tolerances => tolerances
    end in
  tolerance_loop self coordination_geometry sep_plane local_plane points_perfect
                 plane_found dist_tolerances
                 (plane_search_entry plane_separations tested_permutations).

(** [_cg_csm_separation_plane] as the finder calls it ([testing=False]).  The
    result [None] stands for the triple [(None, None, None)]; the lists
    [plane_separations] and [tested_permutations] of the caller are returned
    as updated. *)
Definition _cg_csm_separation_plane
    (self : LocalGeometryFinder) (coordination_geometry : CoordinationGeometry)
    (sep_plane : SeparationPlane) (local_plane : Plane)
    (plane_separations : list separation_t)
    (dist_tolerances : option (list R))
    (tested_permutations : option (gset (list nat)))
    (points_perfect : list V3)
  : pyresult (option (list sm_info * list (list nat) * list string)
              * list separation_t * option (gset (list nat))) :=
  let plane_found := false in
  st ← separation_plane_tolerances self coordination_geometry sep_plane local_plane
                                   plane_separations dist_tolerances
                                   tested_permutations points_perfect;
  let returned :=
    if decide (0 < length (ps_symmetry_measures st))%nat then
      Some (ps_symmetry_measures st, ps_permutations st,
            replicate (length (ps_permutations st)) SEPARATION_PLANE)
    else if plane_found then Some ([], [], [])
    else None in
  Ok (returned, ps_plane_separations st, ps_tested_permutations st).

(** The plane through a combination of points, or [None] where the loop
    skips the combination ([continue]). *)
Definition candidate_plane
    (self : LocalGeometryFinder) (npoints : nat) (points_combination : list V3)
  : pyresult (option Plane) :=
  if decide (npoints = 2%nat) then
    p0 ← getitem points_combination 0;
    p1 ← getitem points_combination 1;
    if collinear p0 p1 (central_site (local_geometry self)) 0.25%R then Ok None
    else Ok (Some (Plane_from_3points p0 p1 (central_site (local_geometry self))))
  else if decide (npoints = 3%nat) then
    p0 ← getitem points_combination 0;
    p1 ← getitem points_combination 1;
    p2 ← getitem points_combination 2;
    if collinear p0 p1 p2 0.25%R then Ok None
    else Ok (Some (Plane_from_3points p0 p1 p2))
  else if decide (3 < npoints)%nat then
    Ok (Some (Plane_from_npoints points_combination))
  else Raise ValueError.

(** The body of the loop over the combinations of points. *)
Definition separation_plane_combination
    (self : LocalGeometryFinder) (coordination_geometry : CoordinationGeometry)
    (separation_plane_algo : SeparationPlane) (points_perfect : list V3)
    (npoints : nat) (st : separation_search_state) (points_combination : list V3)
  : pyresult separation_search_state :=
  candidate ← candidate_plane self npoints points_combination;
  match candidate with
  | None => Ok st
  | Some plane =>
      '(cgsm, plane_separations, tested_permutations) ←
        _cg_csm_separation_plane self coordination_geometry separation_plane_algo
                                 plane (ss_plane_separations st)
                                 (Some DIST_TOLERANCES)
                                 (ss_tested_permutations st) points_perfect;
      match cgsm with
      | None =>
          Ok {| ss_result := ss_result st;
                ss_plane_separations := plane_separations;
                ss_nplanes := ss_nplanes st;
                ss_tested_permutations := tested_permutations |}
      | Some (csm, perm, algo) =>
          Ok {| ss_result :=
                  extend_search_result
                    (ss_result st)
                    {| sr_symmetry_measures := csm;
                       sr_permutations := perm;
                       sr_algos := algo;
                       sr_local2perfect_maps := map local2perfect_map_of perm;
                       sr_perfect2local_maps := map perfect2local_map_of perm |};
                ss_plane_separations := plane_separations;
                ss_nplanes := S (ss_nplanes st);
                ss_tested_permutations := tested_permutations |}
      end
  end.

(** [for npoints in range(...): for points_combination in ...: ...;
     if nplanes > 0: break] *)
Fixpoint npoints_loop
    (self : LocalGeometryFinder) (coordination_geometry : CoordinationGeometry)
    (separation_plane_algo : SeparationPlane) (points_perfect : list V3)
    (npoints_range : list nat) (st : separation_search_state)
  : pyresult separation_search_state :=
  match npoints_range with
  | [] => Ok st
  | npoints :: rest =>
      st' ← for_fold (separation_plane_combination
                        self coordination_geometry separation_plane_algo
                        points_perfect npoints)
                     (itertools_combinations (coords (local_geometry self)) npoints)
                     st;
      if decide (0 < ss_nplanes st')%nat then Ok st'
      else npoints_loop self coordination_geometry separation_plane_algo
                        points_perfect rest st'
  end.

(** Separation-plane mode ([testing=False]). *)
Definition coordination_geometry_symmetry_measures_separation_plane
    (self : LocalGeometryFinder) (coordination_geometry : CoordinationGeometry)
    (separation_plane_algo : SeparationPlane)
    (tested_permutations : option (gset (list nat)))
    (points_perfect : list V3) (rng : rng_state)
  : pyresult (search_result * option (gset (list nat)) * rng_state) :=
  match minimum_number_of_points separation_plane_algo with
  | None => Raise TypeError
  | Some first =>
      let stop := (Nat.min (maximum_number_of_points separation_plane_algo) 4 + 1)%nat in
      st ← npoints_loop self coordination_geometry separation_plane_algo
                        points_perfect (seq first (stop - first))
                        {| ss_result := empty_search_result;
                           ss_plane_separations := [];
                           ss_nplanes := 0;
                           ss_tested_permutations := tested_permutations |};
      if decide (ss_nplanes st = 0%nat) then
        '(fallback, rng') ←
          coordination_geometry_symmetry_measures_fallback_random
            self coordination_geometry 10 None points_perfect rng;
        Ok (fallback, ss_tested_permutations st, rng')
      else Ok (ss_result st, ss_tested_permutations st, rng)
  end.

(** [for algo in coordination_geometry.algorithms: ...]: an explicit
    algorithm returns at once, a separation plane extends the five lists. *)
Fixpoint algorithms_loop
    (self : LocalGeometryFinder) (coordination_geometry : CoordinationGeometry)
    (points_perfect : list V3) (optimization : option nat)
    (algos : list ChemenvAlgorithm)
    (tested_permutations : option (gset (list nat)))
    (acc : search_result) (rng : rng_state)
  : pyresult (search_result * rng_state) :=
  match algos with
  | [] => Ok (acc, rng)
  | ExplicitPermutations algo :: _ =>
      found ← coordination_geometry_symmetry_measures_standard
                self coordination_geometry algo points_perfect optimization;
      Ok (found, rng)
  | SeparationPlaneAlgo algo :: rest =>
      '(found, tested_permutations', rng') ←
        coordination_geometry_symmetry_measures_separation_plane
          self coordination_geometry algo tested_permutations points_perfect rng;
      algorithms_loop self coordination_geometry points_perfect optimization rest
                      tested_permutations' (extend_search_result acc found) rng'
  end.

Definition coordination_geometry_symmetry_measures
    (self : LocalGeometryFinder) (coordination_geometry : CoordinationGeometry)
    (tested_permutations : bool) (points_perfect : list V3)
    (optimization : option nat) (rng : rng_state)
  : pyresult (search_result * rng_state) :=
  let tested_permutations : option (gset (list nat)) :=
    if tested_permutations then Some ∅ else None in
  if permutations_safe_override self then Raise ValueError
  else
    match algorithms coordination_geometry with
    | None => Raise TypeError
    | Some algos =>
        algorithms_loop self coordination_geometry points_perfect optimization
                        algos tested_permutations empty_search_result rng
    end.

(** One block of [_update_results_all_csms]. *)
Definition typed_symmetry_measure
    (pdist pperf : pyresult (list V3)) (translation_vector : V3)
  : pyresult typed_csm :=
  pdist ← pdist;
  pperf ← pperf;
  sm_info ← symmetry_measure svd pdist pperf;
  rotation_matrix ← inverse_rotation (sm_rotation_matrix sm_info);
  scaling_factor ← inverse_scaling (sm_scaling_factor sm_info);
  Ok {| tc_csm := sm_symmetry_measure sm_info;
        tc_rotation_matrix := Some rotation_matrix;
        tc_scaling_factor := Some scaling_factor;
        tc_translation_vector := Some translation_vector |}.

(** [_update_results_all_csms]: the keys of the six centring types are added
    to the entry of the geometry; the other keys are left as they are. *)
Definition _update_results_all_csms
    (self : LocalGeometryFinder) (perfect_geometry : AbstractGeometry)
    (entry : minimum_entry) (permutations : list (list nat)) (imin : nat)
  : pyresult minimum_entry :=
  permutation ← getitem permutations imin;
  let local := local_geometry self in
  let perm := Some permutation in
  wocs_ctwocc ← typed_symmetry_measure (points_wocs_ctwocc local perm)
                   (points_wocs_ctwocc perfect_geometry None)
                   (centroid_without_centre local);
  wocs_ctwcc ← typed_symmetry_measure (points_wocs_ctwcc local perm)
                  (points_wocs_ctwcc perfect_geometry None)
                  (centroid_with_centre local);
  wocs_csc ← typed_symmetry_measure (points_wocs_csc local perm)
                (points_wocs_csc perfect_geometry None)
                (bare_centre local);
  wcs_ctwocc ← typed_symmetry_measure (points_wcs_ctwocc local perm)
                  (points_wcs_ctwocc perfect_geometry None)
                  (centroid_without_centre local);
  wcs_ctwcc ← typed_symmetry_measure (points_wcs_ctwcc local perm)
                 (points_wcs_ctwcc perfect_geometry None)
                 (centroid_with_centre local);
  wcs_csc ← typed_symmetry_measure (points_wcs_csc local perm)
               (points_wcs_csc perfect_geometry None)
               (bare_centre local);
  Ok {| entry_csm := entry_csm entry;
        entry_indices := entry_indices entry;
        entry_algo := entry_algo entry;
        entry_local2perfect_map := entry_local2perfect_map entry;
        entry_perfect2local_map := entry_perfect2local_map entry;
        entry_scaling_factor := entry_scaling_factor entry;
        entry_rotation_matrix := entry_rotation_matrix entry;
        entry_translation_vector := entry_translation_vector entry;
        entry_all_csms :=
          [("wocs_ctwocc", wocs_ctwocc); ("wocs_ctwcc", wocs_ctwcc);
           ("wocs_csc", wocs_csc); ("wcs_ctwocc", wcs_ctwocc);
           ("wcs_ctwcc", wcs_ctwcc); ("wcs_csc", wcs_csc)] |}.

(** The [only_minimum] statements on a non-empty search result: the entry of
    the minimum, with the keys of [all_csms] when asked for. *)
Definition keep_minimum
    (self : LocalGeometryFinder) (geometry : CoordinationGeometry)
    (perfect_geometry : AbstractGeometry) (all_csms : bool) (found : search_result)
  : pyresult minimum_entry :=
  imin ← argmin (map sm_symmetry_measure (sr_symmetry_measures found));
  entry ← minimum_result geometry found imin;
  if all_csms then
    _update_results_all_csms self perfect_geometry entry (sr_permutations found) imin
  else Ok entry.

(** The loop of [get_coordination_symmetry_measures] over the test
    geometries. *)
Fixpoint symmetry_measures_loop
    (self : LocalGeometryFinder) (only_minimum all_csms : bool)
    (optimization : option nat) (test_geometries : list CoordinationGeometry)
    (result_dict : gmap string geometry_result) (rng : rng_state)
  : pyresult (gmap string geometry_result * rng_state) :=
  match test_geometries with
  | [] => Ok (result_dict, rng)
  | geometry :: rest =>
      perfect_geometry ← from_cg geometry (centering_type self)
                                 (include_central_site_in_centroid self);
      points_perfect ← points_wcs_ctwcc perfect_geometry None;
      '(found, rng') ← coordination_geometry_symmetry_measures
                         self geometry false points_perfect optimization rng;
      result_dict' ←
        (if only_minimum then
           if decide (0 < length (sr_symmetry_measures found))%nat then
             entry ← keep_minimum self geometry perfect_geometry all_csms found;
             Ok (<[mp_symbol geometry := MinimumResult entry]> result_dict)
           else Ok result_dict
         else Ok (<[mp_symbol geometry := AllResults found]> result_dict));
      symmetry_measures_loop self only_minimum all_csms optimization rest
                             result_dict' rng'
  end.

Definition get_coordination_symmetry_measures
    (self : LocalGeometryFinder) (only_minimum all_csms : bool)
    (optimization : option nat) (rng : rng_state)
  : pyresult (gmap string geometry_result * rng_state) :=
  let test_geometries :=
    get_implemented_geometries
      (allcg self) (Some (length (coords (local_geometry self)))) false in
  if decide (length (coords (local_geometry self)) = 1%nat) then
    if decide (length test_geometries = 0%nat) then Ok (∅, rng)
    else Ok ({[ "S:1" := MinimumResult (single_neighbor_entry all_csms) ]}, rng)
  else
    symmetry_measures_loop self only_minimum all_csms optimization
                           test_geometries ∅ rng.

(** The optimised separation-plane search of a geometry
    ([coordination_geometry_symmetry_measures_sepplane_optim], with the
    neighbour set whose caches it fills) is left abstract: the statements
    about the orchestrator hold whatever it returns.  Its state stands for
    the neighbour set and the random generator. *)
Variable optim_state : Type.
Variable coordination_geometry_symmetry_measures_sepplane_optim :
  LocalGeometryFinder -> CoordinationGeometry -> list V3 -> option nat ->
  optim_state -> pyresult (search_result * optim_state).

Fixpoint symmetry_measures_optim_loop
    (self : LocalGeometryFinder) (only_minimum all_csms : bool)
    (optimization : option nat) (test_geometries : list CoordinationGeometry)
    (result_dict : gmap string geometry_result) (st : optim_state)
  : pyresult (gmap string geometry_result * optim_state) :=
  match test_geometries with
  | [] => Ok (result_dict, st)
  | geometry :: rest =>
      perfect_geometry ← from_cg geometry (centering_type self)
                                 (include_central_site_in_centroid self);
      points_perfect ← points_wcs_ctwcc perfect_geometry None;
      '(found, st') ← coordination_geometry_symmetry_measures_sepplane_optim
                        self geometry points_perfect optimization st;
      result_dict' ←
        (if only_minimum
            && bool_decide (0 < length (sr_symmetry_measures found))%nat then
           entry ← keep_minimum self geometry perfect_geometry all_csms found;
           Ok (<[mp_symbol geometry := MinimumResult entry]> result_dict)
         else Ok result_dict);
      symmetry_measures_optim_loop self only_minimum all_csms optimization rest
                                   result_dict' st'
  end.

(** [cg.algorithms[0].algorithm_type == EXPLICIT_PERMUTATIONS] *)
Definition first_algorithm_is_explicit (cg : CoordinationGeometry) : pyresult bool :=
  match algorithms cg with
  | None => Raise TypeError
  | Some algos =>
      first ← getitem algos 0;
      Ok (bool_decide (algorithm_type first = EXPLICIT_PERMUTATIONS))
  end.

(** [all(algo.algorithm_type == SEPARATION_PLANE for algo in cg.algorithms)] *)
Definition all_algorithms_are_planes (cg : CoordinationGeometry) : pyresult bool :=
  match algorithms cg with
  | None => Raise TypeError
  | Some algos =>
      all_py (fun algo => Ok (bool_decide (algorithm_type algo = SEPARATION_PLANE)))
             algos
  end.

(** The result of [get_coordination_symmetry_measures_optim] carries the
    state of the search that was run. *)
Definition get_coordination_symmetry_measures_optim
    (self : LocalGeometryFinder) (only_minimum all_csms : bool)
    (optimization : option nat) (rng : rng_state) (st : optim_state)
  : pyresult (gmap string geometry_result * rng_state * optim_state) :=
  let n := length (coords (local_geometry self)) in
  let test_geometries := get_implemented_geometries (allcg self) (Some n) false in
  all_explicit ← all_py first_algorithm_is_explicit test_geometries;
  if all_explicit : bool then
    '(result_dict, rng') ←
      get_coordination_symmetry_measures self only_minimum all_csms optimization rng;
    Ok (result_dict, rng', st)
  else
    all_planes ← all_py all_algorithms_are_planes test_geometries;
    if all_planes : bool then
      '(result_dict, st') ←
        symmetry_measures_optim_loop self only_minimum all_csms optimization
                                     test_geometries ∅ st;
      Ok (result_dict, rng, st')
    else Raise ValueError.

End Finder.


(** ** Statements about search results *)

(** The two lists of dictionaries of a search result are those of its
    permutations, in the same order. *)
Definition maps_follow_permutations (r : search_result) : Prop :=
  sr_local2perfect_maps r = map local2perfect_map_of (sr_permutations r) /\
  sr_perfect2local_maps r = map perfect2local_map_of (sr_permutations r).


(** The invariant of the loops of the separation-plane search: the
    dictionaries follow the permutations, and a counted plane has left at
    least one measure. *)
Definition separation_search_invariant (st : separation_search_state) : Prop :=
  maps_follow_permutations (ss_result st) /\
  ((0 < ss_nplanes st)%nat -> sr_symmetry_measures (ss_result st) <> []).


(** The order that numpy's [argmin] and [min] follow: [nan] first, then
    [-inf], the real numbers in their order, and [+inf]. *)
Definition fmin_le (a b : npfloat) : Prop :=
  match a, b with
  | NaN, _ => True
  | _, NaN => False
  | NInf, _ => True
  | _, NInf => False
  | _, PInf => True
  | PInf, _ => False
  | Fin x, Fin y => (x <= y)%R
  end.



(** A search result whose five lists have the same length and whose measures
    carry what the orchestrator reads. *)
Definition well_formed_result (found : search_result) : Prop :=
  length (sr_permutations found) = length (sr_symmetry_measures found) /\
  length (sr_algos found) = length (sr_symmetry_measures found) /\
  length (sr_local2perfect_maps found) = length (sr_symmetry_measures found) /\
  length (sr_perfect2local_maps found) = length (sr_symmetry_measures found) /\
  Forall (fun info =>
            exists s rot t,
              sm_scaling_factor info = Some s /\
              sm_rotation_matrix info = Some rot /\
              det rot <> 0%R /\
              sm_translation_vector info = Some t)
         (sr_symmetry_measures found).


(** ** Concrete point sets *)

Definition segment_pair : list V3 := [(1, 0, 0); (-1, 0, 0)]%R.
Definition doubled_segment_pair : list V3 := [(2, 0, 0); (-2, 0, 0)]%R.

(** The three unit vectors, and their mirror image in the plane [z = 0]. *)
Definition unit_frame : list V3 := [(1, 0, 0); (0, 1, 0); (0, 0, 1)]%R.
Definition mirrored_frame : list V3 := [(1, 0, 0); (0, 1, 0); (0, 0, -1)]%R.
Definition mirror_z : M33 := mk33 1 0 0 0 1 0 0 0 (-1).

Definition svd_segment : M33 -> M33 * V3 * M33 :=
  fun _ => (mid, (4, 0, 0)%R, mid).
Definition svd_mirror : M33 -> M33 * V3 * M33 :=
  fun _ => (mid, (1, 1, 1)%R, mirror_z).
Definition svd_two : M33 -> M33 * V3 * M33 :=
  fun _ => (mid, (2, 0, 0)%R, mid).

(** ** Concrete geometries, finders and external functions *)

(** Two neighbours on either side of a central site at the origin, and a
    single neighbour. *)
Definition segment_geometry : AbstractGeometry :=
  AbstractGeometry_attributes vzero segment_pair "central_site" false vzero.

Definition single_neighbor_geometry : AbstractGeometry :=
  AbstractGeometry_attributes vzero [(1, 0, 0)%R] "central_site" false vzero.

(** A separation plane that leaves one point on each side and none in the
    plane. *)
Definition between_plane_algo : SeparationPlane :=
  {| mirror_plane := false;
     plane_points := [];
     point_groups := [[0]; [1]]%nat;
     sp_hash := 101;
     ordered_plane := false;
     ordered_point_groups := [false; false];
     explicit_permutations := Some [[0; 1]]%nat;
     explicit_optimized_permutations := None;
     sp_permutations := Some [[0; 1]]%nat;
     multiplicity := None;
     other_plane_points := None;
     minimum_number_of_points := Some 2%nat;
     maximum_number_of_points := 0;
     ref_separation_perm := [0; 1]%nat;
     argsorted_ref_separation_perm := [0; 1]%nat;
     separation := (1, 0, 1)%nat |}.

Definition two_point_plane_geometry : CoordinationGeometry :=
  {| mp_symbol := "L:2";
     coordination := Some 2%nat;
     cg_central_site := vzero;
     points := Some segment_pair;
     deactivate := false;
     algorithms := Some [SeparationPlaneAlgo between_plane_algo];
     equivalent_indices := None |}.

Definition two_point_explicit_algo : ExplicitPermutationsAlgorithm :=
  {| epa_permutations := [[0; 1]; [1; 0]]%nat |}.

Definition two_point_explicit_geometry : CoordinationGeometry :=
  {| mp_symbol := "L:2";
     coordination := Some 2%nat;
     cg_central_site := vzero;
     points := Some segment_pair;
     deactivate := false;
     algorithms := Some [ExplicitPermutations two_point_explicit_algo];
     equivalent_indices := None |}.

Definition two_point_single_algo : ExplicitPermutationsAlgorithm :=
  {| epa_permutations := [[0; 1]]%nat |}.

Definition two_point_single_geometry : CoordinationGeometry :=
  {| mp_symbol := "L:2";
     coordination := Some 2%nat;
     cg_central_site := vzero;
     points := Some segment_pair;
     deactivate := false;
     algorithms := Some [ExplicitPermutations two_point_single_algo];
     equivalent_indices := None |}.

(** A geometry of coordination number 1. *)
Definition single_point_algo : ExplicitPermutationsAlgorithm :=
  {| epa_permutations := [[0]]%nat |}.

Definition single_point_geometry : CoordinationGeometry :=
  {| mp_symbol := "S:1";
     coordination := Some 1%nat;
     cg_central_site := vzero;
     points := Some [(0, 0, 1)%R];
     deactivate := false;
     algorithms := Some [ExplicitPermutations single_point_algo];
     equivalent_indices := None |}.

(** The two entries that every catalogue ends with. *)
Definition unknown_environment : CoordinationGeometry :=
  {| mp_symbol := "UNKNOWN"; coordination := None; cg_central_site := vzero;
     points := None; deactivate := true; algorithms := None;
     equivalent_indices := None |}.

Definition unclear_environment : CoordinationGeometry :=
  {| mp_symbol := "UNCLEAR"; coordination := None; cg_central_site := vzero;
     points := None; deactivate := true; algorithms := None;
     equivalent_indices := None |}.

(** A finder on a given catalogue and local geometry, with the parameters
    its constructor sets. *)
Definition finder_on (cg_list : list CoordinationGeometry) (local : AbstractGeometry)
  : LocalGeometryFinder :=
  {| allcg := cg_list;
     permutations_safe_override := false;
     plane_safe_permutations := false;
     centering_type := "centroid";
     include_central_site_in_centroid := true;
     local_geometry := local |}.

(** Plane utilities for two points that a plane separates at every
    tolerance, with both points collinear with the centre. *)
Definition always_collinear : V3 -> V3 -> V3 -> R -> bool := fun _ _ _ _ => true.
Definition the_plane_3 : V3 -> V3 -> V3 -> unit := fun _ _ _ => tt.
Definition the_plane_n : list V3 -> unit := fun _ => tt.
Definition one_on_each_side : unit -> list V3 -> R -> separation_t :=
  fun _ _ _ => ([0], [], [1])%nat.
Definition keep_separation : separation_t -> separation_t := fun sep => sep.
Definition separation_is_listed : separation_t -> list separation_t -> bool :=
  fun sep seps => bool_decide (sep ∈ seps).
Definition no_projection : unit -> list V3 -> list nat := fun _ _ => [].

(** A generator that always draws the identity permutation. *)
Definition identity_draw : nat -> nat -> list nat * nat :=
  fun state n => (seq 0 n, S state).

(** A finder on two neighbours whose catalogue holds one geometry of
    coordination number 2, the perfect geometry [from_cg] builds for it, and
    an optimised search that returns the measures of the explicit
    permutations and advances its state. *)
Definition two_point_finder : LocalGeometryFinder :=
  finder_on [two_point_single_geometry; unknown_environment; unclear_environment]
            segment_geometry.

Definition two_point_perfect : AbstractGeometry :=
  AbstractGeometry_attributes vzero segment_pair "centroid" true
                              (centroid_centre vzero segment_pair true).

Definition explicit_search_as_optim
    (self : LocalGeometryFinder) (cg : CoordinationGeometry)
    (points_perfect : list V3) (optimization : option nat) (st : nat)
  : pyresult (search_result * nat) :=
  found ← coordination_geometry_symmetry_measures_standard
            svd_two self cg two_point_single_algo points_perfect optimization;
  Ok (found, S st).

(** ** Further code of [coordination_geometries.py] *)




(** [AllCoordinationGeometries.get_geometries] and
    [get_not_implemented_geometries], with [returned="cg"]. *)
Definition get_geometries
    (cg_list : list CoordinationGeometry) (coordination_arg : option nat)
  : list CoordinationGeometry :=
  match coordination_arg with
  | None => cg_list
  | Some cn => filter (fun cg => bool_decide (coordination cg = Some cn)) cg_list
  end.

Definition get_not_implemented_geometries
    (cg_list : list CoordinationGeometry) (coordination_arg : option nat)
  : list CoordinationGeometry :=
  match coordination_arg with
  | None => filter (fun cg => bool_decide (points cg = None)) cg_list
  | Some cn =>
      filter (fun cg => bool_decide (coordination cg = Some cn)
                        && bool_decide (points cg = None))
             cg_list
  end.

(** [get_geometry_from_mp_symbol] (also [__getitem__]): the first geometry of
    the list with the symbol; [None] stands for the [LookupError] raised when
    the loop ends. *)
Fixpoint get_geometry_from_mp_symbol
    (cg_list : list CoordinationGeometry) (symbol : string)
  : option CoordinationGeometry :=
  match cg_list with
  | [] => None
  | coord_geom :: rest =>
      if decide (mp_symbol coord_geom = symbol) then Some coord_geom
      else get_geometry_from_mp_symbol rest symbol
  end.

(** [__contains__]: whether [self[item]] raises [LookupError]. *)
Definition catalogue_contains
    (cg_list : list CoordinationGeometry) (item : string) : bool :=
  match get_geometry_from_mp_symbol cg_list item with
  | Some _ => true
  | None => false
  end.

(** ** Statements about the searches *)

(** Each measure of a search result is the one the aligner gives for the
    permutation at the same position, and the list of algorithm names has the
    length of the list of permutations. *)
Definition measures_follow_permutations
    (svd : M33 -> M33 * V3 * M33) (self : LocalGeometryFinder)
    (points_perfect : list V3) (r : search_result) : Prop :=
  Forall2 (fun perm info =>
             permutation_symmetry_measure svd self points_perfect perm = Ok info)
          (sr_permutations r) (sr_symmetry_measures r) /\
  length (sr_algos r) = length (sr_permutations r).

(** The same for the two result lists of [_cg_csm_separation_plane]. *)
Definition plane_search_in_step
    (svd : M33 -> M33 * V3 * M33) (self : LocalGeometryFinder)
    (points_perfect : list V3) (st : plane_search_state) : Prop :=
  Forall2 (fun perm info =>
             permutation_symmetry_measure svd self points_perfect perm = Ok info)
          (ps_permutations st) (ps_symmetry_measures st).


(** A catalogue geometry that the explicit search can handle on [n]
    neighbours. *)
Definition explicit_geometry_on (n : nat) (g : CoordinationGeometry) : Prop :=
  exists pts algo rest,
    points g = Some pts /\ length pts = n /\
    algorithms g = Some (ExplicitPermutations algo :: rest) /\
    Forall (fun perm => Permutation perm (seq 0 n)) (epa_permutations algo).

Definition valid_centring (ct : string) (inc : bool) (n : nat) : Prop :=
  ct = "centroid" \/
  (ct = "central_site" /\ inc = false) \/
  (ct = "standard" /\ ((n < 5)%nat -> inc = false)).


(** ** Further concrete inputs *)


(** The two-point geometry with its two equivalent orderings, and with a
    separation plane followed by an explicit list of permutations. *)
Definition two_point_symmetric_geometry : CoordinationGeometry :=
  {| mp_symbol := "L:2";
     coordination := Some 2%nat;
     cg_central_site := vzero;
     points := Some segment_pair;
     deactivate := false;
     algorithms := Some [ExplicitPermutations two_point_single_algo];
     equivalent_indices := Some [[0; 1]; [1; 0]]%nat |}.

Definition two_point_mixed_geometry : CoordinationGeometry :=
  {| mp_symbol := "L:2";
     coordination := Some 2%nat;
     cg_central_site := vzero;
     points := Some segment_pair;
     deactivate := false;
     algorithms := Some [SeparationPlaneAlgo between_plane_algo;
                         ExplicitPermutations two_point_single_algo];
     equivalent_indices := None |}.

(** The finder on two neighbours with [permutations_safe_override] set. *)
Definition two_point_override_finder : LocalGeometryFinder :=
  {| allcg := [two_point_single_geometry; unknown_environment; unclear_environment];
     permutations_safe_override := true;
     plane_safe_permutations := false;
     centering_type := "centroid";
     include_central_site_in_centroid := true;
     local_geometry := segment_geometry |}.

(* ================================================================== *)
(** * Part II.  Properties                                             *)
(* ================================================================== *)

(** ** 3x3 matrix algebra *)

(** Equations between concrete matrices and between concrete points. *)
Ltac mat_eq :=
  cbv [orthogonal mmul mtrans mdiag mid madd outer mzero mscale matmul_T
       mirror_z m11 m12 m13 m21 m22 m23 m31 m32 m33];
  repeat split; f_equal; ring.

Ltac vec_eq :=
  unfold vadd, vsub, vscale, mvec, vzero; simpl; f_equal; [f_equal|]; ring.

Section MatrixFacts.
Local Open Scope R_scope.

Lemma mmul_assoc a b c : mmul a (mmul b c) = mmul (mmul a b) c.
Proof. destruct a, b, c; unfold mmul; simpl; f_equal; ring. Qed.

Lemma mmul_id_l a : mmul mid a = a.
Proof. destruct a; unfold mmul, mid; simpl; f_equal; ring. Qed.

Lemma mmul_id_r a : mmul a mid = a.
Proof. destruct a; unfold mmul, mid; simpl; f_equal; ring. Qed.

Lemma mtrans_mmul a b : mtrans (mmul a b) = mmul (mtrans b) (mtrans a).
Proof. destruct a, b; unfold mmul, mtrans; simpl; f_equal; ring. Qed.

Lemma mtrans_involutive a : mtrans (mtrans a) = a.
Proof. destruct a; reflexivity. Qed.



Lemma trace_mtrans a : trace (mtrans a) = trace a.
Proof. destruct a; reflexivity. Qed.




Lemma det_mmul a b : det (mmul a b) = det a * det b.
Proof. destruct a, b; unfold det, mmul; simpl; ring. Qed.

Lemma det_mtrans a : det (mtrans a) = det a.
Proof. destruct a; unfold det, mtrans; simpl; ring. Qed.

Lemma det_mid : det mid = 1.
Proof. unfold det, mid; simpl; ring. Qed.

Lemma det_mdiag s1 s2 s3 : det (mdiag (s1, s2, s3)) = s1 * s2 * s3.
Proof. unfold det, mdiag; simpl; ring. Qed.






Lemma dot_self_nonneg a : 0 <= dot a a.
Proof. destruct a as [[a1 a2] a3]; unfold dot; nra. Qed.


Lemma orthogonal_mtrans a : orthogonal a -> orthogonal (mtrans a).
Proof. intros [H1 H2]; split; rewrite ?mtrans_involutive; assumption. Qed.

Lemma orthogonal_mmul a b : orthogonal a -> orthogonal b -> orthogonal (mmul a b).
Proof.
  intros [A1 A2] [B1 B2]; split; rewrite mtrans_mmul.
  - rewrite mmul_assoc, <- (mmul_assoc (mtrans b)), A1, mmul_id_r. exact B1.
  - rewrite mmul_assoc, <- (mmul_assoc a), B2, mmul_id_r. exact A2.
Qed.

Lemma orthogonal_mid : orthogonal mid.
Proof. split; unfold mmul, mtrans, mid; simpl; f_equal; ring. Qed.


Lemma orthogonal_det a : orthogonal a -> det a = 1 \/ det a = -1.
Proof.
  intros [H _]. apply (f_equal det) in H.
  rewrite det_mmul, det_mtrans, det_mid in H.
  assert (E : (det a - 1) * (det a + 1) = 0) by nra.
  apply Rmult_integral in E. destruct E; [left | right]; lra.
Qed.


End MatrixFacts.

(** ** Sums over coordinate arrays *)

Section ArrayFacts.
Local Open Scope R_scope.










Lemma dot_vsub_expand s p r :
  dot (vsub p (vscale s r)) (vsub p (vscale s r))
  = dot p p - 2 * s * dot r p + s * s * dot r r.
Proof.
  destruct p as [[p1 p2] p3], r as [[r1 r2] r3]; unfold dot, vsub, vscale; ring.
Qed.


Lemma tensordot_self_nonneg A : 0 <= tensordot A A.
Proof.
  induction A as [|a A IH]; simpl; [lra|].
  pose proof (dot_self_nonneg a). lra.
Qed.


Lemma tensordot_all_zero A : Forall (eq vzero) A -> tensordot A A = 0.
Proof.
  induction 1 as [|a A Ha _ IH]; simpl; [reflexivity|].
  subst a. rewrite IH. unfold dot, vzero. ring.
Qed.

Lemma tensordot_self_rsum A : tensordot A A = rsum (map (fun p => dot p p) A).
Proof. induction A as [|a A IH]; simpl; [reflexivity | now rewrite IH]. Qed.

Lemma tensordot_rsum A B :
  tensordot A B = rsum (map (fun ab => dot (fst ab) (snd ab)) (combine A B)).
Proof.
  revert B; induction A as [|a A IH]; intros [|b B]; simpl; try reflexivity.
  now rewrite IH.
Qed.



Lemma residual_expand s rot D P :
  length D = length P ->
  residual s rot D P
  = tensordot P P - 2 * s * tensordot (rotate_rows rot D) P
    + s * s * tensordot (rotate_rows rot D) (rotate_rows rot D).
Proof.
  unfold residual. revert P; induction D as [|d D IH]; intros [|p P] Hlen;
    simpl in *; try discriminate; [ring|].
  rewrite IH by congruence. rewrite dot_vsub_expand. ring.
Qed.



(** Arithmetic on finite values is real arithmetic. *)
Lemma fvscale_fin s v : fvscale (Fin s) v = lift3 (vscale s v).
Proof. destruct v as [[v1 v2] v3]; reflexivity. Qed.

Lemma fvsub_fin p a : fvsub p (lift3 a) = lift3 (vsub p a).
Proof.
  destruct p as [[p1 p2] p3], a as [[a1 a2] a3]; unfold fvsub, lift3, vsub, fsub; simpl.
  repeat f_equal.
Qed.

Lemma fdot_fin a b : fdot (lift3 a) (lift3 b) = Fin (dot a b).
Proof. destruct a as [[a1 a2] a3], b as [[b1 b2] b3]; reflexivity. Qed.

Lemma fdiv_fin x y : y <> 0 -> fdiv (Fin x) (Fin y) = Fin (x / y).
Proof. intros Hy; simpl. destruct (Req_dec_T y 0); [contradiction | reflexivity]. Qed.


Lemma fmul_comm a b : fmul a b = fmul b a.
Proof. destruct a, b; simpl; try reflexivity. f_equal; ring. Qed.

(** The code's array expression for the squared residuals is the sum over
    the paired points. *)
Lemma ftensordot_diff s R0 P :
  length R0 = length P ->
  ftensordot (fsub_rows P (fscale_rows s R0)) (fsub_rows P (fscale_rows s R0))
  = fsum (map (fun rp => let r := fvsub (snd rp) (fvscale s (fst rp)) in fdot r r)
              (combine R0 P)).
Proof.
  revert P; induction R0 as [|r R0 IH]; intros [|p P] Hlen; simpl in *;
    try discriminate; [reflexivity|].
  f_equal. apply IH. congruence.
Qed.

Lemma fsum_residual_fin s rot D P :
  fsum (map (fun rp => let r := fvsub (snd rp) (fvscale (Fin s) (fst rp)) in fdot r r)
            (combine (rotate_rows rot D) P))
  = Fin (residual s rot D P).
Proof.
  unfold residual, rotate_rows.
  revert P; induction D as [|d D IH]; intros [|p P]; simpl; try reflexivity.
  rewrite IH, fvscale_fin, fvsub_fin, fdot_fin. reflexivity.
Qed.

End ArrayFacts.

(** ** The aligner *)

Section AlignerFacts.
Local Open Scope R_scope.

Variable svd : M33 -> M33 * V3 * M33.




Lemma find_rotation_ok D P :
  length D = length P ->
  find_rotation svd D P
  = Ok (let '(U, _, Vt) := svd (matmul_T D P) in mmul (mtrans Vt) (mtrans U)).
Proof.
  intros Hlen. unfold find_rotation.
  destruct (decide (length D = length P)); [|contradiction].
  destruct (svd (matmul_T D P)) as [[U sv] Vt]. reflexivity.
Qed.

Lemma scale_formula_tensordot rot D P :
  scale_formula rot D P
  = fdiv (Fin (tensordot (rotate_rows rot D) P))
         (Fin (tensordot (rotate_rows rot D) (rotate_rows rot D))).
Proof.
  unfold scale_formula. rewrite tensordot_rsum, tensordot_self_rsum.
  unfold rotate_rows. do 2 f_equal.
  - revert P; induction D as [|d D IH]; intros [|p P]; simpl;
      try reflexivity. now rewrite IH.
  - now rewrite map_map.
Qed.

(** [symmetry_measure] on two arrays of the same shape that do not take the
    single-point shortcut. *)
Lemma symmetry_measure_unfold D P rot :
  length D = length P -> length D <> 1%nat ->
  find_rotation svd D P = Ok rot ->
  symmetry_measure svd D P
  = Ok {| sm_symmetry_measure := csm_formula rot D P;
          sm_scaling_factor := Some (scale_formula rot D P);
          sm_rotation_matrix := Some rot;
          sm_translation_vector := None |}.
Proof.
  intros Hlen H1 Hrot. unfold symmetry_measure.
  destruct (decide (length D = 1%nat)); [contradiction|].
  rewrite Hrot. cbv beta iota delta [mbind pyresult_bind].
  unfold find_scaling_factor. cbv zeta.
  assert (Hl : length (rotate_rows rot D) = length P)
    by (unfold rotate_rows; rewrite length_map; exact Hlen).
  case_decide; [|contradiction].
  f_equal.
  rewrite <- scale_formula_tensordot. f_equal.
  unfold csm_formula. rewrite (fmul_comm (Fin 100)). do 2 f_equal.
  2: now rewrite tensordot_self_rsum.
  rewrite ftensordot_diff by exact Hl.
  unfold rotate_rows.
  generalize (scale_formula rot D P) as s; intros s. clear.
  revert P; induction D as [|d D IH]; intros [|p P]; simpl; try reflexivity.
  now rewrite IH.
Qed.

(** The closed-form scale is the least-squares one. *)
Lemma scale_formula_least_squares rot D P s :
  length D = length P ->
  scale_formula rot D P = Fin s ->
  forall s', residual s rot D P <= residual s' rot D P.
Proof.
  intros Hlen Hs s'.
  rewrite !residual_expand by exact Hlen.
  rewrite scale_formula_tensordot in Hs.
  set (N := tensordot (rotate_rows rot D) P) in *.
  set (M := tensordot (rotate_rows rot D) (rotate_rows rot D)) in *.
  assert (HM : 0 <= M) by apply tensordot_self_nonneg.
  simpl in Hs. destruct (Req_dec_T M 0) as [E|NE].
  - unfold inf_signed in Hs.
    destruct (Rlt_dec 0 N); [discriminate|]. destruct (Rlt_dec N 0); discriminate.
  - injection Hs as Hs.
    assert (EN : N = s * M) by (subst s; field; exact NE).
    rewrite EN.
    pose proof (Rle_0_sqr (s' - s)) as Hsq. unfold Rsqr in Hsq.
    assert (Hp : 0 <= M * ((s' - s) * (s' - s))) by (apply Rmult_le_pos; assumption).
    lra.
Qed.

Lemma fsum_residual_formula s rot D P :
  fsum (map (fun dp =>
               let r := fvsub (snd dp) (fvscale (Fin s) (mvec rot (fst dp))) in
               fdot r r)
            (combine D P))
  = Fin (residual s rot D P).
Proof.
  unfold residual.
  revert P; induction D as [|d D IH]; intros [|p P]; simpl; try reflexivity.
  rewrite IH, fvscale_fin, fvsub_fin, fdot_fin. reflexivity.
Qed.

Lemma csm_formula_fin rot D P s :
  scale_formula rot D P = Fin s ->
  tensordot P P <> 0 ->
  csm_formula rot D P = Fin (100 * (residual s rot D P / tensordot P P)).
Proof.
  intros Hs HT. unfold csm_formula. rewrite Hs. cbv zeta.
  rewrite fsum_residual_formula, <- tensordot_self_rsum, fdiv_fin by exact HT.
  reflexivity.
Qed.








Lemma svd_rotation_det_reflection H U sv Vt :
  is_svd H (U, sv, Vt) -> det H < 0 ->
  det (mmul (mtrans Vt) (mtrans U)) = -1.
Proof.
  destruct sv as [[s1 s2] s3]. intros (HU & HV & (P1 & P2 & P3) & HH) Hneg.
  subst H. rewrite !det_mmul, det_mdiag in Hneg.
  rewrite det_mmul, !det_mtrans.
  assert (0 <= s1 * s2 * s3) by (repeat apply Rmult_le_pos; assumption).
  destruct (orthogonal_det U HU) as [EU|EU], (orthogonal_det Vt HV) as [EV|EV];
    rewrite EU, EV in *; nra.
Qed.

(** C2.  On two point sets of the same size with at least two points,
    [symmetry_measure] returns [100 · Σ‖p_i − s·R·d_i‖² / Σ‖p_i‖²] with [R]
    the matrix of [find_rotation] and [s] the closed-form scale
    [Σ (R·d_i)·p_i / Σ (R·d_i)·(R·d_i)]; a finite [s] minimises the sum of
    squared residuals, and the value is then the real quotient. *)
Theorem symmetry_measure_is_csm_formula D P :
  length D = length P -> (2 <= length D)%nat ->
  exists rot,
    find_rotation svd D P = Ok rot /\
    symmetry_measure svd D P
    = Ok {| sm_symmetry_measure := csm_formula rot D P;
            sm_scaling_factor := Some (scale_formula rot D P);
            sm_rotation_matrix := Some rot;
            sm_translation_vector := None |} /\
    (forall s, scale_formula rot D P = Fin s ->
       (forall s', residual s rot D P <= residual s' rot D P) /\
       (tensordot P P <> 0 ->
        csm_formula rot D P = Fin (100 * (residual s rot D P / tensordot P P)))).
Proof.
  intros Hlen Hn. pose proof (find_rotation_ok D P Hlen) as Hrot.
  eexists; split; [exact Hrot|]. split.
  - apply symmetry_measure_unfold; [assumption | lia | assumption].
  - intros s Hs. split.
    + apply scale_formula_least_squares; assumption.
    + intros HT. apply csm_formula_fin; assumption.
Qed.

End AlignerFacts.



Lemma symmetry_measure_is_csm_formula_witness :
  exists rot,
    find_rotation svd_segment doubled_segment_pair segment_pair = Ok rot /\
    symmetry_measure svd_segment doubled_segment_pair segment_pair
    = Ok {| sm_symmetry_measure := csm_formula rot doubled_segment_pair segment_pair;
            sm_scaling_factor := Some (scale_formula rot doubled_segment_pair segment_pair);
            sm_rotation_matrix := Some rot;
            sm_translation_vector := None |} /\
    (forall s, scale_formula rot doubled_segment_pair segment_pair = Fin s ->
       (forall s', (residual s rot doubled_segment_pair segment_pair
                    <= residual s' rot doubled_segment_pair segment_pair)%R) /\
       (tensordot segment_pair segment_pair <> 0%R ->
        csm_formula rot doubled_segment_pair segment_pair
        = Fin (100 * (residual s rot doubled_segment_pair segment_pair
                      / tensordot segment_pair segment_pair)))).
Proof.
  apply (symmetry_measure_is_csm_formula svd_segment doubled_segment_pair segment_pair).
  - reflexivity.
  - simpl; lia.
Defined.


(** C3.  On two point sets of the same size [find_rotation] returns [V·Uᵀ]
    for the decomposition [U, S, Vt] of [H = Dᵀ·P]; for orthogonal factors
    this is the inverse of [U·Vt].  Nothing forces a proper rotation: every
    valid decomposition of a cross-covariance with negative determinant gives
    a matrix of determinant [-1], and such inputs exist. *)
Theorem find_rotation_svd_unconstrained :
  (forall svd D P U sv Vt,
      length D = length P ->
      svd (matmul_T D P) = (U, sv, Vt) ->
      find_rotation svd D P = Ok (mmul (mtrans Vt) (mtrans U)) /\
      (orthogonal U -> orthogonal Vt ->
       mmul (mmul U Vt) (mmul (mtrans Vt) (mtrans U)) = mid /\
       mmul (mmul (mtrans Vt) (mtrans U)) (mmul U Vt) = mid) /\
      (is_svd (matmul_T D P) (U, sv, Vt) ->
       (det (matmul_T D P) < 0)%R ->
       det (mmul (mtrans Vt) (mtrans U)) = (-1)%R)) /\
  (exists svd D P rot,
      length D = length P /\
      is_svd (matmul_T D P) (svd (matmul_T D P)) /\
      find_rotation svd D P = Ok rot /\
      det rot = (-1)%R).
Proof.
  split.
  - intros svd D P U sv Vt Hlen E. split; [|split].
    + rewrite find_rotation_ok by exact Hlen. now rewrite E.
    + intros [U1 U2] [V1 V2]. split.
      * rewrite <- (mmul_assoc U), (mmul_assoc Vt), V2, mmul_id_l. exact U2.
      * rewrite <- (mmul_assoc (mtrans Vt)), (mmul_assoc (mtrans U)), U1, mmul_id_l.
        exact V1.
    + apply svd_rotation_det_reflection.
  - exists svd_mirror, unit_frame, mirrored_frame, (mmul (mtrans mirror_z) (mtrans mid)).
    split; [reflexivity|]. split; [|split].
    + unfold svd_mirror, is_svd. split; [apply orthogonal_mid|].
      split; [mat_eq|]. split; [lra|].
      unfold unit_frame, mirrored_frame. mat_eq.
    + reflexivity.
    + unfold det, mmul, mtrans, mirror_z, mid; simpl; ring.
Qed.

Lemma find_rotation_svd_unconstrained_witness :
  find_rotation svd_mirror unit_frame mirrored_frame
  = Ok (mmul (mtrans mirror_z) (mtrans mid)) /\
  det (mmul (mtrans mirror_z) (mtrans mid)) = (-1)%R /\
  mmul (mmul mid mirror_z) (mmul (mtrans mirror_z) (mtrans mid)) = mid.
Proof.
  destruct (proj1 find_rotation_svd_unconstrained
              svd_mirror unit_frame mirrored_frame mid (1, 1, 1)%R mirror_z
              eq_refl eq_refl) as (Hrot & Hinv & Hdet).
  split; [exact Hrot|]. split.
  - apply Hdet.
    + unfold is_svd. split; [apply orthogonal_mid|].
      split; [mat_eq|]. split; [lra|].
      unfold unit_frame, mirrored_frame. mat_eq.
    + unfold det, unit_frame, mirrored_frame.
      cbv [matmul_T madd outer mzero m11 m12 m13 m21 m22 m23 m31 m32 m33]. lra.
  - apply Hinv; [apply orthogonal_mid | mat_eq].
Defined.

(** ** [SeparationPlane.__init__] *)

(** C8.  A [SeparationPlane] that [__init__] constructs has a first point
    group no larger than the second, and its separation sizes are those of the
    groups and of the plane; with a first group strictly larger than the
    second, construction raises [RuntimeError]. *)
Theorem SeparationPlane_init_groups_ordered :
  (forall plane_pts mirror ordered groups ordered_groups explicit min_points
          optimized mult other sp,
      SeparationPlane_init plane_pts mirror ordered groups ordered_groups explicit
                           min_points optimized mult other = Ok sp ->
      exists A B rest,
        groups = Some (A :: B :: rest) /\
        point_groups sp = A :: B :: rest /\
        (length A <= length B)%nat /\
        separation sp = (length A, length (plane_points sp), length B)) /\
  (forall plane_pts mirror ordered A B rest ordered_groups explicit min_points
          optimized mult other,
      (length B < length A)%nat ->
      SeparationPlane_init plane_pts mirror ordered (Some (A :: B :: rest))
                           ordered_groups explicit min_points optimized mult other
      = Raise RuntimeError).
Proof.
  split.
  - intros plane_pts mirror ordered groups ordered_groups explicit min_points
           optimized mult other sp H.
    unfold SeparationPlane_init in H.
    destruct groups as [[|A [|B rest]]|]; try discriminate.
    cbn in H. case_decide; [discriminate|].
    injection H as <-. exists A, B, rest. cbn. repeat split; lia.
  - intros plane_pts mirror ordered A B rest ordered_groups explicit min_points
           optimized mult other Hlt.
    unfold SeparationPlane_init. cbn. case_decide; [reflexivity | lia].
Qed.

Lemma SeparationPlane_init_groups_ordered_witness :
  exists A B rest,
    Some [[1; 4]; [2; 7; 6]]%nat = Some (A :: B :: rest) /\
    (length A <= length B)%nat /\
    SeparationPlane_init [0]%nat false false (Some [[1; 4; 5]; [2]]%nat)
                         None None None None None None
    = Raise RuntimeError.
Proof.
  destruct SeparationPlane_init_groups_ordered as [Hok Hraise].
  destruct (SeparationPlane_init [0; 3; 5; 8]%nat false false
              (Some [[1; 4]; [2; 7; 6]]%nat) None None (Some 2%nat) None None None)
    as [sp|e] eqn:E; [|discriminate E].
  destruct (Hok _ _ _ _ _ _ _ _ _ _ sp E) as (A & B & rest & Hg & _ & Hle & _).
  exists A, B, rest. split; [exact Hg|]. split; [exact Hle|].
  apply Hraise. simpl; lia.
Defined.

(** ** The dictionaries of a permutation *)

Section PermutationMaps.
Local Open Scope nat_scope.









End PermutationMaps.

(** ** Python outcomes *)

Lemma bind_Ok {A B : Type} (m : pyresult A) (f : A -> pyresult B) (b : B) :
  m ≫= f = Ok b -> exists a, m = Ok a /\ f a = Ok b.
Proof. destruct m as [a|e]; cbn; [eauto | discriminate]. Qed.

Lemma bind_Ok_l {A B : Type} (a : A) (f : A -> pyresult B) : Ok a ≫= f = f a.
Proof. reflexivity. Qed.

(** Inversion of a hypothesis [x ← m; k x = Ok r]. *)
Ltac bind_inv H :=
  let a := fresh "a" in
  let E := fresh "E" in
  apply bind_Ok in H as (a & E & H).

Tactic Notation "bind_inv_as" hyp(H) ident(a) ident(E) :=
  apply bind_Ok in H as (a & E & H).

Lemma for_each_length {A B : Type} (f : A -> pyresult B) xs ys :
  for_each f xs = Ok ys -> length ys = length xs.
Proof.
  revert ys; induction xs as [|x xs IH]; intros ys H; cbn in H.
  - now injection H as <-.
  - bind_inv H. bind_inv H. injection H as <-. cbn. f_equal. now apply IH.
Qed.

Lemma for_each_Forall2 {A B : Type} (f : A -> pyresult B) xs ys :
  for_each f xs = Ok ys -> Forall2 (fun x y => f x = Ok y) xs ys.
Proof.
  revert ys; induction xs as [|x xs IH]; intros ys H; cbn in H.
  - injection H as <-. constructor.
  - bind_inv H. bind_inv H. injection H as <-. constructor; [assumption | now apply IH].
Qed.

Lemma for_each_Ok {A B : Type} (f : A -> pyresult B) xs :
  Forall (fun x => exists y, f x = Ok y) xs -> exists ys, for_each f xs = Ok ys.
Proof.
  induction 1 as [|x xs [y Hy] _ [ys IH]]; cbn; [eauto|].
  rewrite Hy, IH. cbn. eauto.
Qed.

Lemma take_Ok {A : Type} (xs : list A) idx :
  Forall (fun i => i < length xs)%nat idx ->
  exists ys, take xs idx = Ok ys /\ length ys = length idx.
Proof.
  intros Hidx. unfold take.
  destruct (for_each_Ok (getitem xs) idx) as [ys Hys].
  - eapply Forall_impl; [exact Hidx|]. intros i Hi. cbn in Hi.
    unfold getitem. destruct (lookup_lt_is_Some_2 xs i Hi) as [x Hx].
    rewrite Hx. eauto.
  - exists ys. split; [exact Hys|]. eapply for_each_length; exact Hys.
Qed.

(** An invariant of the body of a loop is an invariant of the loop. *)
Lemma for_fold_invariant {A St : Type} (Inv : St -> Prop)
    (body : St -> A -> pyresult St) xs :
  (forall st x st', Inv st -> body st x = Ok st' -> Inv st') ->
  forall st st', Inv st -> for_fold body xs st = Ok st' -> Inv st'.
Proof.
  intros Hbody. induction xs as [|x xs IH]; intros st st' Hst H; cbn in H.
  - now injection H as <-.
  - bind_inv H. eapply IH; [|exact H]. eapply Hbody; eassumption.
Qed.

(** ** The permutation searches *)

Section FinderFacts.

Variable svd : M33 -> M33 * V3 * M33.
Variable Plane : Type.
Variable collinear : V3 -> V3 -> V3 -> R -> bool.
Variable Plane_from_3points : V3 -> V3 -> V3 -> Plane.
Variable Plane_from_npoints : list V3 -> Plane.
Variable indices_separate : Plane -> list V3 -> R -> separation_t.
Variable sort_separation : separation_t -> separation_t.
Variable separation_in_list : separation_t -> list separation_t -> bool.
Variable project_and_to2dim_ordered_indices : Plane -> list V3 -> list nat.
Variable rng_state : Type.
Variable rng_permutation : rng_state -> nat -> list nat * rng_state.

Local Abbreviation search_standard :=
  (coordination_geometry_symmetry_measures_standard svd).
Local Abbreviation search_fallback :=
  (coordination_geometry_symmetry_measures_fallback_random svd rng_state rng_permutation).
Local Abbreviation fallback_loop :=
  (fallback_random_loop svd rng_state rng_permutation).
Local Abbreviation plane_tolerances :=
  (separation_plane_tolerances svd Plane indices_separate sort_separation
     separation_in_list project_and_to2dim_ordered_indices).
Local Abbreviation plane_tolerance_loop :=
  (tolerance_loop svd Plane indices_separate sort_separation
     separation_in_list project_and_to2dim_ordered_indices).
Local Abbreviation plane_tolerance_step :=
  (separation_for_tolerance svd Plane indices_separate sort_separation
     separation_in_list project_and_to2dim_ordered_indices).
Local Abbreviation plane_csm :=
  (_cg_csm_separation_plane svd Plane indices_separate sort_separation
     separation_in_list project_and_to2dim_ordered_indices).
Local Abbreviation plane_combination :=
  (separation_plane_combination svd Plane collinear Plane_from_3points
     Plane_from_npoints indices_separate sort_separation separation_in_list
     project_and_to2dim_ordered_indices).
Local Abbreviation plane_npoints_loop :=
  (npoints_loop svd Plane collinear Plane_from_3points
     Plane_from_npoints indices_separate sort_separation separation_in_list
     project_and_to2dim_ordered_indices).
Local Abbreviation search_separation_plane :=
  (coordination_geometry_symmetry_measures_separation_plane
     svd Plane collinear Plane_from_3points
     Plane_from_npoints indices_separate sort_separation separation_in_list
     project_and_to2dim_ordered_indices rng_state rng_permutation).

Lemma maps_follow_extend a b :
  maps_follow_permutations a -> maps_follow_permutations b ->
  maps_follow_permutations (extend_search_result a b).
Proof.
  intros [A1 A2] [B1 B2]. split; cbn; rewrite map_app; congruence.
Qed.

Lemma search_standard_maps self cg algo points_perfect optimization r :
  search_standard self cg algo points_perfect optimization = Ok r ->
  maps_follow_permutations r /\ sr_permutations r = epa_permutations algo.
Proof.
  unfold coordination_geometry_symmetry_measures_standard. intros H.
  bind_inv H. injection H as <-. repeat split.
Qed.

Lemma search_fallback_maps self cg n_random NRANDOM points_perfect rng r rng' :
  search_fallback self cg n_random NRANDOM points_perfect rng = Ok (r, rng') ->
  maps_follow_permutations r.
Proof.
  unfold coordination_geometry_symmetry_measures_fallback_random. intros H.
  bind_inv H. destruct a as [drawn rng1]. injection H as <- _. split; reflexivity.
Qed.

(** What [_cg_csm_separation_plane] returns when it returns lists: the
    measures are not empty. *)
Lemma plane_csm_Some self cg sp plane seps tols tested points_perfect
      csm perm algo seps' tested' :
  plane_csm self cg sp plane seps tols tested points_perfect
  = Ok (Some (csm, perm, algo), seps', tested') ->
  csm <> [].
Proof.
  unfold _cg_csm_separation_plane. intros H. bind_inv H.
  case_decide as Hlen; [|discriminate].
  injection H as <- _ _ _ _. intros Hnil. rewrite Hnil in Hlen. cbn in Hlen. lia.
Qed.

Lemma plane_combination_invariant self cg sp points_perfect npoints st pc st' :
  separation_search_invariant st ->
  plane_combination self cg sp points_perfect npoints st pc = Ok st' ->
  separation_search_invariant st'.
Proof.
  intros [Hmaps Hn] H. unfold separation_plane_combination in H.
  bind_inv H. destruct a as [plane|]; [|now injection H as <-].
  bind_inv H. destruct a as [[cgsm seps'] tested'].
  destruct cgsm as [[[csm perm] algo]|].
  - apply plane_csm_Some in E0. injection H as <-. split; cbn.
    + apply maps_follow_extend; [exact Hmaps | split; reflexivity].
    + intros _ Hnil. apply app_eq_nil in Hnil as [_ Hnil]. contradiction.
  - injection H as <-. split; cbn; assumption.
Qed.

Lemma plane_npoints_loop_invariant self cg sp points_perfect range st st' :
  separation_search_invariant st ->
  plane_npoints_loop self cg sp points_perfect range st = Ok st' ->
  separation_search_invariant st'.
Proof.
  revert st; induction range as [|npoints range IH]; intros st Hst H; cbn in H.
  - now injection H as <-.
  - bind_inv H.
    assert (Ha : separation_search_invariant a).
    { eapply for_fold_invariant; [|exact Hst|exact E].
      intros s x s' Hs Hb. eapply plane_combination_invariant; eassumption. }
    case_decide; [now injection H as <- | eapply IH; eassumption].
Qed.

Lemma search_separation_plane_maps self cg sp tested points_perfect rng r tested' rng' :
  search_separation_plane self cg sp tested points_perfect rng = Ok (r, tested', rng') ->
  maps_follow_permutations r.
Proof.
  unfold coordination_geometry_symmetry_measures_separation_plane. intros H.
  destruct (minimum_number_of_points sp) as [first|]; [|discriminate].
  bind_inv H.
  assert (Ha : separation_search_invariant a).
  { eapply plane_npoints_loop_invariant; [|exact E].
    split; [split; reflexivity | cbn; lia]. }
  case_decide.
  - bind_inv H. destruct a0 as [fallback rng1]. injection H as <- _ _.
    eapply search_fallback_maps; exact E0.
  - injection H as <- _ _. apply Ha.
Qed.


(** *** The random fallback *)

Lemma symmetry_measure_Ok D P :
  length D = length P -> exists info, symmetry_measure svd D P = Ok info.
Proof.
  intros Hlen. destruct (decide (length D = 1%nat)) as [H1|H1].
  - unfold symmetry_measure. rewrite decide_True by exact H1. eauto.
  - eexists. apply symmetry_measure_unfold; [exact Hlen | exact H1 |].
    apply find_rotation_ok. exact Hlen.
Qed.

Lemma AbstractGeometry_init_lengths c bare ct inc g :
  AbstractGeometry_init c bare ct inc = Ok g ->
  length (_points_wocs_ctwcc g) = length bare /\
  length (_points_wcs_ctwcc g) = S (length bare) /\
  length (coords g) = length bare /\
  (1 <= length bare)%nat.
Proof.
  unfold AbstractGeometry_init. intros H.
  destruct bare as [|b bare]; [discriminate|].
  bind_inv H. injection H as <-. cbn.
  unfold shift_rows. rewrite !length_map. repeat split; lia.
Qed.

Lemma permutation_symmetry_measure_Ok self points_perfect perm n :
  length (_points_wocs_ctwcc (local_geometry self)) = n ->
  length (_points_wcs_ctwcc (local_geometry self)) = S n ->
  length points_perfect = S n ->
  Permutation perm (seq 0 n) ->
  exists info, permutation_symmetry_measure svd self points_perfect perm = Ok info.
Proof.
  intros Hwocs Hwcs Hpp Hperm.
  destruct (take_Ok (_points_wocs_ctwcc (local_geometry self)) perm)
    as (taken & Htake & Hlen).
  { rewrite Hwocs. apply Forall_forall. intros i Hi.
    rewrite Hperm in Hi. apply elem_of_seq in Hi. lia. }
  destruct (symmetry_measure_Ok
              (firstn 1 (_points_wcs_ctwcc (local_geometry self)) ++ taken)
              points_perfect) as [info Hinfo].
  { rewrite length_app, length_take, Hwcs, Hlen, (Permutation_length Hperm),
      length_seq, Hpp. lia. }
  unfold permutation_symmetry_measure, points_wcs_ctwcc, view_with_centre.
  rewrite Htake. cbn. rewrite Hinfo. cbn. eauto.
Qed.




(** *** The loop over the distance tolerances *)

Local Abbreviation plane_tolerance_round :=
  (tolerance_round svd Plane indices_separate sort_separation
     separation_in_list project_and_to2dim_ordered_indices).

Lemma try_separation_permutation_evaluated self cg argref separation_perm
      points_perfect st sep_perm st' :
  try_separation_permutation svd self cg argref separation_perm points_perfect
                             st sep_perm = Ok st' ->
  ps_tolerances_evaluated st' = ps_tolerances_evaluated st.
Proof.
  unfold try_separation_permutation. intros H.
  bind_inv H. bind_inv H. bind_inv H. destruct a1 as [[|] tested].
  - now injection H as <-.
  - bind_inv H. now injection H as <-.
Qed.

Lemma tolerance_step_evaluated self cg sp plane points_perfect st tol st' ended :
  plane_tolerance_step self cg sp plane points_perfect st tol = Ok (st', ended) ->
  ps_tolerances_evaluated st' = ps_tolerances_evaluated st ++ [tol].
Proof.
  unfold separation_for_tolerance. cbv zeta. intros H.
  destruct (separation_in_list _ _); [now injection H as <- _|].
  destruct (sort_separation _) as [[side0 inplane] side2].
  case_decide; [now injection H as <- _|].
  bind_inv H. bind_inv H. destruct a0 as [this_separation|];
    [|now injection H as <- _].
  bind_inv H. bind_inv H. bind_inv H. injection H as <- _.
  eapply (for_fold_invariant
            (fun s => ps_tolerances_evaluated s = ps_tolerances_evaluated st ++ [tol]));
    [| |exact E3]; [|reflexivity].
  intros s x s' Hs Hb. apply try_separation_permutation_evaluated in Hb. congruence.
Qed.

(** With [plane_found] never set, the loop runs one round per tolerance. *)
Lemma tolerance_loop_no_break self cg sp plane points_perfect tols st :
  plane_tolerance_loop self cg sp plane points_perfect false tols st
  = for_fold (plane_tolerance_round self cg sp plane points_perfect) tols st.
Proof.
  revert st; induction tols as [|tol tols IH]; intros st; cbn [tolerance_loop for_fold];
    [reflexivity|].
  assert (Hround : plane_tolerance_round self cg sp plane points_perfect st tol
                   = match plane_tolerance_step self cg sp plane points_perfect st tol with
                     | Ok (st', _) => Ok st'
                     | Raise e => Raise e
                     end).
  { unfold tolerance_round.
    destruct (plane_tolerance_step self cg sp plane points_perfect st tol)
      as [[st' ended]|e]; reflexivity. }
  rewrite Hround.
  destruct (plane_tolerance_step self cg sp plane points_perfect st tol)
    as [[st' ended]|e]; [|reflexivity].
  rewrite !bind_Ok_l, andb_false_r. apply IH.
Qed.

Lemma tolerance_rounds_evaluated self cg sp plane points_perfect tols st st' :
  for_fold (plane_tolerance_round self cg sp plane points_perfect) tols st = Ok st' ->
  ps_tolerances_evaluated st' = ps_tolerances_evaluated st ++ tols.
Proof.
  revert st; induction tols as [|tol tols IH]; intros st H; cbn [for_fold] in H.
  - injection H as <-. now rewrite app_nil_r.
  - bind_inv H. unfold tolerance_round in E. bind_inv E. destruct a0 as [st1 ended].
    injection E as <-. apply tolerance_step_evaluated in E0.
    rewrite (IH _ H), E0, <- app_assoc. reflexivity.
Qed.

Lemma DIST_TOLERANCES_increasing : StronglySorted Rlt DIST_TOLERANCES.
Proof.
  unfold DIST_TOLERANCES.
  repeat (constructor; [|repeat (constructor; [lra|]); constructor]).
  constructor.
Qed.

(** C6 (amended).  The tolerances are the fixed sequence
    [0.02, 0.05, 0.1, 0.2, 0.3], which is increasing, and for every candidate
    plane the classification is performed for each of them in that order:
    the loop does not stop at the first matching separation, it runs one
    round per tolerance.  A round whose separation is already recorded, or
    whose in-plane group has not the size of the reference plane, adds no
    permutation. *)
Theorem separation_plane_evaluates_every_tolerance :
  DIST_TOLERANCES = [0.02; 0.05; 0.1; 0.2; 0.3]%R /\
  StronglySorted Rlt DIST_TOLERANCES /\
  (forall self cg sp plane seps tested points_perfect,
      plane_tolerances self cg sp plane seps (Some DIST_TOLERANCES) tested points_perfect
      = for_fold (plane_tolerance_round self cg sp plane points_perfect)
                 DIST_TOLERANCES (plane_search_entry seps tested)) /\
  (forall self cg sp plane seps tested points_perfect st,
      plane_tolerances self cg sp plane seps (Some DIST_TOLERANCES) tested points_perfect
      = Ok st ->
      ps_tolerances_evaluated st = DIST_TOLERANCES) /\
  (forall self cg sp plane points_perfect st tol,
      let separation :=
        sort_separation (indices_separate plane (coords (local_geometry self)) tol) in
      separation_in_list separation (ps_plane_separations st) = true \/
      length (snd (fst separation)) <> length (plane_points sp) ->
      plane_tolerance_round self cg sp plane points_perfect st tol
      = Ok (with_tolerance_evaluated st tol)).
Proof.
  split; [reflexivity|]. split; [exact DIST_TOLERANCES_increasing|].
  split; [|split].
  - intros. unfold separation_plane_tolerances. cbv zeta.
    change (match Some DIST_TOLERANCES with
            | Some [] | None => DIST_TOLERANCES
            | Some (r :: l) => r :: l
            end) with DIST_TOLERANCES.
    apply tolerance_loop_no_break.
  - intros self cg sp plane seps tested points_perfect st H.
    unfold separation_plane_tolerances in H. cbv zeta in H.
    change (match Some DIST_TOLERANCES with
            | Some [] | None => DIST_TOLERANCES
            | Some (r :: l) => r :: l
            end) with DIST_TOLERANCES in H.
    rewrite tolerance_loop_no_break in H.
    apply tolerance_rounds_evaluated in H. exact H.
  - intros self cg sp plane points_perfect st tol separation Hskip.
    unfold tolerance_round, separation_for_tolerance. cbv zeta.
    fold separation. cbn [ps_plane_separations with_tolerance_evaluated].
    destruct (separation_in_list separation (ps_plane_separations st)) eqn:Hin;
      [reflexivity|].
    destruct Hskip as [Hskip|Hskip]; [discriminate|].
    destruct separation as [[side0 inplane] side2]. cbn in Hskip.
    rewrite decide_True by exact Hskip. reflexivity.
Qed.

End FinderFacts.

(** ** The searches on two neighbours *)



(** C6 (as stated) fails.  With two neighbours that the plane separates at
    every tolerance, the tightest tolerance [0.02] already gives a separation
    that matches the reference and one measure; the four looser tolerances
    are evaluated all the same (and add nothing, their separation being
    recorded). *)
Lemma separation_plane_looser_tolerances_evaluated :
  exists st1 st,
    separation_for_tolerance
      svd_two unit one_on_each_side keep_separation separation_is_listed no_projection
      (finder_on [two_point_plane_geometry] segment_geometry)
      two_point_plane_geometry between_plane_algo tt
      (_points_wcs_ctwcc segment_geometry) (plane_search_entry [] None) 0.02%R
    = Ok (st1, true) /\
    length (ps_symmetry_measures st1) = 1%nat /\
    ps_tolerances_evaluated st1 = [0.02%R] /\
    separation_plane_tolerances
      svd_two unit one_on_each_side keep_separation separation_is_listed no_projection
      (finder_on [two_point_plane_geometry] segment_geometry)
      two_point_plane_geometry between_plane_algo tt [] (Some DIST_TOLERANCES) None
      (_points_wcs_ctwcc segment_geometry)
    = Ok st /\
    ps_symmetry_measures st = ps_symmetry_measures st1 /\
    ps_tolerances_evaluated st = [0.02; 0.05; 0.1; 0.2; 0.3]%R.
Proof.
  eexists _, _.
  split; [reflexivity|]. split; [reflexivity|]. split; [reflexivity|].
  split; [reflexivity|]. split; reflexivity.
Qed.

Lemma separation_plane_evaluates_every_tolerance_witness :
  exists st,
    separation_plane_tolerances
      svd_two unit one_on_each_side keep_separation separation_is_listed no_projection
      (finder_on [two_point_plane_geometry] segment_geometry)
      two_point_plane_geometry between_plane_algo tt [] (Some DIST_TOLERANCES) None
      (_points_wcs_ctwcc segment_geometry)
    = Ok st /\
    ps_tolerances_evaluated st = DIST_TOLERANCES /\
    tolerance_round
      svd_two unit one_on_each_side keep_separation separation_is_listed no_projection
      (finder_on [two_point_plane_geometry] segment_geometry)
      two_point_plane_geometry between_plane_algo tt
      (_points_wcs_ctwcc segment_geometry)
      (plane_search_entry [([0], [], [1])%nat] None) 0.3%R
    = Ok (with_tolerance_evaluated (plane_search_entry [([0], [], [1])%nat] None) 0.3%R).
Proof.
  destruct (separation_plane_evaluates_every_tolerance
              svd_two unit one_on_each_side keep_separation separation_is_listed
              no_projection)
    as (_ & _ & _ & Hall & Hskip).
  destruct (separation_plane_tolerances
      svd_two unit one_on_each_side keep_separation separation_is_listed no_projection
      (finder_on [two_point_plane_geometry] segment_geometry)
      two_point_plane_geometry between_plane_algo tt [] (Some DIST_TOLERANCES) None
      (_points_wcs_ctwcc segment_geometry)) as [st|e] eqn:E; [|discriminate E].
  exists st. split; [reflexivity|]. split; [exact (Hall _ _ _ _ _ _ _ _ E)|].
  apply Hskip. left. reflexivity.
Defined.

(** ** The orchestrator *)

Section MinimumFacts.
Local Open Scope R_scope.

Lemma fmin_le_refl a : fmin_le a a.
Proof. destruct a; cbn; auto; lra. Qed.

Lemma fmin_le_trans a b c : fmin_le a b -> fmin_le b c -> fmin_le a c.
Proof. destruct a, b, c; cbn; try tauto; lra. Qed.

Lemma fge_true_fmin_le x mp : fge x mp = true -> fmin_le mp x.
Proof.
  destruct x, mp; cbn; try discriminate; auto.
  destruct (Rle_dec r0 r); [auto | discriminate].
Qed.

Lemma fge_false_fmin_le x mp :
  fge x mp = false -> x <> NaN -> mp <> NaN -> fmin_le x mp.
Proof.
  destruct x, mp; cbn; try discriminate; try congruence; auto.
  destruct (Rle_dec r0 r); [discriminate | intros; lra].
Qed.

Lemma nan_or_not (x : npfloat) : {x = NaN} + {x <> NaN}.
Proof. destruct x; [right | right | right | left]; congruence. Qed.

Lemma argmin_scan_spec rest : forall mp min_ind i,
  mp <> NaN ->
  (argmin_scan mp min_ind i rest = min_ind /\ Forall (fmin_le mp) rest) \/
  (exists k v, argmin_scan mp min_ind i rest = (i + k)%nat /\
               rest !! k = Some v /\ fmin_le v mp /\ Forall (fmin_le v) rest).
Proof.
  induction rest as [|x rest IH]; intros mp min_ind i Hmp; cbn [argmin_scan].
  - left. split; [reflexivity | constructor].
  - destruct (fge x mp) eqn:Hge.
    + pose proof (fge_true_fmin_le _ _ Hge) as Hle.
      destruct (IH mp min_ind (S i) Hmp) as [[E F]|(k & v & E & L & Hv & F)].
      * left. split; [exact E | constructor; assumption].
      * right. exists (S k), v. split; [rewrite E; lia|]. split; [exact L|].
        split; [exact Hv|]. constructor; [|exact F].
        eapply fmin_le_trans; eassumption.
    + destruct (nan_or_not x) as [->|Hx].
      * right. exists 0%nat, NaN. split; [f_equal; lia|]. split; [reflexivity|].
        split; [exact I|]. apply Forall_forall. intros; exact I.
      * pose proof (fge_false_fmin_le _ _ Hge Hx Hmp) as Hle.
        assert (Hscan : match x with
                        | NaN => i
                        | _ => argmin_scan x i (S i) rest
                        end = argmin_scan x i (S i) rest)
          by (destruct x; congruence).
        rewrite Hscan.
        destruct (IH x i (S i) Hx) as [[E F]|(k & v & E & L & Hv & F)].
        -- right. exists 0%nat, x. split; [rewrite E; lia|]. split; [reflexivity|].
           split; [exact Hle|]. constructor; [apply fmin_le_refl | exact F].
        -- right. exists (S k), v. split; [rewrite E; lia|]. split; [exact L|].
           split; [eapply fmin_le_trans; eassumption|].
           constructor; [exact Hv | exact F].
Qed.

(** [np.argmin] returns the position of a least value. *)
Lemma argmin_spec xs i :
  argmin xs = Ok i -> exists v, xs !! i = Some v /\ Forall (fmin_le v) xs.
Proof.
  destruct xs as [|x xs]; [discriminate|]. intros H.
  destruct (nan_or_not x) as [->|Hx].
  - injection H as <-. exists NaN. split; [reflexivity|].
    apply Forall_forall. intros; exact I.
  - assert (Hi : i = argmin_scan x 0 1 xs)
      by (destruct x; cbn [argmin] in H; congruence).
    destruct (argmin_scan_spec xs x 0%nat 1%nat Hx) as [[E F]|(k & v & E & L & Hv & F)].
    + exists x. rewrite Hi, E. split; [reflexivity|].
      constructor; [apply fmin_le_refl | exact F].
    + exists v. rewrite Hi, E. split; [exact L|]. constructor; assumption.
Qed.

Lemma argmin_Ok xs : xs <> [] -> exists i, argmin xs = Ok i.
Proof. destruct xs as [|[] xs]; [congruence | cbn; eauto ..]. Qed.

Lemma argmin_singleton x : argmin [x] = Ok 0%nat.
Proof. destruct x; reflexivity. Qed.








Lemma linalg_inv_Ok rot :
  det rot <> 0 -> linalg_inv rot = Ok (mscale (/ det rot) (adjugate rot)).
Proof.
  intros Hd. unfold linalg_inv. destruct (Req_dec_T (det rot) 0); [contradiction|].
  reflexivity.
Qed.


Lemma getitem_Ok {A : Type} (xs : list A) i x :
  getitem xs i = Ok x <-> xs !! i = Some x.
Proof.
  unfold getitem. destruct (xs !! i); split; intros H; try discriminate;
    injection H as <-; reflexivity.
Qed.


Lemma minimum_result_Ok geometry found imin best :
  well_formed_result found ->
  sr_symmetry_measures found !! imin = Some best ->
  exists entry, minimum_result geometry found imin = Ok entry.
Proof.
  intros (Hp & Ha & Hl & Hq & Hall) Hbest.
  pose proof (lookup_lt_Some _ _ _ Hbest) as Hlt.
  destruct (lookup_lt_is_Some_2 (sr_permutations found) imin) as [perm Hperm]; [lia|].
  destruct (lookup_lt_is_Some_2 (sr_algos found) imin) as [name Hname]; [lia|].
  destruct (lookup_lt_is_Some_2 (sr_local2perfect_maps found) imin) as [l2p Hl2p]; [lia|].
  destruct (lookup_lt_is_Some_2 (sr_perfect2local_maps found) imin) as [p2l Hp2l]; [lia|].
  rewrite Forall_forall in Hall.
  destruct (Hall best) as (s & rot & t & Hs & Hr & Hd & Ht).
  { eapply list_elem_of_lookup_2; exact Hbest. }
  apply getitem_Ok in Hname, Hbest, Hperm, Hl2p, Hp2l.
  unfold minimum_result.
  assert (Halgo : exists algo,
             match algorithms geometry with
             | Some _ => name ← getitem (sr_algos found) imin; Ok (AlgoName name)
             | None => Ok (AlgoNames (sr_algos found))
             end = Ok algo).
  { destruct (algorithms geometry); [rewrite Hname|]; cbn; eauto. }
  destruct Halgo as [algo ->].
  rewrite bind_Ok_l, Hbest, bind_Ok_l, Hperm, bind_Ok_l, Hl2p, bind_Ok_l, Hp2l,
    bind_Ok_l, Hs, Hr, Ht.
  unfold inverse_scaling, inverse_rotation. rewrite (linalg_inv_Ok rot Hd).
  cbn. eauto.
Qed.

End MinimumFacts.

Section OrchestratorFacts.

Variable svd : M33 -> M33 * V3 * M33.
Variable Plane : Type.
Variable collinear : V3 -> V3 -> V3 -> R -> bool.
Variable Plane_from_3points : V3 -> V3 -> V3 -> Plane.
Variable Plane_from_npoints : list V3 -> Plane.
Variable indices_separate : Plane -> list V3 -> R -> separation_t.
Variable sort_separation : separation_t -> separation_t.
Variable separation_in_list : separation_t -> list separation_t -> bool.
Variable project_and_to2dim_ordered_indices : Plane -> list V3 -> list nat.
Variable rng_state : Type.
Variable rng_permutation : rng_state -> nat -> list nat * rng_state.
Variable optim_state : Type.
Variable coordination_geometry_symmetry_measures_sepplane_optim :
  LocalGeometryFinder -> CoordinationGeometry -> list V3 -> option nat ->
  optim_state -> pyresult (search_result * optim_state).

Local Abbreviation search :=
  (coordination_geometry_symmetry_measures
     svd Plane collinear Plane_from_3points Plane_from_npoints indices_separate
     sort_separation separation_in_list project_and_to2dim_ordered_indices
     rng_state rng_permutation).
Local Abbreviation measures_loop :=
  (symmetry_measures_loop
     svd Plane collinear Plane_from_3points Plane_from_npoints indices_separate
     sort_separation separation_in_list project_and_to2dim_ordered_indices
     rng_state rng_permutation).
Local Abbreviation get_measures :=
  (get_coordination_symmetry_measures
     svd Plane collinear Plane_from_3points Plane_from_npoints indices_separate
     sort_separation separation_in_list project_and_to2dim_ordered_indices
     rng_state rng_permutation).
Local Abbreviation search_optim :=
  coordination_geometry_symmetry_measures_sepplane_optim.
Local Abbreviation measures_optim_loop :=
  (symmetry_measures_optim_loop
     svd optim_state coordination_geometry_symmetry_measures_sepplane_optim).
Local Abbreviation get_measures_optim :=
  (get_coordination_symmetry_measures_optim
     svd Plane collinear Plane_from_3points Plane_from_npoints indices_separate
     sort_separation separation_in_list project_and_to2dim_ordered_indices
     rng_state rng_permutation
     optim_state coordination_geometry_symmetry_measures_sepplane_optim).



(** With well-formed lists the minimum is kept (here without the keys of
    [all_csms]). *)
Lemma keep_minimum_Ok self geometry perfect found :
  (0 < length (sr_symmetry_measures found))%nat ->
  well_formed_result found ->
  exists entry, keep_minimum svd self geometry perfect false found = Ok entry.
Proof.
  intros Hlen Hwf. unfold keep_minimum.
  destruct (argmin_Ok (map sm_symmetry_measure (sr_symmetry_measures found)))
    as [imin Himin].
  { intros Hnil. apply (f_equal length) in Hnil. rewrite length_map in Hnil.
    cbn in Hnil. lia. }
  rewrite Himin, bind_Ok_l.
  destruct (argmin_spec _ _ Himin) as (v & Hv & _).
  rewrite list_lookup_fmap in Hv.
  destruct (sr_symmetry_measures found !! imin) as [best|] eqn:Hbest; [|discriminate].
  destruct (minimum_result_Ok geometry found imin best Hwf Hbest) as [entry Hentry].
  rewrite Hentry, bind_Ok_l. eauto.
Qed.

(** Every minimum entry of the dictionary that the loop returns was either
    there before, or was kept from the search run on one of the geometries. *)
Lemma measures_loop_entries self all_csms optimization geoms :
  forall dict rng dict' rng',
    measures_loop self true all_csms optimization geoms dict rng = Ok (dict', rng') ->
    forall symbol entry,
      dict' !! symbol = Some (MinimumResult entry) ->
      dict !! symbol = Some (MinimumResult entry) \/
      exists geometry perfect points_perfect found rng0 rng1,
        geometry ∈ geoms /\ mp_symbol geometry = symbol /\
        from_cg geometry (centering_type self)
                (include_central_site_in_centroid self) = Ok perfect /\
        points_wcs_ctwcc perfect None = Ok points_perfect /\
        search self geometry false points_perfect optimization rng0
        = Ok (found, rng1) /\
        (0 < length (sr_symmetry_measures found))%nat /\
        keep_minimum svd self geometry perfect all_csms found = Ok entry.
Proof.
  induction geoms as [|geometry geoms IH]; intros dict rng dict' rng' H symbol entry Hl;
    cbn [symmetry_measures_loop] in H.
  - injection H as <- _. now left.
  - bind_inv H. bind_inv H. bind_inv H. destruct a1 as [found rng1].
    bind_inv H.
    destruct (IH _ _ _ _ H symbol entry Hl)
      as [Hin|(g & pf & pp & fd & r0 & r1 & Hg & Hrest)].
    + case_decide as Hlen.
      * bind_inv E2. injection E2 as <-.
        destruct (decide (mp_symbol geometry = symbol)) as [Heq|Hne].
        -- subst symbol. rewrite lookup_insert_eq in Hin. injection Hin as <-.
           right. exists geometry, a, a0, found, rng, rng1.
           split; [apply list_elem_of_here|]. repeat split; assumption.
        -- rewrite lookup_insert_ne in Hin by exact Hne. now left.
      * injection E2 as <-. now left.
    + right. exists g, pf, pp, fd, r0, r1.
      split; [apply list_elem_of_further; exact Hg | exact Hrest].
Qed.


(** *** Runs of the orchestrators on one geometry *)

Local Abbreviation search_standard :=
  (coordination_geometry_symmetry_measures_standard svd).

(** With orthogonal factors from the decomposition, the measure of a
    non-empty candidate permutation carries a scale, an invertible rotation
    and a translation. *)
Lemma permutation_symmetry_measure_well_formed self points_perfect perm info :
  (forall H, orthogonal (fst (fst (svd H))) /\ orthogonal (snd (svd H))) ->
  (1 <= length (_points_wcs_ctwcc (local_geometry self)))%nat ->
  perm <> [] ->
  permutation_symmetry_measure svd self points_perfect perm = Ok info ->
  exists s rot t,
    sm_scaling_factor info = Some s /\
    sm_rotation_matrix info = Some rot /\
    det rot <> 0%R /\
    sm_translation_vector info = Some t.
Proof.
  intros Hsvd Hwcs Hperm H. unfold permutation_symmetry_measure in H.
  bind_inv_as H pd Hpd. bind_inv_as H sm Hsm. injection H as <-.
  unfold points_wcs_ctwcc, view_with_centre in Hpd.
  bind_inv_as Hpd taken Htaken. injection Hpd as <-.
  pose proof (for_each_length _ _ _ Htaken) as Hlen.
  assert (Hne : length (firstn 1 (_points_wcs_ctwcc (local_geometry self)) ++ taken)
                <> 1%nat).
  { rewrite length_app, length_take, Hlen.
    destruct perm; [congruence | cbn [length]; lia]. }
  unfold symmetry_measure in Hsm. rewrite decide_False in Hsm by exact Hne.
  bind_inv_as Hsm rot Hrot. bind_inv_as Hsm scaled Hscaled.
  destruct scaled as [[s rotated] pp']. injection Hsm as <-.
  cbn. exists s, rot, (centroid_with_centre (local_geometry self)).
  repeat split.
  unfold find_rotation in Hrot. case_decide; [|discriminate].
  pose proof (Hsvd (matmul_T (firstn 1 (_points_wcs_ctwcc (local_geometry self)) ++ taken)
                             points_perfect)) as [HU HV].
  destruct (svd _) as [[U sv] Vt]. cbn in HU, HV. injection Hrot as <-.
  assert (Ho : orthogonal (mmul (mtrans Vt) (mtrans U)))
    by (apply orthogonal_mmul; apply orthogonal_mtrans; assumption).
  destruct (orthogonal_det _ Ho) as [Hd|Hd]; rewrite Hd; lra.
Qed.

Lemma search_standard_well_formed self cg algo points_perfect optimization r :
  (forall H, orthogonal (fst (fst (svd H))) /\ orthogonal (snd (svd H))) ->
  (1 <= length (_points_wcs_ctwcc (local_geometry self)))%nat ->
  Forall (fun perm => perm <> []) (epa_permutations algo) ->
  search_standard self cg algo points_perfect optimization = Ok r ->
  well_formed_result r.
Proof.
  intros Hsvd Hwcs Hperms H.
  unfold coordination_geometry_symmetry_measures_standard in H.
  bind_inv H. injection H as <-.
  pose proof (for_each_length _ _ _ E) as Hlen.
  unfold well_formed_result. cbn. rewrite !length_map.
  repeat split; try congruence.
  apply for_each_Forall2 in E. clear Hlen.
  induction E as [|perm info perms infos Hinfo _ IH]; constructor.
  - apply Forall_cons in Hperms as [Hperm _].
    eapply permutation_symmetry_measure_well_formed; eassumption.
  - apply IH. now apply Forall_cons in Hperms as [_ Hperms].
Qed.

Lemma search_explicit self geometry algo rest points_perfect optimization rng found rng1 :
  permutations_safe_override self = false ->
  algorithms geometry = Some (ExplicitPermutations algo :: rest) ->
  search self geometry false points_perfect optimization rng = Ok (found, rng1) ->
  search_standard self geometry algo points_perfect optimization = Ok found.
Proof.
  intros Hover Halgos H. unfold coordination_geometry_symmetry_measures in H.
  rewrite Hover, Halgos in H. cbn [algorithms_loop] in H.
  bind_inv H. injection H as <- _. exact E.
Qed.

Lemma measures_loop_single self all_csms optimization geometry perfect points_perfect
      found entry dict rng rng1 :
  from_cg geometry (centering_type self) (include_central_site_in_centroid self)
  = Ok perfect ->
  points_wcs_ctwcc perfect None = Ok points_perfect ->
  search self geometry false points_perfect optimization rng = Ok (found, rng1) ->
  (0 < length (sr_symmetry_measures found))%nat ->
  keep_minimum svd self geometry perfect all_csms found = Ok entry ->
  measures_loop self true all_csms optimization [geometry] dict rng
  = Ok (<[mp_symbol geometry := MinimumResult entry]> dict, rng1).
Proof.
  intros Hp Hpp Hs Hlen Hk. cbn [symmetry_measures_loop].
  rewrite Hp, bind_Ok_l, Hpp, bind_Ok_l, Hs, bind_Ok_l.
  rewrite decide_True by exact Hlen. rewrite Hk, !bind_Ok_l. reflexivity.
Qed.

Lemma measures_optim_loop_single self all_csms optimization geometry perfect
      points_perfect found entry dict st st1 :
  from_cg geometry (centering_type self) (include_central_site_in_centroid self)
  = Ok perfect ->
  points_wcs_ctwcc perfect None = Ok points_perfect ->
  search_optim self geometry points_perfect optimization st = Ok (found, st1) ->
  (0 < length (sr_symmetry_measures found))%nat ->
  keep_minimum svd self geometry perfect all_csms found = Ok entry ->
  measures_optim_loop self true all_csms optimization [geometry] dict st
  = Ok (<[mp_symbol geometry := MinimumResult entry]> dict, st1).
Proof.
  intros Hp Hpp Hs Hlen Hk. cbn [symmetry_measures_optim_loop].
  rewrite Hp, bind_Ok_l, Hpp, bind_Ok_l, Hs, bind_Ok_l.
  cbn [andb]. rewrite bool_decide_eq_true_2 by exact Hlen.
  rewrite Hk, !bind_Ok_l. reflexivity.
Qed.

(** C4 (amended).  On a distorted set of exactly one point
    [symmetry_measure] returns the measure 0.0 with no scale and no rotation,
    whatever the reference and the decomposition routine.  With a single
    neighbour the orchestrator runs no search: when the catalogue implements
    a geometry of coordination number 1 it returns the fixed ["S:1"] result,
    with measure 0.0 and the identity index maps, and when the catalogue
    implements none it returns an empty dictionary. *)
Theorem single_neighbor_short_circuit :
  (forall D P,
      length D = 1%nat ->
      symmetry_measure svd D P
      = Ok {| sm_symmetry_measure := Fin 0;
              sm_scaling_factor := None;
              sm_rotation_matrix := None;
              sm_translation_vector := None |}) /\
  (forall self only_minimum all_csms optimization rng,
      length (coords (local_geometry self)) = 1%nat ->
      get_measures self only_minimum all_csms optimization rng
      = Ok (if decide (length (get_implemented_geometries
                                 (allcg self) (Some 1%nat) false) = 0%nat)
            then ∅
            else {[ "S:1" := MinimumResult (single_neighbor_entry all_csms) ]},
            rng)) /\
  (forall all_csms,
      entry_csm (single_neighbor_entry all_csms) = Fin 0 /\
      entry_indices (single_neighbor_entry all_csms) = [0%nat] /\
      entry_local2perfect_map (single_neighbor_entry all_csms) = {[ 0%nat := 0%nat ]} /\
      entry_perfect2local_map (single_neighbor_entry all_csms) = {[ 0%nat := 0%nat ]} /\
      entry_scaling_factor (single_neighbor_entry all_csms) = None /\
      entry_rotation_matrix (single_neighbor_entry all_csms) = None).
Proof.
  split; [|split].
  - intros D P H. unfold symmetry_measure. now rewrite decide_True by exact H.
  - intros self only_minimum all_csms optimization rng H.
    unfold get_coordination_symmetry_measures. rewrite H.
    rewrite decide_True by reflexivity. case_decide; reflexivity.
  - intros all_csms. repeat split.
Qed.



End OrchestratorFacts.

(** ** The orchestrator on one and on two neighbours *)

Lemma svd_two_orthogonal H :
  orthogonal (fst (fst (svd_two H))) /\ orthogonal (snd (svd_two H)).
Proof. split; exact orthogonal_mid. Qed.

(** The explicit search on two neighbours returns one well-formed result,
    of which the minimum is kept. *)
Lemma two_point_search_run :
  exists found entry,
    from_cg two_point_single_geometry (centering_type two_point_finder)
            (include_central_site_in_centroid two_point_finder)
    = Ok two_point_perfect /\
    coordination_geometry_symmetry_measures_standard
      svd_two two_point_finder two_point_single_geometry two_point_single_algo
      (_points_wcs_ctwcc two_point_perfect) None = Ok found /\
    (0 < length (sr_symmetry_measures found))%nat /\
    well_formed_result found /\
    keep_minimum svd_two two_point_finder two_point_single_geometry two_point_perfect
                 false found = Ok entry.
Proof.
  destruct (coordination_geometry_symmetry_measures_standard
      svd_two two_point_finder two_point_single_geometry two_point_single_algo
      (_points_wcs_ctwcc two_point_perfect) None) as [found|e] eqn:E; [|discriminate E].
  assert (Hwf : well_formed_result found).
  { apply (search_standard_well_formed _ _ _ _ _ _ _ svd_two_orthogonal) in E.
    - exact E.
    - cbn. lia.
    - repeat constructor; discriminate. }
  assert (Hlen : (0 < length (sr_symmetry_measures found))%nat).
  { destruct Hwf as (Hperms & _).
    unfold coordination_geometry_symmetry_measures_standard in E.
    bind_inv E. injection E as <-. cbn in Hperms |- *. lia. }
  destruct (keep_minimum_Ok svd_two two_point_finder two_point_single_geometry
                            two_point_perfect found Hlen Hwf) as [entry Hentry].
  exists found, entry. repeat split; try assumption; apply Hwf.
Qed.

(** Both orchestrators, on the same finder, keep that entry under the symbol
    of the geometry. *)
Lemma two_point_orchestrator_run :
  exists found entry,
    coordination_geometry_symmetry_measures
      svd_two unit always_collinear the_plane_3 the_plane_n one_on_each_side
      keep_separation separation_is_listed no_projection nat identity_draw
      two_point_finder two_point_single_geometry false
      (_points_wcs_ctwcc two_point_perfect) None 0%nat = Ok (found, 0%nat) /\
    get_coordination_symmetry_measures
      svd_two unit always_collinear the_plane_3 the_plane_n one_on_each_side
      keep_separation separation_is_listed no_projection nat identity_draw
      two_point_finder true false None 0%nat
    = Ok (<["L:2" := MinimumResult entry]> ∅, 0%nat) /\
    symmetry_measures_optim_loop
      svd_two nat explicit_search_as_optim two_point_finder true false None
      [two_point_single_geometry] ∅ 0%nat
    = Ok (<["L:2" := MinimumResult entry]> ∅, 1%nat).
Proof.
  destruct two_point_search_run as (found & entry & Hp & Hs & Hlen & Hwf & Hk).
  exists found, entry.
  assert (Hsearch :
    coordination_geometry_symmetry_measures
      svd_two unit always_collinear the_plane_3 the_plane_n one_on_each_side
      keep_separation separation_is_listed no_projection nat identity_draw
      two_point_finder two_point_single_geometry false
      (_points_wcs_ctwcc two_point_perfect) None 0%nat = Ok (found, 0%nat)).
  { unfold coordination_geometry_symmetry_measures.
    cbn [permutations_safe_override two_point_finder finder_on algorithms
         two_point_single_geometry algorithms_loop].
    rewrite Hs. reflexivity. }
  split; [exact Hsearch|]. split.
  - unfold get_coordination_symmetry_measures.
    rewrite decide_False by (cbn; lia).
    change (get_implemented_geometries _ _ _) with [two_point_single_geometry].
    eapply measures_loop_single; [exact Hp|reflexivity|exact Hsearch|exact Hlen|exact Hk].
  - eapply measures_optim_loop_single; [exact Hp|reflexivity| |exact Hlen|exact Hk].
    unfold explicit_search_as_optim. rewrite Hs. reflexivity.
Qed.

(** C4 (as stated) fails.  With a single neighbour and a catalogue restricted
    to a geometry of coordination number 2 (as [only_symbols] does), the
    orchestrator returns an empty dictionary: no ["S:1"] result and no
    measure are reported. *)
Lemma single_neighbor_without_geometry_returns_nothing :
  length (coords single_neighbor_geometry) = 1%nat /\
  get_coordination_symmetry_measures
    svd_two unit always_collinear the_plane_3 the_plane_n one_on_each_side
    keep_separation separation_is_listed no_projection nat identity_draw
    (finder_on [two_point_single_geometry; unknown_environment; unclear_environment]
               single_neighbor_geometry)
    true false None 0%nat
  = Ok (∅, 0%nat) /\
  (∅ : gmap string geometry_result) !! "S:1" = None.
Proof. split; [reflexivity|]. split; reflexivity. Qed.

Lemma single_neighbor_short_circuit_witness :
  symmetry_measure svd_two [(1, 0, 0)%R] [(0, 0, 1)%R]
  = Ok {| sm_symmetry_measure := Fin 0;
          sm_scaling_factor := None;
          sm_rotation_matrix := None;
          sm_translation_vector := None |} /\
  get_coordination_symmetry_measures
    svd_two unit always_collinear the_plane_3 the_plane_n one_on_each_side
    keep_separation separation_is_listed no_projection nat identity_draw
    (finder_on [single_point_geometry; two_point_single_geometry;
                unknown_environment; unclear_environment]
               single_neighbor_geometry)
    true false None 0%nat
  = Ok ({[ "S:1" := MinimumResult (single_neighbor_entry false) ]}, 0%nat).
Proof.
  destruct (single_neighbor_short_circuit
              svd_two unit always_collinear the_plane_3 the_plane_n one_on_each_side
              keep_separation separation_is_listed no_projection nat identity_draw)
    as (Hmeasure & Hrun & _).
  split.
  - apply Hmeasure. reflexivity.
  - rewrite Hrun by reflexivity. reflexivity.
Defined.



(* ================================================================== *)
(** * Part III.  Further properties of the code                        *)
(* ================================================================== *)

(** ** Arrays and index lists *)

Section AbstractGeometryFacts.
Local Open Scope R_scope.




Lemma take_seq_from {A : Type} (pre xs : list A) :
  take (pre ++ xs) (seq (length pre) (length xs)) = Ok xs.
Proof.
  revert pre; induction xs as [|x xs IH]; intros pre; cbn [length seq]; [reflexivity|].
  unfold take. cbn [for_each]. fold (take (pre ++ x :: xs) (seq (S (length pre)) (length xs))).
  unfold getitem at 1. rewrite lookup_app_r by lia. rewrite Nat.sub_diag. cbn [lookup list_lookup].
  rewrite bind_Ok_l.
  replace (pre ++ x :: xs) with ((pre ++ [x]) ++ xs) by (now rewrite <- app_assoc).
  replace (S (length pre)) with (length (pre ++ [x])) by (rewrite length_app; cbn; lia).
  rewrite IH. reflexivity.
Qed.

(** Taking every index in order gives the array back. *)
Lemma take_seq {A : Type} (xs : list A) : take xs (seq 0 (length xs)) = Ok xs.
Proof. exact (take_seq_from [] xs). Qed.

Lemma take_Forall2 {A : Type} (xs : list A) idx ys :
  take xs idx = Ok ys -> Forall2 (fun i y => xs !! i = Some y) idx ys.
Proof.
  intros H. apply for_each_Forall2 in H.
  eapply Forall2_impl; [exact H|]. intros i y Hy. cbv beta in Hy.
  unfold getitem in Hy. destruct (xs !! i); [now injection Hy as -> | discriminate].
Qed.



Lemma take_out_of_range {A : Type} (xs : list A) idx :
  Exists (fun i => length xs <= i)%nat idx -> take xs idx = Raise IndexError.
Proof.
  unfold take. induction idx as [|i idx IH]; intros H.
  - inversion H.
  - cbn [for_each]. destruct (xs !! i) as [x|] eqn:Hx.
    + assert (Hg : getitem xs i = Ok x) by (unfold getitem; now rewrite Hx).
      rewrite Hg, bind_Ok_l. apply Exists_cons in H as [H|H].
      * apply lookup_lt_Some in Hx. lia.
      * rewrite (IH H). reflexivity.
    + assert (Hg : getitem xs i = Raise IndexError) by (unfold getitem; now rewrite Hx).
      rewrite Hg. reflexivity.
Qed.

Lemma take_lookup {A : Type} (xs : list A) idx ys i j :
  take xs idx = Ok ys -> idx !! i = Some j -> ys !! i = xs !! j.
Proof.
  intros H Hi. apply take_Forall2 in H.
  destruct (Forall2_lookup_l _ _ _ _ _ H Hi) as (y & Hy & Hxy). congruence.
Qed.

End AbstractGeometryFacts.

(** ** The aligner: range, invariance, sizes *)

Section AlignerRange.
Local Open Scope R_scope.

Variable svd : M33 -> M33 * V3 * M33.



End AlignerRange.

Section AlignerInvariance.
Local Open Scope R_scope.

Variable svd : M33 -> M33 * V3 * M33.











End AlignerInvariance.

Section AlignerRelabelling.
Local Open Scope R_scope.

Variable svd : M33 -> M33 * V3 * M33.









Lemma map_fst_combine {A B : Type} (l : list A) (k : list B) :
  length l = length k -> map fst (combine l k) = l.
Proof.
  revert k; induction l as [|x l IH]; intros [|y k] H; cbn in *;
    try discriminate; [reflexivity|]. f_equal. apply IH. congruence.
Qed.

Lemma map_snd_combine {A B : Type} (l : list A) (k : list B) :
  length l = length k -> map snd (combine l k) = k.
Proof.
  revert k; induction l as [|x l IH]; intros [|y k] H; cbn in *;
    try discriminate; [reflexivity|]. f_equal. apply IH. congruence.
Qed.


Lemma symmetry_measure_Raise D P :
  length D <> 1%nat -> length D <> length P ->
  symmetry_measure svd D P = Raise ValueError.
Proof.
  intros H1 Hne. unfold symmetry_measure, find_rotation.
  rewrite decide_False by exact H1. rewrite decide_False by exact Hne. reflexivity.
Qed.

(** X4.  [symmetry_measure] returns exactly when the distorted set has one
    point or as many points as the reference, and raises [ValueError]
    otherwise. *)
Theorem symmetry_measure_raises_on_size_mismatch D P :
  (length D = 1%nat \/ length D = length P <->
   exists info, symmetry_measure svd D P = Ok info) /\
  (length D <> 1%nat -> length D <> length P ->
   symmetry_measure svd D P = Raise ValueError).
Proof.
  split; [|apply symmetry_measure_Raise]. split.
  - intros [H1|Hlen].
    + unfold symmetry_measure. rewrite decide_True by exact H1. eauto.
    + apply symmetry_measure_Ok. exact Hlen.
  - intros [info Hinfo].
    destruct (decide (length D = 1%nat)) as [H1|H1]; [now left|].
    destruct (decide (length D = length P)) as [Hlen|Hne]; [now right|].
    rewrite (symmetry_measure_Raise _ _ H1 Hne) in Hinfo. discriminate.
Qed.

End AlignerRelabelling.

(** ** [AbstractGeometry]: construction and views *)

Section AbstractGeometryInit.
Local Open Scope R_scope.

Lemma AbstractGeometry_init_Ok c bare ct inc g :
  AbstractGeometry_init c bare ct inc = Ok g ->
  exists centre0,
    g = AbstractGeometry_attributes c bare ct inc centre0 /\ bare <> [] /\
    ((ct = "central_site" \/ ct = "standard" /\ (length bare < 5)%nat) /\
     inc = false /\ centre0 = c \/
     (ct = "centroid" \/ ct = "standard" /\ (5 <= length bare)%nat) /\
     centre0 = centroid_centre c bare inc).
Proof.
  unfold AbstractGeometry_init. intros H.
  destruct bare as [|b bare]; [discriminate|].
  bind_inv_as H centre0 Hc. injection H as <-.
  exists centre0. split; [reflexivity|]. split; [discriminate|].
  repeat case_decide; subst; try discriminate.
  - destruct inc; [discriminate|]. injection Hc as <-. left. auto.
  - injection Hc as <-. right. split; [right; split; [reflexivity | lia] | reflexivity].
  - destruct inc; [discriminate|]. injection Hc as <-. left. auto.
  - injection Hc as <-. right. auto.
Qed.

(** X5.  On a non-empty list of neighbours [__init__] returns exactly for
    the centering type ["centroid"], for ["central_site"] without the central
    site in the centroid, and for ["standard"] unless there are fewer than
    five neighbours and the central site is to be included.  It raises
    [ValueError] when the centre is the central site and the central site is
    to be included, and [AttributeError] for any other centering type. *)
Theorem AbstractGeometry_init_raises c bare ct inc :
  bare <> [] ->
  ((exists g, AbstractGeometry_init c bare ct inc = Ok g) <->
     (ct = "standard" /\ ((length bare < 5)%nat -> inc = false)) \/
     (ct = "central_site" /\ inc = false) \/
     ct = "centroid") /\
  ((ct = "standard" /\ (length bare < 5)%nat \/ ct = "central_site") -> inc = true ->
     AbstractGeometry_init c bare ct inc = Raise ValueError) /\
  (ct <> "standard" -> ct <> "central_site" -> ct <> "centroid" ->
     AbstractGeometry_init c bare ct inc = Raise AttributeError).
Proof.
  intros Hbare. destruct bare as [|b bare]; [contradiction|]. clear Hbare.
  split; [|split].
  - split.
    + intros [g Hg]. apply AbstractGeometry_init_Ok in Hg.
      destruct Hg as (c0 & _ & _ & [([->|[-> Hlt]] & -> & _)|([->|[-> Hge]] & _)]).
      * right. left. auto.
      * left. auto.
      * right. right. reflexivity.
      * left. split; [reflexivity | intros; lia].
    + unfold AbstractGeometry_init.
      intros [[-> Hinc]|[[-> ->]| ->]].
      * rewrite decide_True by reflexivity. case_decide as Hlt.
        -- rewrite (Hinc Hlt). cbn. eauto.
        -- cbn. eauto.
      * rewrite decide_False by discriminate. rewrite decide_True by reflexivity.
        cbn. eauto.
      * rewrite decide_False by discriminate. rewrite decide_False by discriminate.
        rewrite decide_True by reflexivity. cbn. eauto.
  - unfold AbstractGeometry_init. intros [[-> Hlt]| ->] ->.
    + rewrite decide_True by reflexivity. rewrite decide_True by exact Hlt. reflexivity.
    + rewrite decide_False by discriminate. rewrite decide_True by reflexivity.
      reflexivity.
  - unfold AbstractGeometry_init. intros H1 H2 H3.
    rewrite !decide_False by assumption. reflexivity.
Qed.



(** X8.  The identity permutation gives each of the six views as it is
    stored. *)
Theorem AbstractGeometry_views_identity c bare ct inc g :
  AbstractGeometry_init c bare ct inc = Ok g ->
  let identity := Some (seq 0 (length bare)) in
  points_wcs_csc g identity = points_wcs_csc g None /\
  points_wocs_csc g identity = points_wocs_csc g None /\
  points_wcs_ctwcc g identity = points_wcs_ctwcc g None /\
  points_wocs_ctwcc g identity = points_wocs_ctwcc g None /\
  points_wcs_ctwocc g identity = points_wcs_ctwocc g None /\
  points_wocs_ctwocc g identity = points_wocs_ctwocc g None.
Proof.
  intros H identity. apply AbstractGeometry_init_Ok in H.
  destruct H as (c0 & -> & _ & _).
  assert (Hid : forall v, take (shift_rows bare v) (seq 0 (length bare))
                          = Ok (shift_rows bare v)).
  { intros v. rewrite <- (take_seq (shift_rows bare v)).
    unfold shift_rows. now rewrite length_map. }
  unfold identity, points_wcs_csc, points_wocs_csc, points_wcs_ctwcc, points_wocs_ctwcc,
    points_wcs_ctwocc, points_wocs_ctwocc, view_with_centre, view_without_centre.
  cbn [_points_wcs_csc _points_wocs_csc _points_wcs_ctwcc _points_wocs_ctwcc
       _points_wcs_ctwocc _points_wocs_ctwocc AbstractGeometry_attributes].
  rewrite !Hid. repeat split; reflexivity.
Qed.

(** X9.  A view in the order of a list of indices: the central site stays
    first, the neighbours follow in the order given; an index that is not
    below the number of neighbours raises [IndexError]. *)
Theorem AbstractGeometry_permuted_views (wcs wocs : list V3) (perm : list nat) :
  (Forall (fun i => i < length wocs)%nat perm ->
   exists l,
     view_without_centre wocs (Some perm) = Ok l /\
     view_with_centre wcs wocs (Some perm) = Ok (firstn 1 wcs ++ l) /\
     length l = length perm /\
     forall i j, perm !! i = Some j -> l !! i = wocs !! j) /\
  (Exists (fun i => length wocs <= i)%nat perm ->
   view_without_centre wocs (Some perm) = Raise IndexError /\
   view_with_centre wcs wocs (Some perm) = Raise IndexError).
Proof.
  unfold view_without_centre, view_with_centre. split.
  - intros Hperm. destruct (take_Ok wocs perm Hperm) as (l & Hl & Hlen).
    exists l. rewrite Hl. split; [reflexivity|]. split; [reflexivity|].
    split; [exact Hlen|]. intros i j Hi. eapply take_lookup; eassumption.
  - intros Hperm. rewrite (take_out_of_range wocs perm Hperm). split; reflexivity.
Qed.

End AbstractGeometryInit.

(** ** The aligner and [AbstractGeometry] on concrete points *)




Lemma symmetry_measure_raises_on_size_mismatch_witness :
  symmetry_measure svd_two segment_pair unit_frame = Raise ValueError /\
  exists info, symmetry_measure svd_two segment_pair segment_pair = Ok info.
Proof.
  split.
  - apply (symmetry_measure_raises_on_size_mismatch svd_two segment_pair unit_frame);
      simpl; lia.
  - apply (symmetry_measure_raises_on_size_mismatch svd_two segment_pair segment_pair).
    right. reflexivity.
Defined.

Lemma AbstractGeometry_init_raises_witness :
  AbstractGeometry_init vzero segment_pair "central_site" true = Raise ValueError /\
  AbstractGeometry_init vzero segment_pair "centre" false = Raise AttributeError /\
  exists g, AbstractGeometry_init vzero segment_pair "centroid" true = Ok g.
Proof.
  assert (Hbare : segment_pair <> []) by discriminate.
  split; [|split].
  - apply (AbstractGeometry_init_raises vzero segment_pair "central_site" true Hbare).
    + right. reflexivity.
    + reflexivity.
  - apply (AbstractGeometry_init_raises vzero segment_pair "centre" false Hbare);
      discriminate.
  - apply (AbstractGeometry_init_raises vzero segment_pair "centroid" true Hbare).
    right. right. reflexivity.
Defined.



Lemma AbstractGeometry_views_identity_witness :
  points_wcs_ctwcc two_point_perfect (Some [0; 1]%nat)
  = points_wcs_ctwcc two_point_perfect None /\
  points_wocs_csc two_point_perfect (Some [0; 1]%nat)
  = points_wocs_csc two_point_perfect None.
Proof.
  destruct (AbstractGeometry_views_identity vzero segment_pair "centroid" true
              two_point_perfect eq_refl) as (_ & Hwocs & Hwcs & _).
  split; [exact Hwcs | exact Hwocs].
Defined.

Lemma AbstractGeometry_permuted_views_witness :
  (exists l,
     view_without_centre segment_pair (Some [1; 0]%nat) = Ok l /\
     view_with_centre (vzero :: segment_pair) segment_pair (Some [1; 0]%nat)
     = Ok (vzero :: l) /\
     l !! 0%nat = segment_pair !! 1%nat) /\
  view_with_centre (vzero :: segment_pair) segment_pair (Some [0; 2]%nat)
  = Raise IndexError.
Proof.
  destruct (AbstractGeometry_permuted_views (vzero :: segment_pair) segment_pair
              [1; 0]%nat) as [Hok _].
  destruct (AbstractGeometry_permuted_views (vzero :: segment_pair) segment_pair
              [0; 2]%nat) as [_ Hraise].
  split.
  - destruct Hok as (l & Hl & Hwith & _ & Hidx).
    { repeat constructor. }
    exists l. split; [exact Hl|]. split; [exact Hwith|].
    apply (Hidx 0%nat 1%nat). reflexivity.
  - apply Hraise. apply Exists_cons_tl, Exists_cons_hd. simpl. lia.
Defined.

(** ** Reference permutations *)

Lemma tuple_leb_refl a : tuple_leb a a = true.
Proof.
  induction a as [|x a IH]; cbn [tuple_leb]; [reflexivity|].
  rewrite Nat.ltb_irrefl. exact IH.
Qed.

Lemma tuple_leb_total a b : tuple_leb a b = false -> tuple_leb b a = true.
Proof.
  revert b; induction a as [|x a IH]; intros [|y b]; cbn [tuple_leb]; try congruence.
  destruct (x <? y)%nat eqn:Hxy; [discriminate|].
  destruct (y <? x)%nat eqn:Hyx; [reflexivity|]. apply IH.
Qed.

Lemma tuple_leb_trans a b c :
  tuple_leb a b = true -> tuple_leb b c = true -> tuple_leb a c = true.
Proof.
  revert b c; induction a as [|x a IH]; intros [|y b] [|z c]; cbn [tuple_leb];
    try congruence.
  destruct (x <? y)%nat eqn:Hxy, (y <? x)%nat eqn:Hyx,
           (y <? z)%nat eqn:Hyz, (z <? y)%nat eqn:Hzy,
           (x <? z)%nat eqn:Hxz, (z <? x)%nat eqn:Hzx;
    rewrite ?Nat.ltb_lt, ?Nat.ltb_ge in *; try lia; try congruence.
  apply IH.
Qed.

Lemma tuple_min_spec ts : forall t,
  tuple_min t ts ∈ t :: ts /\
  Forall (fun u => tuple_leb (tuple_min t ts) u = true) (t :: ts).
Proof.
  induction ts as [|u ts IH]; intros t; cbn [tuple_min].
  - split; [apply list_elem_of_here|]. constructor; [apply tuple_leb_refl | constructor].
  - destruct (tuple_leb t u) eqn:Htu.
    + destruct (IH t) as [Hin Hall]. split.
      * apply elem_of_cons in Hin as [->|Hin];
          [apply list_elem_of_here | do 2 apply list_elem_of_further; exact Hin].
      * apply Forall_cons in Hall as [Ht Hts].
        constructor; [exact Ht|]. constructor; [|exact Hts].
        eapply tuple_leb_trans; eassumption.
    + destruct (IH u) as [Hin Hall]. split.
      * apply list_elem_of_further. exact Hin.
      * apply Forall_cons in Hall as [Hu Hts].
        constructor; [|constructor; assumption].
        eapply tuple_leb_trans; [exact Hu|]. apply tuple_leb_total. exact Htu.
Qed.

Lemma take_Raise {A : Type} (xs : list A) idx e :
  take xs idx = Raise e -> e = IndexError.
Proof.
  unfold take. induction idx as [|i idx IH]; cbn [for_each]; [discriminate|].
  destruct (xs !! i) as [x|] eqn:Hx.
  - assert (Hg : getitem xs i = Ok x) by (unfold getitem; now rewrite Hx).
    rewrite Hg, bind_Ok_l.
    destruct (for_each (getitem xs) idx) as [ys|e'] eqn:E; [discriminate|].
    cbn. intros H. injection H as <-. now apply IH.
  - assert (Hg : getitem xs i = Raise IndexError) by (unfold getitem; now rewrite Hx).
    rewrite Hg. cbn. intros H. now injection H as <-.
Qed.

(** X10.  [ref_permutation] returns the least, in the order of Python
    tuples, of the images of the permutation under the sets of equivalent
    indices; it is at most the permutation itself when the identity is among
    them.  It raises [TypeError] without equivalent indices and [IndexError]
    when there is no set of them or when one names a position that the
    permutation does not have. *)
Theorem ref_permutation_is_least_image cg permutation :
  (equivalent_indices cg = None ->
   ref_permutation cg permutation = Raise TypeError) /\
  (equivalent_indices cg = Some [] ->
   ref_permutation cg permutation = Raise IndexError) /\
  (forall eqv,
     equivalent_indices cg = Some eqv ->
     Exists (Exists (fun i => length permutation <= i)%nat) eqv ->
     ref_permutation cg permutation = Raise IndexError) /\
  (forall eqv,
     equivalent_indices cg = Some eqv -> eqv <> [] ->
     Forall (Forall (fun i => i < length permutation)%nat) eqv ->
     exists images ref,
       for_each (take permutation) eqv = Ok images /\
       ref_permutation cg permutation = Ok ref /\
       ref ∈ images /\
       Forall (fun image => tuple_leb ref image = true) images /\
       (seq 0 (length permutation) ∈ eqv -> tuple_leb ref permutation = true)).
Proof.
  unfold ref_permutation. split; [|split; [|split]].
  - intros ->. reflexivity.
  - intros ->. reflexivity.
  - intros eqv -> Hex.
    assert (Hraise : for_each (fun eqv_indices => take permutation eqv_indices) eqv
                     = Raise IndexError).
    { induction eqv as [|idx eqv IH]; [inversion Hex|].
      cbn [for_each]. apply Exists_cons in Hex as [Hex|Hex].
      - rewrite (take_out_of_range permutation idx Hex). reflexivity.
      - destruct (take permutation idx) as [image|e] eqn:Htake.
        + rewrite bind_Ok_l, (IH Hex). reflexivity.
        + rewrite (take_Raise _ _ _ Htake). reflexivity. }
    rewrite Hraise. reflexivity.
  - intros eqv -> Hne Hall.
    destruct (for_each_Ok (take permutation) eqv) as [images Himages].
    { eapply Forall_impl; [exact Hall|]. intros idx Hidx. cbn in Hidx.
      destruct (take_Ok permutation idx Hidx) as (ys & Hys & _). eauto. }
    change (fun eqv_indices => take permutation eqv_indices) with (take permutation).
    rewrite Himages, bind_Ok_l.
    destruct images as [|t ts].
    { apply for_each_length in Himages. destruct eqv; [contradiction | discriminate]. }
    destruct (tuple_min_spec ts t) as [Hin Hleast].
    exists (t :: ts), (tuple_min t ts).
    split; [reflexivity|]. split; [reflexivity|]. split; [exact Hin|].
    split; [exact Hleast|].
    intros Hid. apply list_elem_of_lookup in Hid as [k Hk].
    apply for_each_Forall2 in Himages.
    destruct (Forall2_lookup_l _ _ _ _ _ Himages Hk) as (image & Himage & Htake).
    cbv beta in Htake. rewrite take_seq in Htake. injection Htake as <-.
    rewrite Forall_forall in Hleast. apply Hleast.
    eapply list_elem_of_lookup_2. exact Himage.
Qed.

(** ** Safe permutations of a separation plane *)

Lemma rotate_Permutation {A : Type} (s : list A) n : Permutation (rotate s n) s.
Proof.
  unfold rotate. destruct n as [|n]; [reflexivity|].
  rewrite Permutation_app_comm. now rewrite firstn_skipn.
Qed.

Lemma rotations_and_reflections_Permutation s :
  Forall (fun p => Permutation p s) (rotations_and_reflections s).
Proof.
  unfold rotations_and_reflections. apply Forall_app. split; apply Forall_forall;
    intros p Hp; apply list_elem_of_fmap in Hp as (n & -> & _).
  - apply rotate_Permutation.
  - rewrite rotate_Permutation. symmetry. apply Permutation_rev.
Qed.

Lemma rotations_and_reflections_length s :
  length (rotations_and_reflections s) = (2 * length s)%nat.
Proof.
  unfold rotations_and_reflections.
  rewrite length_app, !length_map, !length_seq, length_rev. lia.
Qed.

Lemma flat_map_constant_length {A B : Type} (f : A -> list B) l k :
  Forall (fun x => length (f x) = k) l -> length (flat_map f l) = (length l * k)%nat.
Proof.
  induction 1 as [|x l Hx _ IH]; cbn [flat_map length]; [reflexivity|].
  rewrite length_app, Hx, IH. lia.
Qed.

Lemma itertools_permutations_aux_spec {A : Type} fuel : forall s : list A,
  length s = fuel ->
  Forall (fun p => Permutation p s) (itertools_permutations_aux fuel s) /\
  length (itertools_permutations_aux fuel s) = fact fuel.
Proof.
  induction fuel as [|fuel IH]; intros s Hlen; cbn [itertools_permutations_aux].
  - destruct s; [|discriminate]. split; [repeat constructor | reflexivity].
  - assert (Hsub : forall i x, s !! i = Some x ->
                     length (firstn i s ++ drop (S i) s) = fuel).
    { intros i x Hi. pose proof (lookup_lt_Some _ _ _ Hi) as Hlt.
      rewrite length_app, length_take, length_drop. lia. }
    split.
    + apply Forall_forall. intros p Hp.
      apply list_elem_of_In, in_flat_map in Hp. destruct Hp as (i & _ & Hp).
      destruct (s !! i) as [x|] eqn:Hi; [|inversion Hp].
      apply in_map_iff in Hp. destruct Hp as (q & <- & Hq).
      destruct (IH _ (Hsub i x Hi)) as [Hall _].
      rewrite Forall_forall in Hall. apply list_elem_of_In in Hq.
      rewrite (Hall q Hq). rewrite <- (take_drop_middle s i x Hi) at 3.
      apply Permutation_middle.
    + rewrite (flat_map_constant_length _ _ (fact fuel)).
      * rewrite length_seq, Hlen. cbn [fact]. lia.
      * apply Forall_forall. intros i Hi. apply elem_of_seq in Hi.
        destruct (lookup_lt_is_Some_2 s i) as [x Hx]; [lia|].
        rewrite Hx, length_map. apply (IH _ (Hsub i x Hx)).
Qed.

Lemma itertools_permutations_Permutation {A : Type} (s : list A) :
  Forall (fun p => Permutation p s) (itertools_permutations s).
Proof. apply itertools_permutations_aux_spec. reflexivity. Qed.

Lemma itertools_permutations_length {A : Type} (s : list A) :
  length (itertools_permutations s) = fact (length s).
Proof. apply itertools_permutations_aux_spec. reflexivity. Qed.

(** X11.  Every list that [safe_separation_permutations] computes is a
    permutation of all the indices that keeps the first group, the plane and
    the second group in their blocks: a permutation of the first block, then
    one of the plane's block, then one of the last block. *)
Theorem safe_separation_permutations_are_permutations
    sp ordered_plane_flag flags group0 group1 rest perms :
  point_groups sp = group0 :: group1 :: rest ->
  safe_separation_permutations sp ordered_plane_flag flags = Ok perms ->
  Forall (fun perm =>
            exists side1 plane side2,
              perm = side1 ++ plane ++ side2 /\
              Permutation side1 (seq 0 (length group0)) /\
              Permutation plane (seq (length group0) (length (plane_points sp))) /\
              Permutation side2 (seq (length group0 + length (plane_points sp))
                                     (length group1)) /\
              Permutation perm (seq 0 (length group0 + length (plane_points sp)
                                       + length group1)))
         perms.
Proof.
  intros Hgroups H. unfold safe_separation_permutations in H.
  rewrite Hgroups in H. cbn [getitem lookup list_lookup] in H.
  rewrite !bind_Ok_l in H. cbv zeta in H.
  bind_inv_as H flag0 Hflag0. bind_inv_as H own0 Hown0.
  bind_inv_as H flag1 Hflag1. bind_inv_as H own1 Hown1.
  injection H as <-.
  set (n0 := length group0) in *. set (np := length (plane_points sp)) in *.
  set (n1 := length group1) in *.
  assert (H0 : Forall (fun p => Permutation p (seq 0 n0))
                 (if flag0 && own0 then rotations_and_reflections (seq 0 n0)
                  else itertools_permutations (seq 0 n0))).
  { destruct (flag0 && own0);
      [apply rotations_and_reflections_Permutation
      | apply itertools_permutations_Permutation]. }
  assert (Hp : Forall (fun p => Permutation p (seq n0 np))
                 (if ordered_plane_flag && ordered_plane sp
                  then rotations_and_reflections (seq n0 np)
                  else itertools_permutations (seq n0 np))).
  { destruct (ordered_plane_flag && ordered_plane sp);
      [apply rotations_and_reflections_Permutation
      | apply itertools_permutations_Permutation]. }
  assert (H1 : Forall (fun p => Permutation p (seq (n0 + np) n1))
                 (if flag1 && own1 then rotations_and_reflections (seq (n0 + np) n1)
                  else itertools_permutations (seq (n0 + np) n1))).
  { destruct (flag1 && own1);
      [apply rotations_and_reflections_Permutation
      | apply itertools_permutations_Permutation]. }
  rewrite Forall_forall in H0, Hp, H1.
  apply Forall_forall. intros perm Hperm.
  apply list_elem_of_In, in_flat_map in Hperm. destruct Hperm as (side1 & Hs1 & Hperm).
  apply in_flat_map in Hperm. destruct Hperm as (plane & Hpl & Hperm).
  apply in_map_iff in Hperm. destruct Hperm as (side2 & <- & Hs2).
  apply list_elem_of_In in Hs1, Hpl, Hs2.
  exists side1, plane, side2. split; [reflexivity|].
  split; [exact (H0 _ Hs1)|]. split; [exact (Hp _ Hpl)|]. split; [exact (H1 _ Hs2)|].
  rewrite (H0 _ Hs1), (Hp _ Hpl), (H1 _ Hs2).
  replace (n0 + np + n1)%nat with (n0 + (np + n1))%nat by lia.
  rewrite !seq_app. reflexivity.
Qed.

(** X12.  With the default flags for the point groups every ordering of
    each group is listed: the number of lists is [|A|! |B|!] times [|P|!],
    or times [2 |P|] when the order of the plane is used. *)
Theorem safe_separation_permutations_count sp ordered_plane_flag group0 group1 rest :
  point_groups sp = group0 :: group1 :: rest ->
  exists perms,
    safe_separation_permutations sp ordered_plane_flag None = Ok perms /\
    length perms
    = (fact (length group0)
       * (if ordered_plane_flag && ordered_plane sp
          then 2 * length (plane_points sp)
          else fact (length (plane_points sp)))
       * fact (length group1))%nat.
Proof.
  intros Hgroups. unfold safe_separation_permutations.
  rewrite Hgroups. cbn [getitem lookup list_lookup]. rewrite !bind_Ok_l. cbv zeta.
  cbn [andb]. eexists. split; [reflexivity|].
  set (n0 := length group0). set (np := length (plane_points sp)).
  set (n1 := length group1).
  set (planes := if ordered_plane_flag && ordered_plane sp
                 then rotations_and_reflections (seq n0 np)
                 else itertools_permutations (seq n0 np)).
  assert (Hplanes : length planes
                    = if ordered_plane_flag && ordered_plane sp then (2 * np)%nat
                      else fact np).
  { unfold planes. destruct (ordered_plane_flag && ordered_plane sp).
    - rewrite rotations_and_reflections_length, length_seq. reflexivity.
    - rewrite itertools_permutations_length, length_seq. reflexivity. }
  rewrite (flat_map_constant_length _ _ (length planes * fact n1)).
  - rewrite itertools_permutations_length, length_seq, Hplanes. lia.
  - apply Forall_forall. intros side1 _.
    rewrite (flat_map_constant_length _ _ (fact n1)); [reflexivity|].
    apply Forall_forall. intros plane _.
    rewrite length_map, itertools_permutations_length, length_seq. reflexivity.
Qed.

(** ** [np.argsort] and the reference separation *)

Lemma insert_by_value_Permutation x l : Permutation (insert_by_value x l) (x :: l).
Proof.
  induction l as [|y l IH]; cbn [insert_by_value]; [reflexivity|].
  destruct (fst x <=? fst y)%nat; [reflexivity|].
  rewrite IH. apply perm_swap.
Qed.

Lemma insert_by_value_sorted x l :
  StronglySorted (fun a b => fst a <= fst b)%nat l ->
  StronglySorted (fun a b => fst a <= fst b)%nat (insert_by_value x l).
Proof.
  induction 1 as [|y l Hl IH Hy]; cbn [insert_by_value].
  - repeat constructor.
  - destruct (fst x <=? fst y)%nat eqn:Hxy.
    + apply Nat.leb_le in Hxy. constructor; [constructor; assumption|].
      constructor; [exact Hxy|]. eapply Forall_impl; [exact Hy|].
      intros z Hz. cbn in Hz. lia.
    + apply Nat.leb_gt in Hxy. constructor; [exact IH|].
      rewrite insert_by_value_Permutation. constructor; [lia | exact Hy].
Qed.

Lemma sorted_pairs_spec (pairs : list (nat * nat)) :
  Permutation (fold_right insert_by_value [] pairs) pairs /\
  StronglySorted (fun a b => fst a <= fst b)%nat (fold_right insert_by_value [] pairs).
Proof.
  induction pairs as [|p pairs [IHp IHs]]; cbn [fold_right].
  - split; [reflexivity | constructor].
  - split; [now rewrite insert_by_value_Permutation, IHp|].
    apply insert_by_value_sorted. exact IHs.
Qed.

Lemma StronglySorted_le_unique (l l' : list nat) :
  StronglySorted le l -> StronglySorted le l' -> Permutation l l' -> l = l'.
Proof.
  intros Hl; revert l'; induction Hl as [|x l Hl IH Hx]; intros l' Hl' Hp.
  - apply Permutation_nil in Hp. now subst.
  - destruct Hl' as [|y l' Hl' Hy].
    { symmetry in Hp. apply Permutation_nil in Hp. discriminate. }
    assert (x = y) as <-.
    { assert (Hxin : x ∈ y :: l') by (rewrite <- Hp; apply list_elem_of_here).
      assert (Hyin : y ∈ x :: l) by (rewrite Hp; apply list_elem_of_here).
      rewrite Forall_forall in Hx, Hy.
      apply elem_of_cons in Hxin as [?|Hxin]; [assumption|].
      apply elem_of_cons in Hyin as [?|Hyin]; [congruence|].
      pose proof (Hx _ Hyin). pose proof (Hy _ Hxin). lia. }
    f_equal. apply IH; [exact Hl'|]. eapply Permutation_cons_inv. exact Hp.
Qed.

Lemma StronglySorted_seq a n : StronglySorted le (seq a n).
Proof.
  revert a; induction n as [|n IH]; intros a; cbn [seq]; constructor; [apply IH|].
  apply Forall_forall. intros k Hk. apply elem_of_seq in Hk. lia.
Qed.

Lemma combine_seq_lookup {A : Type} (pre xs : list A) :
  Forall (fun p => (pre ++ xs) !! snd p = Some (fst p))
         (combine xs (seq (length pre) (length xs))).
Proof.
  revert pre; induction xs as [|x xs IH]; intros pre; cbn [length seq combine];
    constructor.
  - cbn [fst snd]. rewrite lookup_app_r by lia. now rewrite Nat.sub_diag.
  - replace (pre ++ x :: xs) with ((pre ++ [x]) ++ xs) by (now rewrite <- app_assoc).
    replace (S (length pre)) with (length (pre ++ [x])) by (rewrite length_app; cbn; lia).
    apply IH.
Qed.

(** On a permutation of [0 .. n-1], [np.argsort] returns the inverse
    permutation. *)
Lemma argsort_inverse (xs : list nat) (n : nat) :
  Permutation xs (seq 0 n) ->
  take xs (argsort xs) = Ok (seq 0 n) /\
  Permutation (argsort xs) (seq 0 n).
Proof.
  intros Hperm. unfold argsort.
  set (pairs := combine xs (seq 0 (length xs))).
  destruct (sorted_pairs_spec pairs) as [Hp Hs].
  set (sorted := fold_right insert_by_value [] pairs) in *.
  assert (Hlen : length xs = n) by (rewrite (Permutation_length Hperm); apply length_seq).
  assert (Hfst : map fst sorted = seq 0 n).
  { apply StronglySorted_le_unique.
    - clear -Hs. induction Hs as [|p l Hl IH Hp]; cbn [map]; constructor; [exact IH|].
      apply Forall_forall. intros k Hk. apply list_elem_of_fmap in Hk as (q & -> & Hq).
      rewrite Forall_forall in Hp. exact (Hp q Hq).
    - apply StronglySorted_seq.
    - rewrite (Permutation_map fst Hp). unfold pairs.
      rewrite map_fst_combine by (now rewrite length_seq). exact Hperm. }
  assert (Hsnd : Permutation (map snd sorted) (seq 0 n)).
  { rewrite (Permutation_map snd Hp). unfold pairs.
    rewrite map_snd_combine by (now rewrite length_seq). now rewrite Hlen. }
  split; [|exact Hsnd].
  rewrite <- Hfst.
  assert (Hall : Forall (fun p => xs !! snd p = Some (fst p)) sorted).
  { rewrite Hp. exact (combine_seq_lookup [] xs). }
  clear -Hall. unfold take.
  induction Hall as [|p l Hp _ IH]; cbn [map for_each]; [reflexivity|].
  assert (Hg : getitem xs (snd p) = Ok (fst p)) by (unfold getitem; now rewrite Hp).
  rewrite Hg, bind_Ok_l, IH. reflexivity.
Qed.

(** X13.  When the reference separation permutation of a constructed
    plane (first group, plane points, second group) is a permutation of
    [0 .. n-1], the stored argsort is its inverse permutation: indexing one
    by the other gives the identity, both ways. *)
Theorem argsorted_ref_separation_perm_is_inverse
    plane mirror ordered groups flags explicit minimum optimized mult others sp n :
  SeparationPlane_init plane mirror ordered groups flags explicit minimum optimized
                       mult others = Ok sp ->
  Permutation (ref_separation_perm sp) (seq 0 n) ->
  (exists group0 group1,
     getitem (point_groups sp) 0 = Ok group0 /\
     getitem (point_groups sp) 1 = Ok group1 /\
     ref_separation_perm sp = group0 ++ plane_points sp ++ group1 /\
     n = (length group0 + length (plane_points sp) + length group1)%nat) /\
  Permutation (argsorted_ref_separation_perm sp) (seq 0 n) /\
  take (ref_separation_perm sp) (argsorted_ref_separation_perm sp) = Ok (seq 0 n) /\
  take (argsorted_ref_separation_perm sp) (ref_separation_perm sp) = Ok (seq 0 n).
Proof.
  intros Hinit Hperm. unfold SeparationPlane_init in Hinit.
  destruct groups as [groups|]; [|discriminate].
  bind_inv_as Hinit group0 Hg0. bind_inv_as Hinit group1 Hg1.
  case_decide; [discriminate|]. injection Hinit as <-.
  cbn [ref_separation_perm argsorted_ref_separation_perm point_groups plane_points] in *.
  set (ref := group0 ++ plane ++ group1) in *.
  destruct (argsort_inverse ref n Hperm) as [Htake Hargs].
  split; [|split; [exact Hargs|split; [exact Htake|]]].
  - exists group0, group1. repeat split; try assumption.
    pose proof (Permutation_length Hperm) as Hlen. rewrite length_seq in Hlen.
    rewrite <- Hlen. unfold ref. rewrite !length_app. lia.
  - assert (Hlen : length ref = n)
      by (rewrite (Permutation_length Hperm); apply length_seq).
    assert (Hlen' : length (argsort ref) = n)
      by (rewrite (Permutation_length Hargs); apply length_seq).
    assert (Hnd : NoDup ref) by (rewrite Hperm; apply NoDup_seq).
    destruct (take_Ok (argsort ref) ref) as (ys & Hys & Hylen).
    { apply Forall_forall. intros k Hk. rewrite Hperm in Hk.
      apply elem_of_seq in Hk. lia. }
    rewrite Hys. f_equal. apply list_eq. intros i.
    destruct (decide (i < n)%nat) as [Hi|Hi].
    + rewrite lookup_seq_lt by exact Hi. cbn [Nat.add].
      destruct (lookup_lt_is_Some_2 ref i) as [k Hk]; [lia|].
      rewrite (take_lookup _ _ _ _ _ Hys Hk).
      assert (Hkn : (k < n)%nat).
      { apply list_elem_of_lookup_2 in Hk. rewrite Hperm in Hk.
        apply elem_of_seq in Hk. lia. }
      destruct (lookup_lt_is_Some_2 (argsort ref) k) as [i' Hi']; [lia|].
      rewrite Hi'. f_equal.
      pose proof (take_lookup _ _ _ _ _ Htake Hi') as Hback.
      rewrite lookup_seq_lt in Hback by exact Hkn. cbn [Nat.add] in Hback.
      symmetry in Hback. eapply NoDup_lookup; eassumption.
    + rewrite lookup_seq_ge by lia. apply lookup_ge_None. lia.
Qed.

(** ** Serialization of a separation plane *)




(** ** The catalogue *)

Lemma filter_partition_length {A : Type} (P Q R : A -> Prop)
    `{!forall x, Decision (P x)} `{!forall x, Decision (Q x)}
    `{!forall x, Decision (R x)} (l : list A) :
  (forall x, P x <-> Q x \/ R x) -> (forall x, Q x -> ~ R x) ->
  length (filter P l) = (length (filter Q l) + length (filter R l))%nat.
Proof.
  intros Hiff Hdisj. induction l as [|x l IH]; [reflexivity|].
  rewrite !filter_cons. pose proof (Hiff x). pose proof (Hdisj x).
  repeat case_decide; cbn [length]; try lia; tauto.
Qed.

(** X15.  The geometries of a coordination number (or of all) are the
    implemented ones, deactivated included, together with the not implemented
    ones; no geometry is in both lists and the lengths add up.  Without
    [include_deactivated] the implemented list holds the ones that are not
    deactivated. *)
Theorem catalogue_geometries_partition cg_list coordination_arg :
  (forall cg,
     cg ∈ get_geometries cg_list coordination_arg <->
     cg ∈ get_implemented_geometries cg_list coordination_arg true \/
     cg ∈ get_not_implemented_geometries cg_list coordination_arg) /\
  (forall cg,
     cg ∈ get_implemented_geometries cg_list coordination_arg true ->
     cg ∉ get_not_implemented_geometries cg_list coordination_arg) /\
  length (get_geometries cg_list coordination_arg)
  = (length (get_implemented_geometries cg_list coordination_arg true)
     + length (get_not_implemented_geometries cg_list coordination_arg))%nat /\
  (forall cg,
     cg ∈ get_implemented_geometries cg_list coordination_arg false <->
     cg ∈ get_implemented_geometries cg_list coordination_arg true /\
     deactivate cg = false).
Proof.
  unfold get_geometries, get_implemented_geometries, get_not_implemented_geometries.
  destruct coordination_arg as [cn|].
  - split; [|split; [|split]].
    + intros cg. rewrite !list_elem_of_filter.
      rewrite !andb_True, !bool_decide_spec, orb_true_r.
      destruct (points cg); intuition (first [congruence | exact I]).
    + intros cg. rewrite !list_elem_of_filter.
      rewrite !andb_True, !bool_decide_spec. intuition (first [congruence | exact I]).
    + apply filter_partition_length; intros cg;
        rewrite !andb_True, !bool_decide_spec, ?orb_true_r;
        destruct (points cg); intuition (first [congruence | exact I]).
    + intros cg. rewrite !list_elem_of_filter.
      rewrite !andb_True, !bool_decide_spec, orb_true_r, orb_false_r.
      destruct (deactivate cg); cbn; intuition (first [congruence | exact I]).
  - split; [|split; [|split]].
    + intros cg. rewrite !list_elem_of_filter.
      rewrite !andb_True, !bool_decide_spec, orb_true_r.
      destruct (points cg); intuition (first [congruence | exact I]).
    + intros cg. rewrite !list_elem_of_filter.
      rewrite !andb_True, !bool_decide_spec. intuition (first [congruence | exact I]).
    + transitivity (length (filter (fun _ : CoordinationGeometry => True) cg_list)).
      { clear. induction cg_list as [|cg l IH]; [reflexivity|].
        rewrite filter_cons. rewrite decide_True by exact I. cbn [length].
        now rewrite <- IH. }
      apply (filter_partition_length (fun _ : CoordinationGeometry => True));
        intros cg; rewrite !andb_True, !bool_decide_spec, ?orb_true_r;
        destruct (points cg); intuition (first [congruence | exact I]).
    + intros cg. rewrite !list_elem_of_filter.
      rewrite !andb_True, !bool_decide_spec, orb_true_r, orb_false_r.
      destruct (deactivate cg); cbn; intuition (first [congruence | exact I]).
Qed.

(** X16.  [get_geometry_from_mp_symbol] returns the first geometry of the
    list with the symbol and fails exactly when no geometry has it, which is
    what [__contains__] reports; when the symbols of the list are distinct,
    looking up the symbol of a listed geometry gives that geometry. *)
Theorem get_geometry_from_mp_symbol_first cg_list symbol :
  (forall cg,
     get_geometry_from_mp_symbol cg_list symbol = Some cg ->
     exists before after,
       cg_list = before ++ cg :: after /\ mp_symbol cg = symbol /\
       Forall (fun other => mp_symbol other <> symbol) before) /\
  (get_geometry_from_mp_symbol cg_list symbol = None <->
   Forall (fun other => mp_symbol other <> symbol) cg_list) /\
  (catalogue_contains cg_list symbol = true <->
   exists cg, cg ∈ cg_list /\ mp_symbol cg = symbol) /\
  (NoDup (map mp_symbol cg_list) ->
   forall cg, cg ∈ cg_list ->
     get_geometry_from_mp_symbol cg_list (mp_symbol cg) = Some cg).
Proof.
  assert (Hnone : forall l, get_geometry_from_mp_symbol l symbol = None <->
                            Forall (fun other => mp_symbol other <> symbol) l).
  { induction l as [|g l IH]; cbn [get_geometry_from_mp_symbol].
    - split; [constructor | reflexivity].
    - case_decide as Hg.
      + split; [discriminate|]. intros H. apply Forall_cons in H as [H _]. contradiction.
      + rewrite IH. split; [intros H; constructor; assumption|].
        intros H. now apply Forall_cons in H as [_ H]. }
  assert (Hsome : forall l cg, get_geometry_from_mp_symbol l symbol = Some cg ->
            exists before after,
              l = before ++ cg :: after /\ mp_symbol cg = symbol /\
              Forall (fun other => mp_symbol other <> symbol) before).
  { induction l as [|g l IH]; intros cg H; cbn [get_geometry_from_mp_symbol] in H;
      [discriminate|].
    case_decide as Hg.
    - injection H as <-. exists [], l. repeat split; [exact Hg | constructor].
    - destruct (IH cg H) as (before & after & -> & Hs & Hb).
      exists (g :: before), after. repeat split; [exact Hs | constructor; assumption]. }
  split; [apply Hsome|]. split; [apply Hnone|]. split.
  - unfold catalogue_contains.
    destruct (get_geometry_from_mp_symbol cg_list symbol) as [cg|] eqn:E.
    + split; [intros _|reflexivity].
      destruct (Hsome _ _ E) as (before & after & -> & Hs & _).
      exists cg. split; [|exact Hs]. apply elem_of_app. right. apply list_elem_of_here.
    + split; [discriminate|]. intros (cg & Hin & Hs).
      apply Hnone in E. rewrite Forall_forall in E. exfalso. exact (E cg Hin Hs).
  - clear Hnone Hsome. induction cg_list as [|g l IH]; intros Hnd cg Hin.
    + inversion Hin.
    + cbn [map] in Hnd. apply NoDup_cons in Hnd as [Hg Hnd].
      cbn [get_geometry_from_mp_symbol]. apply elem_of_cons in Hin as [->|Hin].
      * now rewrite decide_True by reflexivity.
      * rewrite decide_False; [apply IH; assumption|].
        intros Heq. apply Hg. rewrite Heq.
        apply (list_elem_of_fmap_2 mp_symbol l cg). exact Hin.
Qed.

(** ** Permutations, planes and the catalogue on concrete inputs *)

Lemma ref_permutation_is_least_image_witness :
  (exists images ref,
     for_each (take [1; 0]%nat) [[0; 1]; [1; 0]]%nat = Ok images /\
     ref_permutation two_point_symmetric_geometry [1; 0]%nat = Ok ref /\
     ref ∈ images /\
     tuple_leb ref [1; 0]%nat = true) /\
  ref_permutation two_point_single_geometry [1; 0]%nat = Raise TypeError /\
  ref_permutation two_point_symmetric_geometry [0]%nat = Raise IndexError.
Proof.
  split; [|split].
  - destruct (ref_permutation_is_least_image two_point_symmetric_geometry [1; 0]%nat)
      as (_ & _ & _ & Hleast).
    destruct (Hleast [[0; 1]; [1; 0]]%nat eq_refl) as (images & ref & H1 & H2 & H3 & _ & H5).
    + discriminate.
    + repeat constructor.
    + exists images, ref. split; [exact H1|]. split; [exact H2|]. split; [exact H3|].
      apply H5. apply list_elem_of_here.
  - apply (ref_permutation_is_least_image two_point_single_geometry [1; 0]%nat).
    reflexivity.
  - destruct (ref_permutation_is_least_image two_point_symmetric_geometry [0]%nat)
      as (_ & _ & Hrange & _).
    apply (Hrange [[0; 1]; [1; 0]]%nat eq_refl).
    apply Exists_cons_hd. apply Exists_cons_tl, Exists_cons_hd. simpl. lia.
Defined.

Lemma safe_separation_permutations_are_permutations_witness :
  exists perms,
    safe_separation_permutations between_plane_algo false None = Ok perms /\
    Forall (fun perm => Permutation perm (seq 0 2)) perms.
Proof.
  destruct (safe_separation_permutations between_plane_algo false None)
    as [perms|e] eqn:E; [|discriminate E].
  exists perms. split; [reflexivity|].
  pose proof (safe_separation_permutations_are_permutations
                between_plane_algo false None [0]%nat [1]%nat [] perms eq_refl E) as H.
  eapply Forall_impl; [exact H|].
  intros perm (side1 & plane & side2 & _ & _ & _ & _ & Hperm). exact Hperm.
Defined.

Lemma safe_separation_permutations_count_witness :
  exists perms,
    safe_separation_permutations between_plane_algo true None = Ok perms /\
    length perms = 1%nat.
Proof.
  destruct (safe_separation_permutations_count between_plane_algo true
              [0]%nat [1]%nat [] eq_refl) as (perms & Hperms & Hlen).
  exists perms. split; [exact Hperms | exact Hlen].
Defined.

Lemma argsorted_ref_separation_perm_is_inverse_witness :
  exists sp,
    SeparationPlane_init [0; 1]%nat false false (Some [[2]; [3; 4]]%nat)
                         None None None None None None = Ok sp /\
    Permutation (argsorted_ref_separation_perm sp) (seq 0 5) /\
    take (ref_separation_perm sp) (argsorted_ref_separation_perm sp) = Ok (seq 0 5) /\
    take (argsorted_ref_separation_perm sp) (ref_separation_perm sp) = Ok (seq 0 5).
Proof.
  destruct (SeparationPlane_init [0; 1]%nat false false (Some [[2]; [3; 4]]%nat)
              None None None None None None) as [sp|e] eqn:E; [|discriminate E].
  exists sp. split; [reflexivity|].
  assert (Href : ref_separation_perm sp = [2; 0; 1; 3; 4]%nat).
  { unfold SeparationPlane_init in E. cbn [getitem lookup list_lookup mbind] in E.
    injection E as <-. reflexivity. }
  refine (proj2 (argsorted_ref_separation_perm_is_inverse
                   _ _ _ _ _ _ _ _ _ _ sp 5%nat E _)).
  rewrite Href. change (seq 0 5) with [0; 1; 2; 3; 4]%nat.
  etransitivity; [apply perm_swap|]. apply perm_skip. apply perm_swap.
Defined.


Lemma catalogue_geometries_partition_witness :
  (two_point_single_geometry
     ∉ get_not_implemented_geometries (allcg two_point_finder) (Some 2%nat)) /\
  length (get_geometries (allcg two_point_finder) None)
  = (length (get_implemented_geometries (allcg two_point_finder) None true)
     + length (get_not_implemented_geometries (allcg two_point_finder) None))%nat /\
  unknown_environment ∈ get_geometries (allcg two_point_finder) None.
Proof.
  destruct (catalogue_geometries_partition (allcg two_point_finder) (Some 2%nat))
    as (_ & Hdisjoint & _).
  destruct (catalogue_geometries_partition (allcg two_point_finder) None)
    as (Hcover & _ & Hcount & _).
  split; [|split].
  - apply Hdisjoint.
    change (get_implemented_geometries _ _ _) with [two_point_single_geometry].
    apply list_elem_of_here.
  - exact Hcount.
  - apply Hcover. right.
    change (get_not_implemented_geometries _ _)
      with [unknown_environment; unclear_environment].
    apply list_elem_of_here.
Defined.

Lemma get_geometry_from_mp_symbol_first_witness :
  get_geometry_from_mp_symbol (allcg two_point_finder) "UNCLEAR"
  = Some unclear_environment /\
  get_geometry_from_mp_symbol (allcg two_point_finder) "T:4" = None /\
  catalogue_contains (allcg two_point_finder) "L:2" = true.
Proof.
  destruct (get_geometry_from_mp_symbol_first (allcg two_point_finder) "T:4")
    as (_ & Hnone & _).
  destruct (get_geometry_from_mp_symbol_first (allcg two_point_finder) "L:2")
    as (_ & _ & Hcontains & Hunique).
  split; [|split].
  - apply (fun H => Hunique H unclear_environment).
    + apply (bool_decide_unpack (NoDup ["L:2"; "UNKNOWN"; "UNCLEAR"])). exact I.
    + do 2 apply list_elem_of_further. apply list_elem_of_here.
  - apply Hnone. repeat constructor; discriminate.
  - apply Hcontains. exists two_point_single_geometry.
    split; [apply list_elem_of_here | reflexivity].
Defined.

(** ** The searches and the orchestrators *)

Section SearchDispatch.

Variable svd : M33 -> M33 * V3 * M33.
Variable Plane : Type.
Variable collinear : V3 -> V3 -> V3 -> R -> bool.
Variable Plane_from_3points : V3 -> V3 -> V3 -> Plane.
Variable Plane_from_npoints : list V3 -> Plane.
Variable indices_separate : Plane -> list V3 -> R -> separation_t.
Variable sort_separation : separation_t -> separation_t.
Variable separation_in_list : separation_t -> list separation_t -> bool.
Variable project_and_to2dim_ordered_indices : Plane -> list V3 -> list nat.
Variable rng_state : Type.
Variable rng_permutation : rng_state -> nat -> list nat * rng_state.
Variable optim_state : Type.
Variable coordination_geometry_symmetry_measures_sepplane_optim :
  LocalGeometryFinder -> CoordinationGeometry -> list V3 -> option nat ->
  optim_state -> pyresult (search_result * optim_state).

Local Abbreviation search :=
  (coordination_geometry_symmetry_measures
     svd Plane collinear Plane_from_3points Plane_from_npoints indices_separate
     sort_separation separation_in_list project_and_to2dim_ordered_indices
     rng_state rng_permutation).
Local Abbreviation search_algorithms :=
  (algorithms_loop
     svd Plane collinear Plane_from_3points Plane_from_npoints indices_separate
     sort_separation separation_in_list project_and_to2dim_ordered_indices
     rng_state rng_permutation).
Local Abbreviation search_standard :=
  (coordination_geometry_symmetry_measures_standard svd).
Local Abbreviation search_separation_plane :=
  (coordination_geometry_symmetry_measures_separation_plane
     svd Plane collinear Plane_from_3points
     Plane_from_npoints indices_separate sort_separation separation_in_list
     project_and_to2dim_ordered_indices rng_state rng_permutation).
Local Abbreviation measures_loop :=
  (symmetry_measures_loop
     svd Plane collinear Plane_from_3points Plane_from_npoints indices_separate
     sort_separation separation_in_list project_and_to2dim_ordered_indices
     rng_state rng_permutation).
Local Abbreviation get_measures :=
  (get_coordination_symmetry_measures
     svd Plane collinear Plane_from_3points Plane_from_npoints indices_separate
     sort_separation separation_in_list project_and_to2dim_ordered_indices
     rng_state rng_permutation).
Local Abbreviation measures_optim_loop :=
  (symmetry_measures_optim_loop
     svd optim_state coordination_geometry_symmetry_measures_sepplane_optim).
Local Abbreviation get_measures_optim :=
  (get_coordination_symmetry_measures_optim
     svd Plane collinear Plane_from_3points Plane_from_npoints indices_separate
     sort_separation separation_in_list project_and_to2dim_ordered_indices
     rng_state rng_permutation
     optim_state coordination_geometry_symmetry_measures_sepplane_optim).

(** *** [permutations_safe_override] *)

(** X17.  With [permutations_safe_override] set every search raises
    [ValueError]; on more than one neighbour the orchestrator then returns
    the empty dictionary when no geometry is to be tested, raises
    [ValueError] as soon as the first perfect geometry is built, and never
    returns a dictionary that is not empty. *)
Theorem permutations_safe_override_raises self :
  permutations_safe_override self = true ->
  (forall geometry tested points_perfect optimization rng,
     search self geometry tested points_perfect optimization rng = Raise ValueError) /\
  (forall only_minimum all_csms optimization rng,
     length (coords (local_geometry self)) <> 1%nat ->
     (get_implemented_geometries
        (allcg self) (Some (length (coords (local_geometry self)))) false = [] ->
      get_measures self only_minimum all_csms optimization rng = Ok (∅, rng)) /\
     (forall geometry rest perfect,
        get_implemented_geometries
          (allcg self) (Some (length (coords (local_geometry self)))) false
        = geometry :: rest ->
        from_cg geometry (centering_type self) (include_central_site_in_centroid self)
        = Ok perfect ->
        get_measures self only_minimum all_csms optimization rng = Raise ValueError) /\
     (forall dict rng',
        get_measures self only_minimum all_csms optimization rng = Ok (dict, rng') ->
        dict = ∅)).
Proof.
  intros Hover.
  assert (Hsearch : forall geometry tested points_perfect optimization rng,
             search self geometry tested points_perfect optimization rng
             = Raise ValueError).
  { intros. unfold coordination_geometry_symmetry_measures. now rewrite Hover. }
  split; [exact Hsearch|].
  intros only_minimum all_csms optimization rng Hcn.
  unfold get_coordination_symmetry_measures. rewrite decide_False by exact Hcn.
  split; [|split].
  - intros ->. reflexivity.
  - intros geometry rest perfect -> Hperfect. cbn [symmetry_measures_loop].
    rewrite Hperfect, bind_Ok_l. unfold points_wcs_ctwcc at 1, view_with_centre.
    rewrite bind_Ok_l, Hsearch. reflexivity.
  - intros dict rng'.
    destruct (get_implemented_geometries _ _ _) as [|geometry rest].
    + intros H. now injection H as <- _.
    + cbn [symmetry_measures_loop]. intros H. bind_inv H. bind_inv H.
      rewrite Hsearch in H. discriminate.
Qed.

(** *** The loop over the algorithms of a geometry *)

Lemma search_algorithms_explicit self geometry points_perfect optimization
      planes algo rest : forall tested acc rng found rng',
  Forall (fun a => algorithm_type a = SEPARATION_PLANE) planes ->
  search_algorithms self geometry points_perfect optimization
                    (planes ++ ExplicitPermutations algo :: rest) tested acc rng
  = Ok (found, rng') ->
  search_standard self geometry algo points_perfect optimization = Ok found.
Proof.
  induction planes as [|plane planes IH]; intros tested acc rng found rng' Hplanes H.
  - cbn [app algorithms_loop] in H. bind_inv H. now injection H as <- _.
  - apply Forall_cons in Hplanes as [Hplane Hplanes].
    destruct plane as [explicit|sp]; [discriminate|].
    cbn [app algorithms_loop] in H. bind_inv H. destruct a as [[fd tested'] rng1].
    eapply IH; eassumption.
Qed.

(** X18.  The search of a geometry returns the result of the first explicit
    algorithm of its list alone: the results of the separation planes that
    come before it are dropped, and the algorithms after it are not run.
    With an empty list of algorithms the result is empty; without a list the
    search raises [TypeError]. *)
Theorem explicit_algorithm_ends_search self geometry tested points_perfect optimization :
  permutations_safe_override self = false ->
  (forall algo rest rng,
     algorithms geometry = Some (ExplicitPermutations algo :: rest) ->
     search self geometry tested points_perfect optimization rng
     = (found ← search_standard self geometry algo points_perfect optimization;
        Ok (found, rng))) /\
  (forall planes algo rest rng found rng',
     algorithms geometry = Some (planes ++ ExplicitPermutations algo :: rest) ->
     Forall (fun a => algorithm_type a = SEPARATION_PLANE) planes ->
     search self geometry tested points_perfect optimization rng = Ok (found, rng') ->
     search_standard self geometry algo points_perfect optimization = Ok found) /\
  (algorithms geometry = Some [] ->
   forall rng,
     search self geometry tested points_perfect optimization rng
     = Ok (empty_search_result, rng)) /\
  (algorithms geometry = None ->
   forall rng,
     search self geometry tested points_perfect optimization rng = Raise TypeError).
Proof.
  intros Hover. unfold coordination_geometry_symmetry_measures. rewrite Hover.
  split; [|split; [|split]].
  - intros algo rest rng ->. reflexivity.
  - intros planes algo rest rng found rng' -> Hplanes H.
    eapply search_algorithms_explicit; eassumption.
  - intros -> rng. reflexivity.
  - intros -> rng. reflexivity.
Qed.

(** *** The choice of the optimised orchestrator *)

Lemma all_py_Ok {A : Type} (f : A -> pyresult bool) (p : A -> bool) l :
  Forall (fun x => f x = Ok (p x)) l -> all_py f l = Ok (forallb p l).
Proof.
  induction 1 as [|x l Hx _ IH]; cbn [all_py forallb]; [reflexivity|].
  rewrite Hx, bind_Ok_l. destruct (p x); [exact IH | reflexivity].
Qed.

(** X19.  When every geometry to be tested has algorithms, the optimised
    orchestrator is the plain one when each first algorithm is explicit; it
    raises [ValueError] when some first algorithm is a separation plane and
    some geometry has an explicit algorithm; it runs the optimised search on
    every geometry when all algorithms are separation planes (and one comes
    first somewhere). *)
Theorem get_coordination_symmetry_measures_optim_dispatch
    self only_minimum all_csms optimization rng st :
  let test_geometries :=
    get_implemented_geometries
      (allcg self) (Some (length (coords (local_geometry self)))) false in
  Forall (fun cg => exists first rest, algorithms cg = Some (first :: rest))
         test_geometries ->
  (Forall (fun cg => exists algo rest,
                       algorithms cg = Some (ExplicitPermutations algo :: rest))
          test_geometries ->
   get_measures_optim self only_minimum all_csms optimization rng st
   = ('(result_dict, rng') ←
        get_measures self only_minimum all_csms optimization rng;
      Ok (result_dict, rng', st))) /\
  (Exists (fun cg => exists sp rest,
                       algorithms cg = Some (SeparationPlaneAlgo sp :: rest))
          test_geometries ->
   Exists (fun cg => exists algos algo,
                       algorithms cg = Some algos /\ algo ∈ algos /\
                       algorithm_type algo = EXPLICIT_PERMUTATIONS)
          test_geometries ->
   get_measures_optim self only_minimum all_csms optimization rng st
   = Raise ValueError) /\
  (Exists (fun cg => exists sp rest,
                       algorithms cg = Some (SeparationPlaneAlgo sp :: rest))
          test_geometries ->
   Forall (fun cg => exists algos,
                       algorithms cg = Some algos /\
                       Forall (fun algo => algorithm_type algo = SEPARATION_PLANE) algos)
          test_geometries ->
   get_measures_optim self only_minimum all_csms optimization rng st
   = ('(result_dict, st') ←
        measures_optim_loop self only_minimum all_csms optimization
                            test_geometries ∅ st;
      Ok (result_dict, rng, st'))).
Proof.
  intros test_geometries Halgos.
  pose (first_explicit := fun cg : CoordinationGeometry =>
          match algorithms cg with
          | Some (ExplicitPermutations _ :: _) => true
          | _ => false
          end).
  pose (all_planes := fun cg : CoordinationGeometry =>
          match algorithms cg with
          | Some algos =>
              forallb (fun algo => bool_decide (algorithm_type algo = SEPARATION_PLANE))
                      algos
          | None => false
          end).
  assert (Hfirst : all_py first_algorithm_is_explicit test_geometries
                   = Ok (forallb first_explicit test_geometries)).
  { apply all_py_Ok. eapply Forall_impl; [exact Halgos|].
    intros cg (first & rest & Hcg). unfold first_algorithm_is_explicit, first_explicit.
    rewrite Hcg. cbn [getitem lookup list_lookup]. rewrite bind_Ok_l.
    destruct first; reflexivity. }
  assert (Hplanes : all_py all_algorithms_are_planes test_geometries
                    = Ok (forallb all_planes test_geometries)).
  { apply all_py_Ok. eapply Forall_impl; [exact Halgos|].
    intros cg (first & rest & Hcg). unfold all_algorithms_are_planes, all_planes.
    rewrite Hcg. apply all_py_Ok. apply Forall_forall. intros; reflexivity. }
  assert (Hnot_first : Exists (fun cg => exists sp rest,
                          algorithms cg = Some (SeparationPlaneAlgo sp :: rest))
                         test_geometries ->
                       forallb first_explicit test_geometries = false).
  { intros Hex. apply not_true_is_false. intros Hall.
    rewrite forallb_forall in Hall. apply Exists_exists in Hex.
    destruct Hex as (cg & Hin & sp & rest & Hcg).
    apply list_elem_of_In in Hin. specialize (Hall cg Hin).
    unfold first_explicit in Hall. rewrite Hcg in Hall. discriminate. }
  unfold get_coordination_symmetry_measures_optim. cbv zeta.
  fold test_geometries. rewrite Hfirst, bind_Ok_l.
  split; [|split].
  - intros Hall.
    assert (Htrue : forallb first_explicit test_geometries = true).
    { apply forallb_forall. intros cg Hin. apply list_elem_of_In in Hin.
      rewrite Forall_forall in Hall. destruct (Hall cg Hin) as (algo & rest & Hcg).
      unfold first_explicit. now rewrite Hcg. }
    rewrite Htrue. reflexivity.
  - intros Hex Hexplicit. rewrite (Hnot_first Hex), Hplanes, bind_Ok_l.
    assert (Hfalse : forallb all_planes test_geometries = false).
    { apply not_true_is_false. intros Hall. rewrite forallb_forall in Hall.
      apply Exists_exists in Hexplicit.
      destruct Hexplicit as (cg & Hin & algos & algo & Hcg & Halgo & Htype).
      apply list_elem_of_In in Hin. specialize (Hall cg Hin).
      unfold all_planes in Hall. rewrite Hcg, forallb_forall in Hall.
      apply list_elem_of_In in Halgo. specialize (Hall algo Halgo).
      apply bool_decide_eq_true in Hall. rewrite Htype in Hall. discriminate. }
    rewrite Hfalse. reflexivity.
  - intros Hex Hall. rewrite (Hnot_first Hex), Hplanes, bind_Ok_l.
    assert (Htrue : forallb all_planes test_geometries = true).
    { apply forallb_forall. intros cg Hin. apply list_elem_of_In in Hin.
      rewrite Forall_forall in Hall. destruct (Hall cg Hin) as (algos & Hcg & Hp).
      unfold all_planes. rewrite Hcg. apply forallb_forall. intros algo Halgo.
      apply list_elem_of_In in Halgo. rewrite Forall_forall in Hp.
      apply bool_decide_eq_true. exact (Hp algo Halgo). }
    rewrite Htrue. reflexivity.
Qed.

End SearchDispatch.

Section SearchesInStep.

Variable svd : M33 -> M33 * V3 * M33.
Variable Plane : Type.
Variable collinear : V3 -> V3 -> V3 -> R -> bool.
Variable Plane_from_3points : V3 -> V3 -> V3 -> Plane.
Variable Plane_from_npoints : list V3 -> Plane.
Variable indices_separate : Plane -> list V3 -> R -> separation_t.
Variable sort_separation : separation_t -> separation_t.
Variable separation_in_list : separation_t -> list separation_t -> bool.
Variable project_and_to2dim_ordered_indices : Plane -> list V3 -> list nat.
Variable rng_state : Type.
Variable rng_permutation : rng_state -> nat -> list nat * rng_state.

Local Abbreviation search :=
  (coordination_geometry_symmetry_measures
     svd Plane collinear Plane_from_3points Plane_from_npoints indices_separate
     sort_separation separation_in_list project_and_to2dim_ordered_indices
     rng_state rng_permutation).
Local Abbreviation search_algorithms :=
  (algorithms_loop
     svd Plane collinear Plane_from_3points Plane_from_npoints indices_separate
     sort_separation separation_in_list project_and_to2dim_ordered_indices
     rng_state rng_permutation).
Local Abbreviation search_standard :=
  (coordination_geometry_symmetry_measures_standard svd).
Local Abbreviation search_fallback :=
  (coordination_geometry_symmetry_measures_fallback_random svd rng_state rng_permutation).
Local Abbreviation fallback_loop :=
  (fallback_random_loop svd rng_state rng_permutation).
Local Abbreviation plane_tolerance_loop :=
  (tolerance_loop svd Plane indices_separate sort_separation
     separation_in_list project_and_to2dim_ordered_indices).
Local Abbreviation plane_tolerance_step :=
  (separation_for_tolerance svd Plane indices_separate sort_separation
     separation_in_list project_and_to2dim_ordered_indices).
Local Abbreviation plane_csm :=
  (_cg_csm_separation_plane svd Plane indices_separate sort_separation
     separation_in_list project_and_to2dim_ordered_indices).
Local Abbreviation plane_combination :=
  (separation_plane_combination svd Plane collinear Plane_from_3points
     Plane_from_npoints indices_separate sort_separation separation_in_list
     project_and_to2dim_ordered_indices).
Local Abbreviation plane_npoints_loop :=
  (npoints_loop svd Plane collinear Plane_from_3points
     Plane_from_npoints indices_separate sort_separation separation_in_list
     project_and_to2dim_ordered_indices).
Local Abbreviation search_separation_plane :=
  (coordination_geometry_symmetry_measures_separation_plane
     svd Plane collinear Plane_from_3points
     Plane_from_npoints indices_separate sort_separation separation_in_list
     project_and_to2dim_ordered_indices rng_state rng_permutation).

Lemma measures_follow_extend self points_perfect a b :
  measures_follow_permutations svd self points_perfect a ->
  measures_follow_permutations svd self points_perfect b ->
  measures_follow_permutations svd self points_perfect (extend_search_result a b).
Proof.
  intros [A1 A2] [B1 B2]. split; cbn.
  - apply Forall2_app; assumption.
  - rewrite !length_app. lia.
Qed.

Lemma search_standard_in_step self cg algo points_perfect optimization r :
  search_standard self cg algo points_perfect optimization = Ok r ->
  measures_follow_permutations svd self points_perfect r.
Proof.
  unfold coordination_geometry_symmetry_measures_standard. intros H.
  bind_inv H. injection H as <-. split; cbn.
  - apply for_each_Forall2. exact E.
  - now rewrite length_map.
Qed.

Lemma fallback_loop_in_step self cg points_perfect rounds :
  forall rng drawn rng',
    fallback_loop self cg points_perfect rounds rng = Ok (drawn, rng') ->
    Forall (fun d => permutation_symmetry_measure svd self points_perfect (fst d)
                     = Ok (snd d)) drawn.
Proof.
  induction rounds as [|rounds IH]; intros rng drawn rng' H; cbn in H.
  - injection H as <- _. constructor.
  - destruct (coordination_number cg) as [n|]; [|discriminate].
    destruct (rng_permutation rng n) as [perm rng1].
    bind_inv H. bind_inv H. destruct a0 as [rest rng2].
    injection H as <- _. constructor; [exact E | eapply IH; exact E0].
Qed.

Lemma search_fallback_in_step self cg n_random NRANDOM points_perfect rng r rng' :
  search_fallback self cg n_random NRANDOM points_perfect rng = Ok (r, rng') ->
  measures_follow_permutations svd self points_perfect r.
Proof.
  unfold coordination_geometry_symmetry_measures_fallback_random. intros H.
  bind_inv H. destruct a as [drawn rng1]. injection H as <- _.
  apply fallback_loop_in_step in E. split; cbn.
  - induction E as [|d drawn Hd _ IH]; cbn [map]; constructor; assumption.
  - now rewrite length_map.
Qed.

Lemma try_separation_permutation_in_step self cg argref separation_perm
      points_perfect st sep_perm st' :
  plane_search_in_step svd self points_perfect st ->
  try_separation_permutation svd self cg argref separation_perm points_perfect
                             st sep_perm = Ok st' ->
  plane_search_in_step svd self points_perfect st'.
Proof.
  unfold try_separation_permutation, plane_search_in_step. intros Hst H.
  bind_inv H. bind_inv H. bind_inv H. destruct a1 as [[|] tested].
  - now injection H as <-.
  - bind_inv H. injection H as <-. cbn.
    apply Forall2_app; [exact Hst|]. constructor; [exact E2 | constructor].
Qed.

Lemma tolerance_step_in_step self cg sp plane points_perfect st tol st' ended :
  plane_search_in_step svd self points_perfect st ->
  plane_tolerance_step self cg sp plane points_perfect st tol = Ok (st', ended) ->
  plane_search_in_step svd self points_perfect st'.
Proof.
  unfold separation_for_tolerance. cbv zeta. intros Hst H.
  destruct (separation_in_list _ _); [now injection H as <- _|].
  destruct (sort_separation _) as [[side0 inplane] side2].
  case_decide; [now injection H as <- _|].
  bind_inv H. bind_inv H. destruct a0 as [this_separation|];
    [|now injection H as <- _].
  bind_inv H. bind_inv H. bind_inv H. injection H as <- _.
  eapply (for_fold_invariant (plane_search_in_step svd self points_perfect));
    [| |exact E3]; [|exact Hst].
  intros s x s' Hs Hb. eapply try_separation_permutation_in_step; eassumption.
Qed.

Lemma tolerance_loop_in_step self cg sp plane points_perfect found tols :
  forall st st',
    plane_search_in_step svd self points_perfect st ->
    plane_tolerance_loop self cg sp plane points_perfect found tols st = Ok st' ->
    plane_search_in_step svd self points_perfect st'.
Proof.
  induction tols as [|tol tols IH]; intros st st' Hst H; cbn [tolerance_loop] in H.
  - now injection H as <-.
  - bind_inv H. destruct a as [st1 ended].
    apply tolerance_step_in_step in E; [|exact Hst].
    destruct (ended && found); [now injection H as <- | eapply IH; eassumption].
Qed.

Lemma plane_csm_in_step self cg sp plane seps tols tested points_perfect
      csm perm algo seps' tested' :
  plane_csm self cg sp plane seps tols tested points_perfect
  = Ok (Some (csm, perm, algo), seps', tested') ->
  Forall2 (fun p info => permutation_symmetry_measure svd self points_perfect p = Ok info)
          perm csm /\
  length algo = length perm.
Proof.
  unfold _cg_csm_separation_plane, separation_plane_tolerances. intros H. bind_inv H.
  apply tolerance_loop_in_step in E; [|constructor].
  case_decide as Hlen; [|discriminate].
  injection H as <- <- <- _ _. split; [exact E | apply length_replicate].
Qed.

Lemma plane_combination_in_step self cg sp points_perfect npoints st pc st' :
  measures_follow_permutations svd self points_perfect (ss_result st) ->
  plane_combination self cg sp points_perfect npoints st pc = Ok st' ->
  measures_follow_permutations svd self points_perfect (ss_result st').
Proof.
  intros Hst H. unfold separation_plane_combination in H.
  bind_inv H. destruct a as [plane|]; [|now injection H as <-].
  bind_inv H. destruct a as [[cgsm seps'] tested'].
  destruct cgsm as [[[csm perm] algo]|].
  - apply plane_csm_in_step in E0 as [Hcsm Halgo]. injection H as <-. cbn [ss_result].
    apply measures_follow_extend; [exact Hst|]. split; assumption.
  - injection H as <-. exact Hst.
Qed.

Lemma plane_npoints_loop_in_step self cg sp points_perfect range :
  forall st st',
    measures_follow_permutations svd self points_perfect (ss_result st) ->
    plane_npoints_loop self cg sp points_perfect range st = Ok st' ->
    measures_follow_permutations svd self points_perfect (ss_result st').
Proof.
  induction range as [|npoints range IH]; intros st st' Hst H; cbn in H.
  - now injection H as <-.
  - bind_inv H.
    assert (Ha : measures_follow_permutations svd self points_perfect (ss_result a)).
    { eapply (for_fold_invariant
                (fun s => measures_follow_permutations svd self points_perfect
                            (ss_result s))); [|exact Hst|exact E].
      intros s x s' Hs Hb. eapply plane_combination_in_step; eassumption. }
    case_decide; [now injection H as <- | eapply IH; eassumption].
Qed.

Lemma search_separation_plane_in_step self cg sp tested points_perfect rng r tested' rng' :
  search_separation_plane self cg sp tested points_perfect rng = Ok (r, tested', rng') ->
  measures_follow_permutations svd self points_perfect r.
Proof.
  unfold coordination_geometry_symmetry_measures_separation_plane. intros H.
  destruct (minimum_number_of_points sp) as [first|]; [|discriminate].
  bind_inv H.
  assert (Ha : measures_follow_permutations svd self points_perfect (ss_result a)).
  { eapply plane_npoints_loop_in_step; [|exact E]. split; [constructor | reflexivity]. }
  case_decide.
  - bind_inv H. destruct a0 as [fallback rng1]. injection H as <- _ _.
    eapply search_fallback_in_step; exact E0.
  - injection H as <- _ _. exact Ha.
Qed.

Lemma search_algorithms_in_step self cg points_perfect optimization algos :
  forall tested acc rng found rng',
    measures_follow_permutations svd self points_perfect acc ->
    maps_follow_permutations acc ->
    search_algorithms self cg points_perfect optimization algos tested acc rng
    = Ok (found, rng') ->
    measures_follow_permutations svd self points_perfect found /\
    maps_follow_permutations found.
Proof.
  induction algos as [|algo algos IH]; intros tested acc rng found rng' Hacc Hmaps H;
    cbn [algorithms_loop] in H.
  - injection H as <- _. split; assumption.
  - destruct algo as [explicit|sp].
    + bind_inv H. injection H as <- _. split.
      * eapply search_standard_in_step; exact E.
      * eapply (search_standard_maps svd); exact E.
    + bind_inv H. destruct a as [[fd tested1] rng1].
      eapply IH; [| |exact H].
      * apply measures_follow_extend; [exact Hacc|].
        eapply search_separation_plane_in_step; exact E.
      * apply maps_follow_extend; [exact Hmaps|].
        eapply (search_separation_plane_maps svd); exact E.
Qed.

Lemma search_in_step self cg tested points_perfect optimization rng found rng' :
  search self cg tested points_perfect optimization rng = Ok (found, rng') ->
  measures_follow_permutations svd self points_perfect found /\
  maps_follow_permutations found.
Proof.
  unfold coordination_geometry_symmetry_measures. intros H.
  destruct (permutations_safe_override self); [discriminate|].
  destruct (algorithms cg) as [algos|]; [|discriminate].
  eapply search_algorithms_in_step; [| |exact H].
  - split; [constructor | reflexivity].
  - split; reflexivity.
Qed.

(** X20.  In every search result the five lists are in step: the measure at
    a position is the one [symmetry_measure] gives for the permutation at
    that position, the lists of measures, permutations and algorithm names
    have one length, and the index maps are those of the permutations, in
    the same order. *)
Theorem search_results_in_step self cg tested points_perfect optimization rng found rng' :
  search self cg tested points_perfect optimization rng = Ok (found, rng') ->
  Forall2 (fun perm info =>
             permutation_symmetry_measure svd self points_perfect perm = Ok info)
          (sr_permutations found) (sr_symmetry_measures found) /\
  length (sr_symmetry_measures found) = length (sr_permutations found) /\
  length (sr_algos found) = length (sr_permutations found) /\
  sr_local2perfect_maps found = map local2perfect_map_of (sr_permutations found) /\
  sr_perfect2local_maps found = map perfect2local_map_of (sr_permutations found).
Proof.
  intros H. apply search_in_step in H as [[Hm Ha] [Hl Hp]].
  split; [exact Hm|]. split; [symmetry; eapply Forall2_length; exact Hm|].
  repeat split; assumption.
Qed.

End SearchesInStep.

(** ** The first least value *)

Section FirstMinimum.
Local Open Scope R_scope.





End FirstMinimum.

Section OrchestratorResults.

Variable svd : M33 -> M33 * V3 * M33.
Variable Plane : Type.
Variable collinear : V3 -> V3 -> V3 -> R -> bool.
Variable Plane_from_3points : V3 -> V3 -> V3 -> Plane.
Variable Plane_from_npoints : list V3 -> Plane.
Variable indices_separate : Plane -> list V3 -> R -> separation_t.
Variable sort_separation : separation_t -> separation_t.
Variable separation_in_list : separation_t -> list separation_t -> bool.
Variable project_and_to2dim_ordered_indices : Plane -> list V3 -> list nat.
Variable rng_state : Type.
Variable rng_permutation : rng_state -> nat -> list nat * rng_state.

Local Abbreviation search :=
  (coordination_geometry_symmetry_measures
     svd Plane collinear Plane_from_3points Plane_from_npoints indices_separate
     sort_separation separation_in_list project_and_to2dim_ordered_indices
     rng_state rng_permutation).
Local Abbreviation search_standard :=
  (coordination_geometry_symmetry_measures_standard svd).
Local Abbreviation measures_loop :=
  (symmetry_measures_loop
     svd Plane collinear Plane_from_3points Plane_from_npoints indices_separate
     sort_separation separation_in_list project_and_to2dim_ordered_indices
     rng_state rng_permutation).
Local Abbreviation get_measures :=
  (get_coordination_symmetry_measures
     svd Plane collinear Plane_from_3points Plane_from_npoints indices_separate
     sort_separation separation_in_list project_and_to2dim_ordered_indices
     rng_state rng_permutation).

(** *** The first of the least measures is kept *)


(** *** The dictionary of all results *)

Lemma measures_loop_all_results self all_csms optimization geoms :
  forall dict rng dict' rng',
    measures_loop self false all_csms optimization geoms dict rng = Ok (dict', rng') ->
    (forall symbol,
       is_Some (dict' !! symbol) <->
       is_Some (dict !! symbol) \/ exists g, g ∈ geoms /\ mp_symbol g = symbol) /\
    (forall symbol value,
       dict' !! symbol = Some value ->
       dict !! symbol = Some value \/
       exists geometry perfect points_perfect found rng0 rng1,
         geometry ∈ geoms /\ mp_symbol geometry = symbol /\
         from_cg geometry (centering_type self)
                 (include_central_site_in_centroid self) = Ok perfect /\
         points_wcs_ctwcc perfect None = Ok points_perfect /\
         search self geometry false points_perfect optimization rng0
         = Ok (found, rng1) /\
         value = AllResults found).
Proof.
  induction geoms as [|geometry geoms IH]; intros dict rng dict' rng' H;
    cbn [symmetry_measures_loop] in H.
  - injection H as <- _. split.
    + intros symbol. split; [now left|]. intros [?|(g & Hg & _)]; [assumption|].
      inversion Hg.
    + intros symbol value Hv. now left.
  - bind_inv H. bind_inv H. bind_inv H. destruct a1 as [found rng1].
    rewrite bind_Ok_l in H. destruct (IH _ _ _ _ H) as [Hdom Hval]. split.
    + intros symbol. rewrite Hdom. rewrite lookup_insert_is_Some.
      split.
      * intros [[Heq|[_ Hd]]|(g & Hg & Hs)].
        -- right. exists geometry. split; [apply list_elem_of_here | exact Heq].
        -- now left.
        -- right. exists g. split; [apply list_elem_of_further; exact Hg | exact Hs].
      * intros [Hd|(g & Hg & Hs)].
        -- destruct (decide (mp_symbol geometry = symbol)); left; [now left | now right].
        -- apply elem_of_cons in Hg as [->|Hg]; [left; now left|].
           right. exists g. split; assumption.
    + intros symbol value Hv. destruct (Hval symbol value Hv)
        as [Hin|(g & pf & pp & fd & r0 & r1 & Hg & Hrest)].
      * destruct (decide (mp_symbol geometry = symbol)) as [Heq|Hne].
        -- subst symbol. rewrite lookup_insert_eq in Hin. injection Hin as <-.
           right. exists geometry, a, a0, found, rng, rng1.
           split; [apply list_elem_of_here|]. repeat split; assumption.
        -- rewrite lookup_insert_ne in Hin by exact Hne. now left.
      * right. exists g, pf, pp, fd, r0, r1.
        split; [apply list_elem_of_further; exact Hg | exact Hrest].
Qed.

(** X22.  Without [only_minimum], on more than one neighbour, the
    dictionary has exactly the symbols of the geometries tested, and the
    value under a symbol is the whole result of the search of a geometry
    with that symbol, with as many measures as permutations. *)
Theorem all_results_dictionary self all_csms optimization rng dict rng' :
  length (coords (local_geometry self)) <> 1%nat ->
  get_measures self false all_csms optimization rng = Ok (dict, rng') ->
  let test_geometries :=
    get_implemented_geometries
      (allcg self) (Some (length (coords (local_geometry self)))) false in
  (forall symbol,
     is_Some (dict !! symbol) <->
     exists geometry, geometry ∈ test_geometries /\ mp_symbol geometry = symbol) /\
  (forall symbol value,
     dict !! symbol = Some value ->
     exists geometry perfect points_perfect found rng0 rng1,
       geometry ∈ test_geometries /\ mp_symbol geometry = symbol /\
       from_cg geometry (centering_type self)
               (include_central_site_in_centroid self) = Ok perfect /\
       points_wcs_ctwcc perfect None = Ok points_perfect /\
       search self geometry false points_perfect optimization rng0 = Ok (found, rng1) /\
       value = AllResults found /\
       length (sr_symmetry_measures found) = length (sr_permutations found)).
Proof.
  intros Hcn H test_geometries.
  unfold get_coordination_symmetry_measures in H.
  rewrite decide_False in H by exact Hcn. fold test_geometries in H.
  destruct (measures_loop_all_results _ _ _ _ _ _ _ _ H) as [Hdom Hval]. split.
  - intros symbol. rewrite Hdom. split.
    + intros [Hd|Hg]; [|exact Hg]. rewrite lookup_empty in Hd. now destruct Hd.
    + intros Hg. now right.
  - intros symbol value Hv.
    destruct (Hval symbol value Hv)
      as [Hin|(g & pf & pp & fd & r0 & r1 & Hg & Hs & Hpf & Hpp & Hsearch & ->)].
    { rewrite lookup_empty in Hin. discriminate. }
    exists g, pf, pp, fd, r0, r1. repeat split; try assumption.
    apply (search_in_step svd) in Hsearch as [[Hm _] _].
    symmetry. eapply Forall2_length. exact Hm.
Qed.

(** *** The keys of [all_csms] *)

(** X23.  With [all_csms] every entry carries the six centring types, in
    the order of [_update_results_all_csms]; the values under ["wcs_ctwcc"]
    are those of the entry itself: the same measure, inverse rotation,
    inverse scale and translation. *)
Theorem all_csms_repeat_the_minimum self optimization rng dict rng' :
  length (coords (local_geometry self)) <> 1%nat ->
  get_measures self true true optimization rng = Ok (dict, rng') ->
  forall symbol entry,
    dict !! symbol = Some (MinimumResult entry) ->
    map fst (entry_all_csms entry) = csm_types /\
    exists typed,
      ("wcs_ctwcc", typed) ∈ entry_all_csms entry /\
      tc_csm typed = entry_csm entry /\
      tc_rotation_matrix typed = entry_rotation_matrix entry /\
      tc_scaling_factor typed = entry_scaling_factor entry /\
      tc_translation_vector typed = entry_translation_vector entry.
Proof.
  intros Hcn H symbol entry Hl.
  unfold get_coordination_symmetry_measures in H.
  rewrite decide_False in H by exact Hcn.
  destruct (measures_loop_entries svd Plane collinear Plane_from_3points
              Plane_from_npoints indices_separate sort_separation separation_in_list
              project_and_to2dim_ordered_indices rng_state rng_permutation
              _ _ _ _ _ _ _ _ H symbol entry Hl)
    as [Hempty|(g & pf & pp & fd & r0 & r1 & Hg & Hs & Hpf & Hpp & Hsearch & Hlen & Hkeep)].
  { rewrite lookup_empty in Hempty. discriminate. }
  apply (search_in_step svd) in Hsearch as [[Hm _] _].
  unfold keep_minimum in Hkeep. bind_inv_as Hkeep imin Himin.
  bind_inv_as Hkeep entry0 Hentry0.
  unfold minimum_result in Hentry0.
  bind_inv_as Hentry0 algo Halgo. bind_inv_as Hentry0 best Hbest.
  bind_inv_as Hentry0 indices Hindices. bind_inv_as Hentry0 l2p Hl2p.
  bind_inv_as Hentry0 p2l Hp2l. bind_inv_as Hentry0 scaling Hscaling.
  bind_inv_as Hentry0 rotation Hrotation. bind_inv_as Hentry0 translation Htranslation.
  injection Hentry0 as <-.
  unfold _update_results_all_csms in Hkeep.
  bind_inv_as Hkeep permutation Hpermutation. cbv zeta in Hkeep.
  bind_inv_as Hkeep t1 Ht1. bind_inv_as Hkeep t2 Ht2. bind_inv_as Hkeep t3 Ht3.
  bind_inv_as Hkeep t4 Ht4. bind_inv_as Hkeep t5 Ht5. bind_inv_as Hkeep t6 Ht6.
  injection Hkeep as <-.
  cbn [entry_all_csms entry_csm entry_rotation_matrix entry_scaling_factor
       entry_translation_vector map fst].
  split; [reflexivity|].
  exists t5. split; [do 4 apply list_elem_of_further; apply list_elem_of_here|].
  (* the measure at the minimum is the aligner's for the same two views *)
  apply getitem_Ok in Hbest, Hindices, Hpermutation.
  rewrite Hindices in Hpermutation. injection Hpermutation as <-.
  destruct (Forall2_lookup_l _ _ _ _ _ Hm Hindices) as (info & Hinfo & Hpsm).
  rewrite Hbest in Hinfo. injection Hinfo as <-.
  unfold permutation_symmetry_measure in Hpsm.
  bind_inv_as Hpsm pdist Hpdist. bind_inv_as Hpsm sm Hsm. injection Hpsm as <-.
  unfold typed_symmetry_measure in Ht5. rewrite Hpdist, bind_Ok_l, Hpp, bind_Ok_l in Ht5.
  rewrite Hsm, bind_Ok_l in Ht5.
  bind_inv_as Ht5 rot5 Hrot5. bind_inv_as Ht5 scale5 Hscale5. injection Ht5 as <-.
  cbn [tc_csm tc_rotation_matrix tc_scaling_factor tc_translation_vector
       set_translation_vector sm_symmetry_measure sm_scaling_factor sm_rotation_matrix
       sm_translation_vector] in *.
  injection Htranslation as <-.
  rewrite Hscale5 in Hscaling. injection Hscaling as <-.
  rewrite Hrot5 in Hrotation. injection Hrotation as <-.
  repeat split.
Qed.

End OrchestratorResults.

Section OrchestratorTotal.

Variable svd : M33 -> M33 * V3 * M33.
Variable Plane : Type.
Variable collinear : V3 -> V3 -> V3 -> R -> bool.
Variable Plane_from_3points : V3 -> V3 -> V3 -> Plane.
Variable Plane_from_npoints : list V3 -> Plane.
Variable indices_separate : Plane -> list V3 -> R -> separation_t.
Variable sort_separation : separation_t -> separation_t.
Variable separation_in_list : separation_t -> list separation_t -> bool.
Variable project_and_to2dim_ordered_indices : Plane -> list V3 -> list nat.
Variable rng_state : Type.
Variable rng_permutation : rng_state -> nat -> list nat * rng_state.

Local Abbreviation search :=
  (coordination_geometry_symmetry_measures
     svd Plane collinear Plane_from_3points Plane_from_npoints indices_separate
     sort_separation separation_in_list project_and_to2dim_ordered_indices
     rng_state rng_permutation).
Local Abbreviation search_standard :=
  (coordination_geometry_symmetry_measures_standard svd).
Local Abbreviation measures_loop :=
  (symmetry_measures_loop
     svd Plane collinear Plane_from_3points Plane_from_npoints indices_separate
     sort_separation separation_in_list project_and_to2dim_ordered_indices
     rng_state rng_permutation).
Local Abbreviation get_measures :=
  (get_coordination_symmetry_measures
     svd Plane collinear Plane_from_3points Plane_from_npoints indices_separate
     sort_separation separation_in_list project_and_to2dim_ordered_indices
     rng_state rng_permutation).

(** *** The explicit-permutation search *)

Lemma for_each_Raise_first {A B : Type} (f : A -> pyresult B) x xs e :
  f x = Raise e -> for_each f (x :: xs) = Raise e.
Proof. intros H. cbn [for_each]. now rewrite H. Qed.

Lemma search_standard_Ok self cg algo points_perfect optimization c bare ct inc :
  AbstractGeometry_init c bare ct inc = Ok (local_geometry self) ->
  length points_perfect = S (length bare) ->
  Forall (fun perm => Permutation perm (seq 0 (length bare))) (epa_permutations algo) ->
  exists r,
    search_standard self cg algo points_perfect optimization = Ok r /\
    sr_permutations r = epa_permutations algo /\
    length (sr_symmetry_measures r) = length (epa_permutations algo) /\
    sr_algos r = replicate (length (epa_permutations algo)) EXPLICIT_PERMUTATIONS.
Proof.
  intros Hinit Hpp Hperms.
  destruct (AbstractGeometry_init_lengths _ _ _ _ _ Hinit) as (Hwocs & Hwcs & _ & Hn).
  unfold coordination_geometry_symmetry_measures_standard. cbv zeta.
  destruct (for_each_Ok (permutation_symmetry_measure svd self points_perfect)
                        (epa_permutations algo)) as [infos Hinfos].
  { eapply Forall_impl; [exact Hperms|]. intros perm Hperm.
    eapply (permutation_symmetry_measure_Ok svd); eassumption. }
  rewrite Hinfos, bind_Ok_l. eexists. split; [reflexivity|].
  cbn [sr_permutations sr_symmetry_measures sr_algos].
  split; [reflexivity|]. split; [eapply for_each_length; exact Hinfos|].
  clear. induction (epa_permutations algo) as [|p l IH]; cbn; [reflexivity|].
  now rewrite IH.
Qed.

(** X24.  The explicit search scores every listed permutation, in the
    order of the list, when each is a permutation of the neighbour indices;
    it raises [IndexError] when the first one names a neighbour that does not
    exist, and [ValueError] when the first one has indices in range but not
    as many as there are neighbours. *)
Theorem standard_search_returns_one_measure_per_permutation
    self cg algo points_perfect optimization c bare ct inc :
  AbstractGeometry_init c bare ct inc = Ok (local_geometry self) ->
  length points_perfect = S (length bare) ->
  (Forall (fun perm => Permutation perm (seq 0 (length bare))) (epa_permutations algo) ->
   exists r,
     search_standard self cg algo points_perfect optimization = Ok r /\
     sr_permutations r = epa_permutations algo /\
     length (sr_symmetry_measures r) = length (epa_permutations algo) /\
     sr_algos r = replicate (length (epa_permutations algo)) EXPLICIT_PERMUTATIONS) /\
  (forall perm rest,
     epa_permutations algo = perm :: rest ->
     Exists (fun i => length bare <= i)%nat perm ->
     search_standard self cg algo points_perfect optimization = Raise IndexError) /\
  (forall perm rest,
     epa_permutations algo = perm :: rest ->
     Forall (fun i => i < length bare)%nat perm ->
     perm <> [] -> length perm <> length bare ->
     search_standard self cg algo points_perfect optimization = Raise ValueError).
Proof.
  intros Hinit Hpp.
  split; [intros Hperms; eapply search_standard_Ok; eassumption|].
  destruct (AbstractGeometry_init_lengths _ _ _ _ _ Hinit) as (Hwocs & Hwcs & _ & Hn).
  unfold coordination_geometry_symmetry_measures_standard. cbv zeta.
  split.
  - intros perm rest -> Hex.
    rewrite (for_each_Raise_first _ _ _ IndexError); [reflexivity|].
    unfold permutation_symmetry_measure, points_wcs_ctwcc, view_with_centre.
    rewrite take_out_of_range by (now rewrite Hwocs). reflexivity.
  - intros perm rest -> Hall Hne Hlen.
    rewrite (for_each_Raise_first _ _ _ ValueError); [reflexivity|].
    unfold permutation_symmetry_measure, points_wcs_ctwcc, view_with_centre.
    destruct (take_Ok (_points_wocs_ctwcc (local_geometry self)) perm)
      as (taken & Htaken & Htlen); [now rewrite Hwocs|].
    rewrite Htaken, !bind_Ok_l.
    rewrite (symmetry_measure_Raise svd); [reflexivity| |].
    + rewrite length_app, length_take, Hwcs, Htlen.
      destruct perm; [contradiction | cbn [length]; lia].
    + rewrite length_app, length_take, Hwcs, Htlen, Hpp. lia.
Qed.

(** *** Both orchestrator steps return *)

Lemma symmetry_measure_transform D P :
  (forall H, orthogonal (fst (fst (svd H))) /\ orthogonal (snd (svd H))) ->
  length D = length P -> length D <> 1%nat ->
  exists info s rot,
    symmetry_measure svd D P = Ok info /\
    sm_scaling_factor info = Some s /\
    sm_rotation_matrix info = Some rot /\
    det rot <> 0%R.
Proof.
  intros Hsvd Hlen H1.
  pose proof (find_rotation_ok svd D P Hlen) as Hrot.
  eexists _, _, _. split; [apply symmetry_measure_unfold; eassumption|].
  cbn [sm_scaling_factor sm_rotation_matrix]. split; [reflexivity|].
  split; [reflexivity|].
  pose proof (Hsvd (matmul_T D P)) as [HU HV].
  destruct (svd (matmul_T D P)) as [[U sv] Vt]. cbn [fst snd] in HU, HV.
  assert (Ho : orthogonal (mmul (mtrans Vt) (mtrans U)))
    by (apply orthogonal_mmul; apply orthogonal_mtrans; assumption).
  destruct (orthogonal_det _ Ho) as [Hd|Hd]; rewrite Hd; lra.
Qed.

Lemma typed_symmetry_measure_Ok pdist pperf D P t :
  (forall H, orthogonal (fst (fst (svd H))) /\ orthogonal (snd (svd H))) ->
  pdist = Ok D -> pperf = Ok P -> length D = length P -> length D <> 1%nat ->
  exists typed, typed_symmetry_measure svd pdist pperf t = Ok typed.
Proof.
  intros Hsvd -> -> Hlen H1.
  destruct (symmetry_measure_transform D P Hsvd Hlen H1)
    as (info & s & rot & Hinfo & Hs & Hr & Hd).
  unfold typed_symmetry_measure. rewrite !bind_Ok_l, Hinfo, bind_Ok_l, Hs, Hr.
  unfold inverse_rotation, inverse_scaling. rewrite (linalg_inv_Ok rot Hd), !bind_Ok_l.
  eauto.
Qed.

(** The six arrays that [__init__] stores. *)
Lemma AbstractGeometry_init_arrays c bare ct inc g :
  AbstractGeometry_init c bare ct inc = Ok g ->
  length (_points_wcs_csc g) = S (length bare) /\
  length (_points_wocs_csc g) = length bare /\
  length (_points_wcs_ctwcc g) = S (length bare) /\
  length (_points_wocs_ctwcc g) = length bare /\
  length (_points_wcs_ctwocc g) = S (length bare) /\
  length (_points_wocs_ctwocc g) = length bare.
Proof.
  intros H. apply AbstractGeometry_init_Ok in H. destruct H as (c0 & -> & _ & _).
  cbn [_points_wcs_csc _points_wocs_csc _points_wcs_ctwcc _points_wocs_ctwcc
       _points_wcs_ctwocc _points_wocs_ctwocc AbstractGeometry_attributes].
  unfold shift_rows. rewrite !length_map. cbn [length]. repeat split.
Qed.

Lemma view_with_centre_Ok (wcs wocs : list V3) perm n :
  length wcs = S n -> length wocs = n -> Permutation perm (seq 0 n) ->
  exists l, view_with_centre wcs wocs (Some perm) = Ok l /\ length l = S n.
Proof.
  intros Hwcs Hwocs Hperm. unfold view_with_centre.
  destruct (take_Ok wocs perm) as (taken & Htaken & Hlen).
  { rewrite Hwocs. apply Forall_forall. intros i Hi. rewrite Hperm in Hi.
    apply elem_of_seq in Hi. lia. }
  rewrite Htaken, bind_Ok_l. eexists. split; [reflexivity|].
  rewrite length_app, length_take, Hwcs, Hlen, (Permutation_length Hperm), length_seq.
  lia.
Qed.

Lemma view_without_centre_Ok (wocs : list V3) perm n :
  length wocs = n -> Permutation perm (seq 0 n) ->
  exists l, view_without_centre wocs (Some perm) = Ok l /\ length l = n.
Proof.
  intros Hwocs Hperm. unfold view_without_centre.
  destruct (take_Ok wocs perm) as (taken & Htaken & Hlen).
  { rewrite Hwocs. apply Forall_forall. intros i Hi. rewrite Hperm in Hi.
    apply elem_of_seq in Hi. lia. }
  exists taken. split; [exact Htaken|].
  rewrite Hlen, (Permutation_length Hperm), length_seq. reflexivity.
Qed.

Lemma update_results_all_csms_Ok self perfect entry permutations imin perm
      c bare ct inc c' bare' ct' inc' :
  (forall H, orthogonal (fst (fst (svd H))) /\ orthogonal (snd (svd H))) ->
  AbstractGeometry_init c bare ct inc = Ok (local_geometry self) ->
  AbstractGeometry_init c' bare' ct' inc' = Ok perfect ->
  length bare' = length bare -> (2 <= length bare)%nat ->
  permutations !! imin = Some perm -> Permutation perm (seq 0 (length bare)) ->
  exists entry',
    _update_results_all_csms svd self perfect entry permutations imin = Ok entry'.
Proof.
  intros Hsvd Hlocal Hperfect Hsame Hn Hperm Hvalid.
  destruct (AbstractGeometry_init_arrays _ _ _ _ _ Hlocal)
    as (L1 & L2 & L3 & L4 & L5 & L6).
  destruct (AbstractGeometry_init_arrays _ _ _ _ _ Hperfect)
    as (P1 & P2 & P3 & P4 & P5 & P6).
  rewrite Hsame in P1, P2, P3, P4, P5, P6.
  unfold _update_results_all_csms.
  apply getitem_Ok in Hperm. rewrite Hperm, bind_Ok_l. cbv zeta.
  destruct (view_without_centre_Ok _ perm _ L6 Hvalid) as (d1 & Hd1 & Hl1).
  destruct (view_without_centre_Ok _ perm _ L4 Hvalid) as (d2 & Hd2 & Hl2).
  destruct (view_without_centre_Ok _ perm _ L2 Hvalid) as (d3 & Hd3 & Hl3).
  destruct (view_with_centre_Ok _ _ perm _ L5 L6 Hvalid) as (d4 & Hd4 & Hl4).
  destruct (view_with_centre_Ok _ _ perm _ L3 L4 Hvalid) as (d5 & Hd5 & Hl5).
  destruct (view_with_centre_Ok _ _ perm _ L1 L2 Hvalid) as (d6 & Hd6 & Hl6).
  destruct (typed_symmetry_measure_Ok
              (points_wocs_ctwocc (local_geometry self) (Some perm))
              (points_wocs_ctwocc perfect None) d1 (_points_wocs_ctwocc perfect)
              (centroid_without_centre (local_geometry self)) Hsvd Hd1 eq_refl)
    as [t1 Ht1]; [lia | lia |].
  destruct (typed_symmetry_measure_Ok
              (points_wocs_ctwcc (local_geometry self) (Some perm))
              (points_wocs_ctwcc perfect None) d2 (_points_wocs_ctwcc perfect)
              (centroid_with_centre (local_geometry self)) Hsvd Hd2 eq_refl)
    as [t2 Ht2]; [lia | lia |].
  destruct (typed_symmetry_measure_Ok
              (points_wocs_csc (local_geometry self) (Some perm))
              (points_wocs_csc perfect None) d3 (_points_wocs_csc perfect)
              (bare_centre (local_geometry self)) Hsvd Hd3 eq_refl)
    as [t3 Ht3]; [lia | lia |].
  destruct (typed_symmetry_measure_Ok
              (points_wcs_ctwocc (local_geometry self) (Some perm))
              (points_wcs_ctwocc perfect None) d4 (_points_wcs_ctwocc perfect)
              (centroid_without_centre (local_geometry self)) Hsvd Hd4 eq_refl)
    as [t4 Ht4]; [lia | lia |].
  destruct (typed_symmetry_measure_Ok
              (points_wcs_ctwcc (local_geometry self) (Some perm))
              (points_wcs_ctwcc perfect None) d5 (_points_wcs_ctwcc perfect)
              (centroid_with_centre (local_geometry self)) Hsvd Hd5 eq_refl)
    as [t5 Ht5]; [lia | lia |].
  destruct (typed_symmetry_measure_Ok
              (points_wcs_csc (local_geometry self) (Some perm))
              (points_wcs_csc perfect None) d6 (_points_wcs_csc perfect)
              (bare_centre (local_geometry self)) Hsvd Hd6 eq_refl)
    as [t6 Ht6]; [lia | lia |].
  rewrite Ht1, bind_Ok_l, Ht2, bind_Ok_l, Ht3, bind_Ok_l, Ht4, bind_Ok_l,
    Ht5, bind_Ok_l, Ht6, bind_Ok_l.
  eauto.
Qed.

Lemma AbstractGeometry_init_total c bare ct inc :
  bare <> [] -> valid_centring ct inc (length bare) ->
  exists g, AbstractGeometry_init c bare ct inc = Ok g.
Proof.
  intros Hbare Hct. destruct bare as [|b bare]; [contradiction|].
  unfold AbstractGeometry_init.
  destruct Hct as [->|[[-> ->]|[-> Hinc]]].
  - rewrite decide_False by discriminate. rewrite decide_False by discriminate.
    rewrite decide_True by reflexivity. cbn. eauto.
  - rewrite decide_False by discriminate. rewrite decide_True by reflexivity.
    cbn. eauto.
  - rewrite decide_True by reflexivity. case_decide as Hlt.
    + rewrite (Hinc Hlt). cbn. eauto.
    + cbn. eauto.
Qed.

Lemma keep_minimum_total self geometry perfect all_csms found
      c bare ct inc c' bare' ct' inc' :
  (forall H, orthogonal (fst (fst (svd H))) /\ orthogonal (snd (svd H))) ->
  AbstractGeometry_init c bare ct inc = Ok (local_geometry self) ->
  AbstractGeometry_init c' bare' ct' inc' = Ok perfect ->
  length bare' = length bare -> (2 <= length bare)%nat ->
  well_formed_result found ->
  (0 < length (sr_symmetry_measures found))%nat ->
  length (sr_permutations found) = length (sr_symmetry_measures found) ->
  Forall (fun perm => Permutation perm (seq 0 (length bare))) (sr_permutations found) ->
  exists entry, keep_minimum svd self geometry perfect all_csms found = Ok entry.
Proof.
  intros Hsvd Hlocal Hperfect Hsame Hn Hwf Hlen Hplen Hperms.
  destruct (keep_minimum_Ok svd self geometry perfect found Hlen Hwf) as [entry Hentry].
  destruct all_csms; [|eauto].
  unfold keep_minimum in Hentry |- *.
  bind_inv_as Hentry imin Himin. bind_inv_as Hentry entry0 Hentry0.
  rewrite Himin, bind_Ok_l, Hentry0, bind_Ok_l.
  destruct (argmin_spec _ _ Himin) as (v & Hv & _).
  apply lookup_lt_Some in Hv. rewrite length_map, <- Hplen in Hv.
  apply lookup_lt_is_Some in Hv. destruct Hv as [perm Hperm].
  apply (update_results_all_csms_Ok self perfect entry0 _ imin perm
           c bare ct inc c' bare' ct' inc' Hsvd Hlocal Hperfect Hsame Hn Hperm).
  exact (Forall_lookup_1 _ _ _ _ Hperms Hperm).
Qed.

Lemma measures_loop_total self all_csms optimization c bare ct inc geoms :
  (forall H, orthogonal (fst (fst (svd H))) /\ orthogonal (snd (svd H))) ->
  AbstractGeometry_init c bare ct inc = Ok (local_geometry self) ->
  (2 <= length bare)%nat ->
  permutations_safe_override self = false ->
  valid_centring (centering_type self) (include_central_site_in_centroid self)
                 (length bare) ->
  Forall (explicit_geometry_on (length bare)) geoms ->
  forall dict rng,
  exists dict',
    measures_loop self true all_csms optimization geoms dict rng = Ok (dict', rng) /\
    (forall symbol entry, dict !! symbol = Some (MinimumResult entry) ->
       exists entry', dict' !! symbol = Some (MinimumResult entry')) /\
    (forall g algo rest, g ∈ geoms ->
       algorithms g = Some (ExplicitPermutations algo :: rest) ->
       epa_permutations algo <> [] ->
       exists entry, dict' !! mp_symbol g = Some (MinimumResult entry)).
Proof.
  intros Hsvd Hlocal Hn Hover Hct Hgeoms.
  destruct (AbstractGeometry_init_lengths _ _ _ _ _ Hlocal) as (Hwocs & Hwcs & _ & _).
  induction Hgeoms as [|g geoms Hg Hgeoms IH]; intros dict rng.
  - exists dict. cbn [symmetry_measures_loop]. split; [reflexivity|].
    split; [eauto|]. intros g algo rest Hin. apply elem_of_nil in Hin. contradiction.
  - destruct Hg as (pts & algo & rest & Hpts & Hplen & Halgos & Hperms).
    cbn [symmetry_measures_loop]. unfold from_cg. rewrite Hpts.
    destruct (AbstractGeometry_init_total (get_central_site g) pts (centering_type self)
                (include_central_site_in_centroid self)) as [perfect Hperfect].
    { intros ->. cbn in Hplen. lia. }
    { now rewrite Hplen. }
    rewrite Hperfect, bind_Ok_l.
    destruct (AbstractGeometry_init_lengths _ _ _ _ _ Hperfect) as (_ & Hpwcs & _ & _).
    unfold points_wcs_ctwcc at 1. cbn [view_with_centre]. rewrite bind_Ok_l.
    destruct (search_standard_Ok self g algo (_points_wcs_ctwcc perfect) optimization
                c bare ct inc Hlocal) as (found & Hfound & Hfp & Hfl & _).
    { now rewrite Hpwcs, Hplen. }
    { exact Hperms. }
    unfold coordination_geometry_symmetry_measures.
    rewrite Hover, Halgos. cbn [algorithms_loop]. rewrite Hfound, !bind_Ok_l.
    assert (Hne : Forall (fun perm : list nat => perm <> []) (epa_permutations algo)).
    { eapply Forall_impl; [exact Hperms|]. intros perm Hp ->.
      apply Permutation_length in Hp. rewrite length_seq in Hp. cbn in Hp. lia. }
    assert (Hwf : well_formed_result found).
    { eapply (search_standard_well_formed svd); try eassumption. lia. }
    case_decide as Hlen.
    + destruct (keep_minimum_total self g perfect all_csms found
                  c bare ct inc (get_central_site g) pts (centering_type self)
                  (include_central_site_in_centroid self) Hsvd Hlocal Hperfect Hplen Hn
                  Hwf Hlen) as [entry Hentry].
      { now rewrite Hfp, Hfl. }
      { now rewrite Hfp. }
      rewrite Hentry, !bind_Ok_l.
      destruct (IH (<[mp_symbol g := MinimumResult entry]> dict) rng)
        as (dict' & Hloop & Hkeep & Hall).
      exists dict'. split; [exact Hloop|]. split.
      * intros symbol e He.
        destruct (decide (mp_symbol g = symbol)) as [<-|Hsym].
        -- apply (Hkeep (mp_symbol g) entry). apply lookup_insert_eq.
        -- apply (Hkeep symbol e). now rewrite lookup_insert_ne.
      * intros g' algo' rest' Hin Halgos' Hne'.
        apply elem_of_cons in Hin as [->|Hin].
        -- apply (Hkeep (mp_symbol g) entry). apply lookup_insert_eq.
        -- eapply Hall; eassumption.
    + rewrite bind_Ok_l.
      destruct (IH dict rng) as (dict' & Hloop & Hkeep & Hall).
      exists dict'. split; [exact Hloop|]. split; [exact Hkeep|].
      intros g' algo' rest' Hin Halgos' Hne'.
      apply elem_of_cons in Hin as [->|Hin].
      * exfalso. rewrite Halgos in Halgos'. injection Halgos' as <- _.
        rewrite Hfl in Hlen. destruct (epa_permutations algo); [contradiction|].
        cbn in Hlen. lia.
      * eapply Hall; eassumption.
Qed.

(** X25.  On at least two neighbours, with a catalogue whose geometries for
    that coordination number start with an explicit list of permutations of
    the neighbour indices, the orchestrator raises nothing: it returns a
    dictionary with a minimum entry for every such geometry that lists a
    permutation, and leaves the random generator as it was. *)
Theorem explicit_catalogue_search_returns self all_csms optimization rng c bare ct inc :
  (forall H, orthogonal (fst (fst (svd H))) /\ orthogonal (snd (svd H))) ->
  AbstractGeometry_init c bare ct inc = Ok (local_geometry self) ->
  (2 <= length bare)%nat ->
  permutations_safe_override self = false ->
  valid_centring (centering_type self) (include_central_site_in_centroid self)
                 (length bare) ->
  Forall (explicit_geometry_on (length bare))
         (get_implemented_geometries (allcg self) (Some (length bare)) false) ->
  exists dict,
    get_measures self true all_csms optimization rng = Ok (dict, rng) /\
    (forall g algo rest,
       g ∈ get_implemented_geometries (allcg self) (Some (length bare)) false ->
       algorithms g = Some (ExplicitPermutations algo :: rest) ->
       epa_permutations algo <> [] ->
       exists entry, dict !! mp_symbol g = Some (MinimumResult entry)).
Proof.
  intros Hsvd Hlocal Hn Hover Hct Hgeoms.
  destruct (AbstractGeometry_init_lengths _ _ _ _ _ Hlocal) as (_ & _ & Hcoords & _).
  unfold get_coordination_symmetry_measures. cbv zeta. rewrite Hcoords.
  rewrite decide_False by lia.
  destruct (measures_loop_total self all_csms optimization c bare ct inc _
              Hsvd Hlocal Hn Hover Hct Hgeoms ∅ rng) as (dict & Hloop & _ & Hall).
  exists dict. split; [exact Hloop | exact Hall].
Qed.

End OrchestratorTotal.

(** ** The searches and the orchestrators on two neighbours *)

Lemma segment_geometry_init :
  AbstractGeometry_init vzero segment_pair "central_site" false
  = Ok (local_geometry two_point_finder).
Proof. reflexivity. Qed.

(** The orchestrator on two neighbours with the keys of [all_csms], and
    without [only_minimum]. *)
Lemma two_point_all_csms_run :
  exists dict entry,
    get_coordination_symmetry_measures
      svd_two unit always_collinear the_plane_3 the_plane_n one_on_each_side
      keep_separation separation_is_listed no_projection nat identity_draw
      two_point_finder true true None 0%nat = Ok (dict, 0%nat) /\
    dict !! "L:2" = Some (MinimumResult entry).
Proof.
  destruct (measures_loop_total
              svd_two unit always_collinear the_plane_3 the_plane_n one_on_each_side
              keep_separation separation_is_listed no_projection nat identity_draw
              two_point_finder true None vzero segment_pair "central_site" false
              [two_point_single_geometry] svd_two_orthogonal segment_geometry_init)
    with (dict := (∅ : gmap string geometry_result)) (rng := 0%nat)
    as (dict & Hloop & _ & Hall).
  - simpl; lia.
  - reflexivity.
  - left. reflexivity.
  - constructor; [|constructor].
    exists segment_pair, two_point_single_algo, [].
    split; [reflexivity|]. split; [reflexivity|]. split; [reflexivity|].
    constructor; [reflexivity | constructor].
  - destruct (Hall two_point_single_geometry two_point_single_algo [])
      as [entry Hentry].
    + apply list_elem_of_here.
    + reflexivity.
    + discriminate.
    + exists dict, entry. split; [|exact Hentry].
      unfold get_coordination_symmetry_measures.
      rewrite decide_False by (cbn; lia).
      change (get_implemented_geometries _ _ _) with [two_point_single_geometry].
      exact Hloop.
Qed.

Lemma two_point_all_results_run :
  exists found,
    get_coordination_symmetry_measures
      svd_two unit always_collinear the_plane_3 the_plane_n one_on_each_side
      keep_separation separation_is_listed no_projection nat identity_draw
      two_point_finder false false None 0%nat
    = Ok (<["L:2" := AllResults found]> ∅, 0%nat).
Proof.
  destruct two_point_search_run as (found0 & _ & Hp & _).
  destruct two_point_orchestrator_run as (found & _ & Hsearch & _).
  exists found.
  unfold get_coordination_symmetry_measures.
  rewrite decide_False by (cbn; lia).
  change (get_implemented_geometries _ _ _) with [two_point_single_geometry].
  cbn [symmetry_measures_loop].
  rewrite Hp, bind_Ok_l.
  change (points_wcs_ctwcc two_point_perfect None)
    with (Ok (_points_wcs_ctwcc two_point_perfect) : pyresult (list V3)).
  rewrite bind_Ok_l, Hsearch, !bind_Ok_l. reflexivity.
Qed.

Lemma permutations_safe_override_raises_witness :
  get_coordination_symmetry_measures
    svd_two unit always_collinear the_plane_3 the_plane_n one_on_each_side
    keep_separation separation_is_listed no_projection nat identity_draw
    two_point_override_finder true false None 0%nat
  = Raise ValueError.
Proof.
  destruct (permutations_safe_override_raises
              svd_two unit always_collinear the_plane_3 the_plane_n one_on_each_side
              keep_separation separation_is_listed no_projection nat identity_draw
              two_point_override_finder eq_refl) as [_ Hrun].
  destruct (Hrun true false None 0%nat) as (_ & Hraise & _).
  - cbn. lia.
  - apply (Hraise two_point_single_geometry [] two_point_perfect); reflexivity.
Defined.

Lemma explicit_algorithm_ends_search_witness :
  exists found rng',
    coordination_geometry_symmetry_measures
      svd_two unit always_collinear the_plane_3 the_plane_n one_on_each_side
      keep_separation separation_is_listed no_projection nat identity_draw
      two_point_finder two_point_mixed_geometry false
      (_points_wcs_ctwcc two_point_perfect) None 0%nat = Ok (found, rng') /\
    coordination_geometry_symmetry_measures_standard
      svd_two two_point_finder two_point_mixed_geometry two_point_single_algo
      (_points_wcs_ctwcc two_point_perfect) None = Ok found.
Proof.
  destruct (coordination_geometry_symmetry_measures
      svd_two unit always_collinear the_plane_3 the_plane_n one_on_each_side
      keep_separation separation_is_listed no_projection nat identity_draw
      two_point_finder two_point_mixed_geometry false
      (_points_wcs_ctwcc two_point_perfect) None 0%nat) as [[found rng']|e] eqn:E;
    [|discriminate E].
  exists found, rng'. split; [reflexivity|].
  destruct (explicit_algorithm_ends_search
              svd_two unit always_collinear the_plane_3 the_plane_n one_on_each_side
              keep_separation separation_is_listed no_projection nat identity_draw
              two_point_finder two_point_mixed_geometry false
              (_points_wcs_ctwcc two_point_perfect) None eq_refl) as (_ & Hplanes & _).
  apply (Hplanes [SeparationPlaneAlgo between_plane_algo] two_point_single_algo []
                 0%nat found rng' eq_refl).
  - repeat constructor.
  - exact E.
Defined.

Lemma get_coordination_symmetry_measures_optim_dispatch_witness :
  get_coordination_symmetry_measures_optim
    svd_two unit always_collinear the_plane_3 the_plane_n one_on_each_side
    keep_separation separation_is_listed no_projection nat identity_draw
    nat explicit_search_as_optim two_point_finder true false None 0%nat 0%nat
  = ('(result_dict, rng') ←
       get_coordination_symmetry_measures
         svd_two unit always_collinear the_plane_3 the_plane_n one_on_each_side
         keep_separation separation_is_listed no_projection nat identity_draw
         two_point_finder true false None 0%nat;
     Ok (result_dict, rng', 0%nat)) /\
  get_coordination_symmetry_measures_optim
    svd_two unit always_collinear the_plane_3 the_plane_n one_on_each_side
    keep_separation separation_is_listed no_projection nat identity_draw
    nat explicit_search_as_optim
    (finder_on [two_point_plane_geometry; two_point_single_geometry] segment_geometry)
    true false None 0%nat 0%nat
  = Raise ValueError.
Proof.
  split.
  - apply (get_coordination_symmetry_measures_optim_dispatch
             svd_two unit always_collinear the_plane_3 the_plane_n one_on_each_side
             keep_separation separation_is_listed no_projection nat identity_draw
             nat explicit_search_as_optim two_point_finder true false None 0%nat 0%nat).
    + change (get_implemented_geometries _ _ _) with [two_point_single_geometry].
      constructor; [|constructor]. eexists _, _. reflexivity.
    + change (get_implemented_geometries _ _ _) with [two_point_single_geometry].
      constructor; [|constructor]. eexists _, _. reflexivity.
  - apply (get_coordination_symmetry_measures_optim_dispatch
             svd_two unit always_collinear the_plane_3 the_plane_n one_on_each_side
             keep_separation separation_is_listed no_projection nat identity_draw
             nat explicit_search_as_optim
             (finder_on [two_point_plane_geometry; two_point_single_geometry]
                        segment_geometry)
             true false None 0%nat 0%nat).
    + change (get_implemented_geometries _ _ _)
        with [two_point_plane_geometry; two_point_single_geometry].
      constructor; [|constructor; [|constructor]]; eexists _, _; reflexivity.
    + change (get_implemented_geometries _ _ _)
        with [two_point_plane_geometry; two_point_single_geometry].
      apply Exists_cons_hd. eexists _, _. reflexivity.
    + change (get_implemented_geometries _ _ _)
        with [two_point_plane_geometry; two_point_single_geometry].
      apply Exists_cons_tl, Exists_cons_hd.
      exists [ExplicitPermutations two_point_single_algo],
             (ExplicitPermutations two_point_single_algo).
      split; [reflexivity|]. split; [apply list_elem_of_here | reflexivity].
Defined.

Lemma search_results_in_step_witness :
  exists found,
    coordination_geometry_symmetry_measures
      svd_two unit always_collinear the_plane_3 the_plane_n one_on_each_side
      keep_separation separation_is_listed no_projection nat identity_draw
      two_point_finder two_point_single_geometry false
      (_points_wcs_ctwcc two_point_perfect) None 0%nat = Ok (found, 0%nat) /\
    Forall2 (fun perm info =>
               permutation_symmetry_measure
                 svd_two two_point_finder (_points_wcs_ctwcc two_point_perfect) perm
               = Ok info)
            (sr_permutations found) (sr_symmetry_measures found) /\
    sr_perfect2local_maps found = map perfect2local_map_of (sr_permutations found).
Proof.
  destruct two_point_orchestrator_run as (found & _ & Hsearch & _).
  exists found. split; [exact Hsearch|].
  destruct (search_results_in_step
              svd_two unit always_collinear the_plane_3 the_plane_n one_on_each_side
              keep_separation separation_is_listed no_projection nat identity_draw
              _ _ _ _ _ _ _ _ Hsearch) as (Hstep & _ & _ & _ & Hmaps).
  split; [exact Hstep | exact Hmaps].
Defined.


Lemma all_results_dictionary_witness :
  exists dict found,
    get_coordination_symmetry_measures
      svd_two unit always_collinear the_plane_3 the_plane_n one_on_each_side
      keep_separation separation_is_listed no_projection nat identity_draw
      two_point_finder false false None 0%nat = Ok (dict, 0%nat) /\
    dict !! "L:2" = Some (AllResults found) /\
    length (sr_symmetry_measures found) = length (sr_permutations found) /\
    dict !! "UNKNOWN" = None.
Proof.
  destruct two_point_all_results_run as (found & Hrun).
  assert (Hcn : length (coords (local_geometry two_point_finder)) <> 1%nat)
    by (cbn; lia).
  destruct (all_results_dictionary
              svd_two unit always_collinear the_plane_3 the_plane_n one_on_each_side
              keep_separation separation_is_listed no_projection nat identity_draw
              two_point_finder false None 0%nat _ _ Hcn Hrun) as [Hkeys Hvalues].
  destruct (Hvalues "L:2" (AllResults found) (lookup_insert_eq _ _ _))
    as (_ & _ & _ & fd & _ & _ & _ & _ & _ & _ & _ & Hvalue & Hlen).
  injection Hvalue as <-.
  exists (<["L:2" := AllResults found]> ∅), found.
  split; [exact Hrun|]. split; [apply lookup_insert_eq|]. split; [exact Hlen|].
  apply eq_None_not_Some. intros Hsome. apply Hkeys in Hsome.
  destruct Hsome as (geometry & Hin & Hsym).
  change (get_implemented_geometries _ _ _) with [two_point_single_geometry] in Hin.
  apply list_elem_of_singleton in Hin. subst geometry. discriminate Hsym.
Defined.

Lemma all_csms_repeat_the_minimum_witness :
  exists dict entry typed,
    get_coordination_symmetry_measures
      svd_two unit always_collinear the_plane_3 the_plane_n one_on_each_side
      keep_separation separation_is_listed no_projection nat identity_draw
      two_point_finder true true None 0%nat = Ok (dict, 0%nat) /\
    dict !! "L:2" = Some (MinimumResult entry) /\
    map fst (entry_all_csms entry) = csm_types /\
    ("wcs_ctwcc", typed) ∈ entry_all_csms entry /\
    tc_csm typed = entry_csm entry.
Proof.
  destruct two_point_all_csms_run as (dict & entry & Hrun & Hentry).
  assert (Hcn : length (coords (local_geometry two_point_finder)) <> 1%nat)
    by (cbn; lia).
  destruct (all_csms_repeat_the_minimum
              svd_two unit always_collinear the_plane_3 the_plane_n one_on_each_side
              keep_separation separation_is_listed no_projection nat identity_draw
              two_point_finder None 0%nat _ _ Hcn Hrun "L:2" entry Hentry)
    as (Hkeys & typed & Hin & Hcsm & _).
  exists dict, entry, typed.
  split; [exact Hrun|]. split; [exact Hentry|]. split; [exact Hkeys|].
  split; [exact Hin | exact Hcsm].
Defined.

Lemma standard_search_returns_one_measure_per_permutation_witness :
  (exists r,
     coordination_geometry_symmetry_measures_standard
       svd_two two_point_finder two_point_explicit_geometry two_point_explicit_algo
       (_points_wcs_ctwcc two_point_perfect) None = Ok r /\
     sr_permutations r = [[0; 1]; [1; 0]]%nat /\
     length (sr_symmetry_measures r) = 2%nat) /\
  coordination_geometry_symmetry_measures_standard
    svd_two two_point_finder two_point_explicit_geometry
    {| epa_permutations := [[0; 2]]%nat |}
    (_points_wcs_ctwcc two_point_perfect) None = Raise IndexError /\
  coordination_geometry_symmetry_measures_standard
    svd_two two_point_finder two_point_explicit_geometry
    {| epa_permutations := [[0]]%nat |}
    (_points_wcs_ctwcc two_point_perfect) None = Raise ValueError.
Proof.
  split; [|split].
  - destruct (standard_search_returns_one_measure_per_permutation
                svd_two two_point_finder two_point_explicit_geometry
                two_point_explicit_algo (_points_wcs_ctwcc two_point_perfect) None
                vzero segment_pair "central_site" false eq_refl eq_refl)
      as (Hok & _).
    destruct Hok as (r & Hr & Hperms & Hlen & _).
    + constructor; [reflexivity|]. constructor; [apply perm_swap | constructor].
    + exists r. split; [exact Hr|]. split; [exact Hperms | exact Hlen].
  - destruct (standard_search_returns_one_measure_per_permutation
                svd_two two_point_finder two_point_explicit_geometry
                {| epa_permutations := [[0; 2]]%nat |}
                (_points_wcs_ctwcc two_point_perfect) None
                vzero segment_pair "central_site" false eq_refl eq_refl)
      as (_ & Hindex & _).
    apply (Hindex [0; 2]%nat [] eq_refl).
    apply Exists_cons_tl, Exists_cons_hd. simpl. lia.
  - destruct (standard_search_returns_one_measure_per_permutation
                svd_two two_point_finder two_point_explicit_geometry
                {| epa_permutations := [[0]]%nat |}
                (_points_wcs_ctwcc two_point_perfect) None
                vzero segment_pair "central_site" false eq_refl eq_refl)
      as (_ & _ & Hvalue).
    apply (Hvalue [0]%nat [] eq_refl).
    + repeat constructor.
    + discriminate.
    + simpl. lia.
Defined.

Lemma explicit_catalogue_search_returns_witness :
  exists dict entry,
    get_coordination_symmetry_measures
      svd_two unit always_collinear the_plane_3 the_plane_n one_on_each_side
      keep_separation separation_is_listed no_projection nat identity_draw
      two_point_finder true true None 0%nat = Ok (dict, 0%nat) /\
    dict !! "L:2" = Some (MinimumResult entry).
Proof.
  destruct (explicit_catalogue_search_returns
              svd_two unit always_collinear the_plane_3 the_plane_n one_on_each_side
              keep_separation separation_is_listed no_projection nat identity_draw
              two_point_finder true None 0%nat vzero segment_pair "central_site" false
              svd_two_orthogonal eq_refl) as (dict & Hrun & Hall).
  - simpl; lia.
  - reflexivity.
  - left. reflexivity.
  - change (get_implemented_geometries _ _ _) with [two_point_single_geometry].
    constructor; [|constructor].
    exists segment_pair, two_point_single_algo, [].
    split; [reflexivity|]. split; [reflexivity|]. split; [reflexivity|].
    constructor; [reflexivity | constructor].
  - destruct (Hall two_point_single_geometry two_point_single_algo [])
      as [entry Hentry].
    + change (get_implemented_geometries _ _ _) with [two_point_single_geometry].
      apply list_elem_of_here.
    + reflexivity.
    + discriminate.
    + exists dict, entry. split; [exact Hrun | exact Hentry].
Defined.
